(** * TAD.RV kernel enforcement engine: shallow embedding and properties

    The development follows [Kernel/TAD_RV.c], [Kernel/TAD_RV.h] and
    [Shared/TadShared.h].  Machine integers are [Z] with their wrap-around
    written out, byte arrays are [list byte], wide-character arrays are
    lists of 16-bit code units, pointers are [Z] (NULL is [0]) or [option]
    where the pointee is modelled, and the driver globals [g_Tad] are an
    explicit record threaded through every routine. *)

From Stdlib Require Import ZArith Bool Lia String Ascii List.
From Stdlib Require Import Strings.Byte.
Import ListNotations.
Local Open Scope Z_scope.

(* ===================================================================== *)
(** ** Machine data *)
(* ===================================================================== *)

Definition UCHAR := byte.
Definition WCHAR := Z.          (* 16-bit code unit *)
Definition USHORT := Z.
Definition ULONG := Z.
Definition LONG := Z.
Definition LONGLONG := Z.
Definition HANDLE := Z.         (* NULL = 0 *)
Definition PEPROCESS := Z.      (* NULL = 0 *)
Definition NTSTATUS := Z.
Definition ACCESS_MASK := Z.

(** Value of a byte as a C integer (integer promotion of a UCHAR). *)
Definition u8 (b : UCHAR) : Z := Z.of_N (Byte.to_N b).

(** Conversion of a C integer to UCHAR (keeps the low eight bits). *)
Definition to_UCHAR (z : Z) : UCHAR :=
  match Byte.of_N (Z.to_N (Z.land z 255)) with
  | Some b => b
  | None => x00
  end.

Definition to_ULONG (z : Z) : ULONG := z mod 2 ^ 32.
Definition to_USHORT (z : Z) : USHORT := z mod 2 ^ 16.

(** Reinterpretation as a signed 32-bit / 64-bit integer. *)
Definition to_LONG (z : Z) : LONG := (z + 2 ^ 31) mod 2 ^ 32 - 2 ^ 31.
Definition to_LONGLONG (z : Z) : LONGLONG := (z + 2 ^ 63) mod 2 ^ 64 - 2 ^ 63.

(** Array read and array store.  A read outside the modelled bytes yields
    the default; a store outside them leaves the array as it is. *)
Definition rd {A} (d : A) (l : list A) (i : nat) : A := nth i l d.

Fixpoint wr {A} (l : list A) (i : nat) (x : A) : list A :=
  match l, i with
  | [], _ => []
  | _ :: t, O => x :: t
  | h :: t, S j => h :: wr t j x
  end.

(** Wide string literal [L"..."] as its code units (without the NUL). *)
Definition L (s : string) : list WCHAR :=
  map (fun a => Z.of_N (N_of_ascii a)) (list_ascii_of_string s).

(* ===================================================================== *)
(** ** Constants of [TAD_RV.h] and [TadShared.h] *)
(* ===================================================================== *)

Definition TAD_VERSION_MAJOR : Z := 26500.
Definition TAD_VERSION_MINOR : Z := 181.

Definition TAD_DRIVER_FILENAME  : list WCHAR := L "TAD.RV.sys".
Definition TAD_UI_FILENAME      : list WCHAR := L "TAD.RV.exe".
Definition TAD_SERVICE_FILENAME : list WCHAR := L "TadBridgeService.exe".

Definition TAD_AUTH_KEY_SIZE : nat := 32.
Definition TAD_KEY_XOR_MASK : UCHAR := xa7.   (* 0xA7 *)

Definition TadObfuscatedKey : list UCHAR :=
  map to_UCHAR
    [ 0xF3; 0xE6; 0xE3; 0x8A; 0xF5; 0xF1; 0x89; 0xF4;
      0xE2; 0xE4; 0xF2; 0xF5; 0xEE; 0xF3; 0xF2; 0xEC;
      0xE2; 0xFE; 0x97; 0x96; 0x95; 0x94; 0x93; 0x92;
      0xEA; 0xE8; 0xE9; 0xEE; 0xF3; 0xE8; 0xE9; 0x86 ].

Definition TAD_MAX_UNLOCK_ATTEMPTS : Z := 5.
Definition TAD_LOCKOUT_DURATION : LONGLONG := -30 * 10 * 1000 * 1000.
Definition TAD_HEARTBEAT_TIMEOUT_MS : Z := 6000.

Definition TAD_MAX_OU_LENGTH : nat := 256.
Definition TAD_MAX_SID_LENGTH : nat := 68.
Definition TAD_MAX_BANNED_APPS : nat := 32.
Definition TAD_MAX_IMAGE_NAME_LEN : nat := 64.

Definition TAD_POLICY_FLAG_BLOCK_APPS : Z := 0x00000010.

Definition TadRoleUnknown : Z := 0xFF.
Definition TadAlertNone : Z := 0.

(* ===================================================================== *)
(** ** Secret verification, with its byte operations counted *)
(* ===================================================================== *)

(** A computation that returns a value together with the number of byte
    operations ([^] and [|] on UCHAR operands) it has executed. *)
Module Ops.
Definition M (A : Type) : Type := (A * nat)%type.
Definition ret {A} (a : A) : M A := (a, O).
Definition bind {A B} (m : M A) (f : A -> M B) : M B :=
  let (a, n) := m in let (b, k) := f a in (b, (n + k)%nat).
Definition op {A} (a : A) : M A := (a, 1%nat).
Definition value {A} (m : M A) : A := fst m.
Definition count {A} (m : M A) : nat := snd m.
End Ops.

Notation "x <~ c ;; k" := (Ops.bind c (fun x => k))
  (at level 61, c at next level, right associativity).

(** [a ^ b] on two UCHAR operands (an int in C), one byte operation. *)
Definition byte_xor (a b : UCHAR) : Ops.M Z := Ops.op (Z.lxor (u8 a) (u8 b)).

(** [diff |= x], stored back into a UCHAR, one byte operation. *)
Definition byte_or_assign (diff : UCHAR) (x : Z) : Ops.M UCHAR :=
  Ops.op (to_UCHAR (Z.lor (u8 diff) x)).

(** First loop: [decoded[i] = TadObfuscatedKey[i] ^ TAD_KEY_XOR_MASK],
    for [i] from [i] up, [n] iterations left. *)
Fixpoint decode_loop (n i : nat) (decoded : list UCHAR) : Ops.M (list UCHAR) :=
  match n with
  | O => Ops.ret decoded
  | S n' =>
      x <~ byte_xor (rd x00 TadObfuscatedKey i) TAD_KEY_XOR_MASK ;;
      decode_loop n' (S i) (wr decoded i (to_UCHAR x))
  end.

(** Second loop: [diff |= (decoded[i] ^ ProvidedKey[i])]. *)
Fixpoint compare_loop (n i : nat) (decoded ProvidedKey : list UCHAR)
    (diff : UCHAR) : Ops.M UCHAR :=
  match n with
  | O => Ops.ret diff
  | S n' =>
      x <~ byte_xor (rd x00 decoded i) (rd x00 ProvidedKey i) ;;
      d <~ byte_or_assign diff x ;;
      compare_loop n' (S i) decoded ProvidedKey d
  end.

Definition TadVerifyAuthKey_counted (ProvidedKey : list UCHAR) : Ops.M bool :=
  decoded <~ decode_loop TAD_AUTH_KEY_SIZE 0 (repeat x00 TAD_AUTH_KEY_SIZE) ;;
  diff <~ compare_loop TAD_AUTH_KEY_SIZE 0 decoded ProvidedKey x00 ;;
  (* RtlSecureZeroMemory(decoded, sizeof(decoded)) wipes the local copy *)
  Ops.ret (u8 diff =? 0).

Definition TadVerifyAuthKey (ProvidedKey : list UCHAR) : bool :=
  Ops.value (TadVerifyAuthKey_counted ProvidedKey).

(** The stored secret, de-obfuscated. *)
Definition AuthSecret : list UCHAR :=
  map (fun o => to_UCHAR (Z.lxor (u8 o) (u8 TAD_KEY_XOR_MASK))) TadObfuscatedKey.

(* ===================================================================== *)
(** ** Counted wide strings and the kernel's string comparison *)
(* ===================================================================== *)

(** [UNICODE_STRING]: [Length] and [MaximumLength] are in bytes; [Buffer]
    is [None] for a NULL pointer, otherwise the code units it points to. *)
Record UNICODE_STRING := {
  Length : USHORT;
  MaximumLength : USHORT;
  Buffer : option (list WCHAR)
}.

(** [RtlInitUnicodeString] on a NUL-terminated literal. *)
Definition RtlInitUnicodeString (src : list WCHAR) : UNICODE_STRING :=
  {| Length := 2 * Z.of_nat (length src);
     MaximumLength := 2 * Z.of_nat (length src) + 2;
     Buffer := Some src |}.

(** The [Length / sizeof(WCHAR)] code units a counted string denotes. *)
Definition chars (s : UNICODE_STRING) : list WCHAR :=
  let b := match Buffer s with Some b => b | None => [] end in
  map (rd 0 b) (seq 0 (Z.to_nat (Length s / 2))).

Section StringComparison.

(** The upper-casing table of the running system for code units above
    ['z'] is a primitive of the host kernel. *)
Variable NlsUpcase : WCHAR -> WCHAR.

Definition RtlUpcaseUnicodeChar (c : WCHAR) : WCHAR :=
  if c <? 97 then c                    (* below 'a' *)
  else if c <=? 122 then c - 32        (* 'a' .. 'z' *)
  else NlsUpcase c.

(** Character loop of [RtlCompareUnicodeString] with [CaseInSensitive]
    set: difference of the first pair of upper-cased units that differ,
    over the common prefix. *)
Fixpoint compare_units (l1 l2 : list WCHAR) : Z :=
  match l1, l2 with
  | c1 :: t1, c2 :: t2 =>
      let d := RtlUpcaseUnicodeChar c1 - RtlUpcaseUnicodeChar c2 in
      if d =? 0 then compare_units t1 t2 else d
  | _, _ => 0
  end.

Definition RtlCompareUnicodeString (s1 s2 : UNICODE_STRING) : LONG :=
  let r := compare_units (chars s1) (chars s2) in
  if r =? 0 then Length s1 - Length s2 else r.

Fixpoint equal_units (l1 l2 : list WCHAR) : bool :=
  match l1, l2 with
  | [], [] => true
  | c1 :: t1, c2 :: t2 =>
      (RtlUpcaseUnicodeChar c1 =? RtlUpcaseUnicodeChar c2) && equal_units t1 t2
  | _, _ => false
  end.

(** [RtlEqualUnicodeString] with [CaseInSensitive] set. *)
Definition RtlEqualUnicodeString (s1 s2 : UNICODE_STRING) : bool :=
  (Length s1 =? Length s2) && equal_units (chars s1) (chars s2).

(** Two names are equal case-insensitively when they have the same
    upper-cased code units. *)
Definition CaseInsensitiveEq (l1 l2 : list WCHAR) : Prop :=
  map RtlUpcaseUnicodeChar l1 = map RtlUpcaseUnicodeChar l2.

Definition TadIsProtectedFilename (FileName : UNICODE_STRING) : bool :=
  let driverName := RtlInitUnicodeString TAD_DRIVER_FILENAME in
  let uiName     := RtlInitUnicodeString TAD_UI_FILENAME in
  let svcName    := RtlInitUnicodeString TAD_SERVICE_FILENAME in
  if RtlCompareUnicodeString FileName driverName =? 0 then true
  else if RtlCompareUnicodeString FileName uiName =? 0 then true
  else if RtlCompareUnicodeString FileName svcName =? 0 then true
  else false.

End StringComparison.

(** The fixed set of protected file names. *)
Definition ProtectedFilenameSet : list (list WCHAR) :=
  [TAD_DRIVER_FILENAME; TAD_UI_FILENAME; TAD_SERVICE_FILENAME].

(* ===================================================================== *)
(** ** Request payloads (the system buffer, read by offset) *)
(* ===================================================================== *)

Definition ULONG_at (buf : list byte) (off : nat) : ULONG :=
  u8 (rd x00 buf off)
  + 2 ^ 8  * u8 (rd x00 buf (off + 1))
  + 2 ^ 16 * u8 (rd x00 buf (off + 2))
  + 2 ^ 24 * u8 (rd x00 buf (off + 3)).

Definition WCHAR_at (buf : list byte) (off : nat) : WCHAR :=
  u8 (rd x00 buf off) + 2 ^ 8 * u8 (rd x00 buf (off + 1)).

Definition WCHARs_at (buf : list byte) (off n : nat) : list WCHAR :=
  map (fun j => WCHAR_at buf (off + 2 * j)) (seq 0 n).

Definition ULONGs_at (buf : list byte) (off n : nat) : list ULONG :=
  map (fun j => ULONG_at buf (off + 4 * j)) (seq 0 n).

(** [sizeof] of the payload structures ([#pragma pack(push, 8)]). *)
Definition sizeof_TAD_PROTECT_PID_INPUT   : Z := 8.
Definition sizeof_TAD_UNLOCK_INPUT        : Z := 32.
Definition sizeof_TAD_HEARTBEAT_OUTPUT    : Z := 28.
Definition sizeof_TAD_SET_USER_ROLE_INPUT : Z := 8 + 2 * Z.of_nat TAD_MAX_SID_LENGTH.
Definition sizeof_TAD_POLICY_BUFFER       : Z := 16 + 2 * Z.of_nat TAD_MAX_OU_LENGTH + 4 + 32.
Definition sizeof_TAD_ALERT_OUTPUT        : Z := 280.
Definition sizeof_TAD_HARD_LOCK_INPUT     : Z := 8.
Definition sizeof_TAD_PROTECT_UI_INPUT    : Z := 8.
Definition sizeof_TAD_STEALTH_INPUT       : Z := 8.
Definition sizeof_TAD_BANNED_APPS_INPUT   : Z :=
  4 + 2 * Z.of_nat (TAD_MAX_BANNED_APPS * TAD_MAX_IMAGE_NAME_LEN).

(** Fields of [TAD_PROTECT_PID_INPUT]. *)
Definition PROTECT_PID_TargetPid (p : list byte) : ULONG := ULONG_at p 0.
Definition PROTECT_PID_Flags (p : list byte) : ULONG := ULONG_at p 4.

(** [AuthKey] of [TAD_UNLOCK_INPUT]: the buffer from its first byte. *)
Definition UNLOCK_AuthKey (p : list byte) : list UCHAR := p.

(** Fields of [TAD_SET_USER_ROLE_INPUT]. *)
Definition SET_USER_ROLE_Role (p : list byte) : ULONG := ULONG_at p 0.
Definition SET_USER_ROLE_SessionId (p : list byte) : ULONG := ULONG_at p 4.

(** Fields of [TAD_HARD_LOCK_INPUT], [TAD_PROTECT_UI_INPUT], [TAD_STEALTH_INPUT]. *)
Definition HARD_LOCK_Enable (p : list byte) : ULONG := ULONG_at p 0.
Definition PROTECT_UI_TargetPid (p : list byte) : ULONG := ULONG_at p 0.
Definition PROTECT_UI_Protect (p : list byte) : ULONG := ULONG_at p 4.
Definition STEALTH_Enable (p : list byte) : ULONG := ULONG_at p 0.
Definition STEALTH_Flags (p : list byte) : ULONG := ULONG_at p 4.

(** Fields of [TAD_BANNED_APPS_INPUT]. *)
Definition BANNED_APPS_Count (p : list byte) : ULONG := ULONG_at p 0.
Definition BANNED_APPS_ImageName (p : list byte) (i : nat) : list WCHAR :=
  WCHARs_at p (4 + 2 * (i * TAD_MAX_IMAGE_NAME_LEN)) TAD_MAX_IMAGE_NAME_LEN.

Record TAD_POLICY_BUFFER := {
  Version : ULONG;
  Flags : ULONG;
  HeartbeatIntervalMs : ULONG;
  HeartbeatTimeoutMs : ULONG;
  OrganizationalUnit : list WCHAR;
  AllowedRoles : ULONG;
  Reserved : list ULONG
}.

(** The system buffer viewed as a [TAD_POLICY_BUFFER]. *)
Definition as_POLICY_BUFFER (p : list byte) : TAD_POLICY_BUFFER :=
  {| Version := ULONG_at p 0;
     Flags := ULONG_at p 4;
     HeartbeatIntervalMs := ULONG_at p 8;
     HeartbeatTimeoutMs := ULONG_at p 12;
     OrganizationalUnit := WCHARs_at p 16 TAD_MAX_OU_LENGTH;
     AllowedRoles := ULONG_at p (16 + 2 * TAD_MAX_OU_LENGTH);
     Reserved := ULONGs_at p (20 + 2 * TAD_MAX_OU_LENGTH) 8 |}.

Definition zero_POLICY_BUFFER : TAD_POLICY_BUFFER :=
  {| Version := 0; Flags := 0; HeartbeatIntervalMs := 0; HeartbeatTimeoutMs := 0;
     OrganizationalUnit := repeat 0 TAD_MAX_OU_LENGTH;
     AllowedRoles := 0; Reserved := repeat 0 8%nat |}.

Record TAD_HEARTBEAT_OUTPUT := {
  DriverVersionMajor : ULONG;
  DriverVersionMinor : ULONG;
  hb_ProtectedPid : ULONG;
  ProcessProtectionActive : bool;
  FileProtectionActive : bool;
  UnlockPermitted : bool;
  hb_HeartbeatAlive : Z;
  hb_FailedUnlockAttempts : ULONG;
  hb_CurrentUserRole : ULONG;
  hb_PolicyValid : ULONG
}.

Record TAD_ALERT_OUTPUT := {
  AlertType : ULONG;
  Timestamp : LONGLONG;
  SourcePid : ULONG;
  Detail : list WCHAR
}.

(* ===================================================================== *)
(** ** Driver globals ([g_Tad]) *)
(* ===================================================================== *)

(** Modelled from the spec: the declarations of the banned-app fields of
    [g_Tad] ([BannedAppStorage], [BannedApps], [BannedAppCount]) are not in
    the header at hand.  Their shapes are taken from their uses in
    [TAD_RV.c] and from the data model: a bounded collection of at most 32
    file-name patterns, each in a fixed field of 64 code units. *)
Record BANNED_APP_TABLE := {
  BannedAppStorage : list (list WCHAR);    (* WCHAR [32][64] *)
  BannedApps : list UNICODE_STRING;        (* UNICODE_STRING [32] *)
  BannedAppCount : ULONG
}.

Record TAD_DRIVER_GLOBALS := {
  ProtectedPid : HANDLE;   (* process / thread protection *)
  ObCallbackHandle : Z;
  AllowUnload : LONG;   (* unload gate *)
  InputLocked : LONG;   (* input hard-lock *)
  ProtectedUiPid : HANDLE;   (* UI overlay protection *)
  StealthActive : LONG;   (* stealth mode *)
  StealthFlags : ULONG;
  FailedUnlockAttempts : LONG;   (* unlock throttle *)
  LockoutUntil : LONGLONG;
  FilterHandle : Z;   (* minifilter *)
  AgentProcess : PEPROCESS;   (* caller validation *)
  LastHeartbeatTime : LONGLONG;   (* heartbeat watchdog *)
  HeartbeatAlive : LONG;
  CurrentPolicy : TAD_POLICY_BUFFER;   (* active policy from service *)
  PolicyValid : LONG;
  CurrentUserRole : LONG;   (* TAD_USER_ROLE pushed by service *)
  Banned : BANNED_APP_TABLE   (* banned-app list *)
}.

(** Assignment to one field of [g_Tad]. *)
Definition set_ProtectedPid (v : HANDLE) (g : TAD_DRIVER_GLOBALS) : TAD_DRIVER_GLOBALS :=
  {| ProtectedPid := v;
     ObCallbackHandle := ObCallbackHandle g;
     AllowUnload := AllowUnload g;
     InputLocked := InputLocked g;
     ProtectedUiPid := ProtectedUiPid g;
     StealthActive := StealthActive g;
     StealthFlags := StealthFlags g;
     FailedUnlockAttempts := FailedUnlockAttempts g;
     LockoutUntil := LockoutUntil g;
     FilterHandle := FilterHandle g;
     AgentProcess := AgentProcess g;
     LastHeartbeatTime := LastHeartbeatTime g;
     HeartbeatAlive := HeartbeatAlive g;
     CurrentPolicy := CurrentPolicy g;
     PolicyValid := PolicyValid g;
     CurrentUserRole := CurrentUserRole g;
     Banned := Banned g |}.

Definition set_AllowUnload (v : LONG) (g : TAD_DRIVER_GLOBALS) : TAD_DRIVER_GLOBALS :=
  {| ProtectedPid := ProtectedPid g;
     ObCallbackHandle := ObCallbackHandle g;
     AllowUnload := v;
     InputLocked := InputLocked g;
     ProtectedUiPid := ProtectedUiPid g;
     StealthActive := StealthActive g;
     StealthFlags := StealthFlags g;
     FailedUnlockAttempts := FailedUnlockAttempts g;
     LockoutUntil := LockoutUntil g;
     FilterHandle := FilterHandle g;
     AgentProcess := AgentProcess g;
     LastHeartbeatTime := LastHeartbeatTime g;
     HeartbeatAlive := HeartbeatAlive g;
     CurrentPolicy := CurrentPolicy g;
     PolicyValid := PolicyValid g;
     CurrentUserRole := CurrentUserRole g;
     Banned := Banned g |}.

Definition set_InputLocked (v : LONG) (g : TAD_DRIVER_GLOBALS) : TAD_DRIVER_GLOBALS :=
  {| ProtectedPid := ProtectedPid g;
     ObCallbackHandle := ObCallbackHandle g;
     AllowUnload := AllowUnload g;
     InputLocked := v;
     ProtectedUiPid := ProtectedUiPid g;
     StealthActive := StealthActive g;
     StealthFlags := StealthFlags g;
     FailedUnlockAttempts := FailedUnlockAttempts g;
     LockoutUntil := LockoutUntil g;
     FilterHandle := FilterHandle g;
     AgentProcess := AgentProcess g;
     LastHeartbeatTime := LastHeartbeatTime g;
     HeartbeatAlive := HeartbeatAlive g;
     CurrentPolicy := CurrentPolicy g;
     PolicyValid := PolicyValid g;
     CurrentUserRole := CurrentUserRole g;
     Banned := Banned g |}.

Definition set_ProtectedUiPid (v : HANDLE) (g : TAD_DRIVER_GLOBALS) : TAD_DRIVER_GLOBALS :=
  {| ProtectedPid := ProtectedPid g;
     ObCallbackHandle := ObCallbackHandle g;
     AllowUnload := AllowUnload g;
     InputLocked := InputLocked g;
     ProtectedUiPid := v;
     StealthActive := StealthActive g;
     StealthFlags := StealthFlags g;
     FailedUnlockAttempts := FailedUnlockAttempts g;
     LockoutUntil := LockoutUntil g;
     FilterHandle := FilterHandle g;
     AgentProcess := AgentProcess g;
     LastHeartbeatTime := LastHeartbeatTime g;
     HeartbeatAlive := HeartbeatAlive g;
     CurrentPolicy := CurrentPolicy g;
     PolicyValid := PolicyValid g;
     CurrentUserRole := CurrentUserRole g;
     Banned := Banned g |}.

Definition set_StealthActive (v : LONG) (g : TAD_DRIVER_GLOBALS) : TAD_DRIVER_GLOBALS :=
  {| ProtectedPid := ProtectedPid g;
     ObCallbackHandle := ObCallbackHandle g;
     AllowUnload := AllowUnload g;
     InputLocked := InputLocked g;
     ProtectedUiPid := ProtectedUiPid g;
     StealthActive := v;
     StealthFlags := StealthFlags g;
     FailedUnlockAttempts := FailedUnlockAttempts g;
     LockoutUntil := LockoutUntil g;
     FilterHandle := FilterHandle g;
     AgentProcess := AgentProcess g;
     LastHeartbeatTime := LastHeartbeatTime g;
     HeartbeatAlive := HeartbeatAlive g;
     CurrentPolicy := CurrentPolicy g;
     PolicyValid := PolicyValid g;
     CurrentUserRole := CurrentUserRole g;
     Banned := Banned g |}.

Definition set_StealthFlags (v : ULONG) (g : TAD_DRIVER_GLOBALS) : TAD_DRIVER_GLOBALS :=
  {| ProtectedPid := ProtectedPid g;
     ObCallbackHandle := ObCallbackHandle g;
     AllowUnload := AllowUnload g;
     InputLocked := InputLocked g;
     ProtectedUiPid := ProtectedUiPid g;
     StealthActive := StealthActive g;
     StealthFlags := v;
     FailedUnlockAttempts := FailedUnlockAttempts g;
     LockoutUntil := LockoutUntil g;
     FilterHandle := FilterHandle g;
     AgentProcess := AgentProcess g;
     LastHeartbeatTime := LastHeartbeatTime g;
     HeartbeatAlive := HeartbeatAlive g;
     CurrentPolicy := CurrentPolicy g;
     PolicyValid := PolicyValid g;
     CurrentUserRole := CurrentUserRole g;
     Banned := Banned g |}.

Definition set_FailedUnlockAttempts (v : LONG) (g : TAD_DRIVER_GLOBALS) : TAD_DRIVER_GLOBALS :=
  {| ProtectedPid := ProtectedPid g;
     ObCallbackHandle := ObCallbackHandle g;
     AllowUnload := AllowUnload g;
     InputLocked := InputLocked g;
     ProtectedUiPid := ProtectedUiPid g;
     StealthActive := StealthActive g;
     StealthFlags := StealthFlags g;
     FailedUnlockAttempts := v;
     LockoutUntil := LockoutUntil g;
     FilterHandle := FilterHandle g;
     AgentProcess := AgentProcess g;
     LastHeartbeatTime := LastHeartbeatTime g;
     HeartbeatAlive := HeartbeatAlive g;
     CurrentPolicy := CurrentPolicy g;
     PolicyValid := PolicyValid g;
     CurrentUserRole := CurrentUserRole g;
     Banned := Banned g |}.

Definition set_LockoutUntil (v : LONGLONG) (g : TAD_DRIVER_GLOBALS) : TAD_DRIVER_GLOBALS :=
  {| ProtectedPid := ProtectedPid g;
     ObCallbackHandle := ObCallbackHandle g;
     AllowUnload := AllowUnload g;
     InputLocked := InputLocked g;
     ProtectedUiPid := ProtectedUiPid g;
     StealthActive := StealthActive g;
     StealthFlags := StealthFlags g;
     FailedUnlockAttempts := FailedUnlockAttempts g;
     LockoutUntil := v;
     FilterHandle := FilterHandle g;
     AgentProcess := AgentProcess g;
     LastHeartbeatTime := LastHeartbeatTime g;
     HeartbeatAlive := HeartbeatAlive g;
     CurrentPolicy := CurrentPolicy g;
     PolicyValid := PolicyValid g;
     CurrentUserRole := CurrentUserRole g;
     Banned := Banned g |}.

Definition set_AgentProcess (v : PEPROCESS) (g : TAD_DRIVER_GLOBALS) : TAD_DRIVER_GLOBALS :=
  {| ProtectedPid := ProtectedPid g;
     ObCallbackHandle := ObCallbackHandle g;
     AllowUnload := AllowUnload g;
     InputLocked := InputLocked g;
     ProtectedUiPid := ProtectedUiPid g;
     StealthActive := StealthActive g;
     StealthFlags := StealthFlags g;
     FailedUnlockAttempts := FailedUnlockAttempts g;
     LockoutUntil := LockoutUntil g;
     FilterHandle := FilterHandle g;
     AgentProcess := v;
     LastHeartbeatTime := LastHeartbeatTime g;
     HeartbeatAlive := HeartbeatAlive g;
     CurrentPolicy := CurrentPolicy g;
     PolicyValid := PolicyValid g;
     CurrentUserRole := CurrentUserRole g;
     Banned := Banned g |}.

Definition set_LastHeartbeatTime (v : LONGLONG) (g : TAD_DRIVER_GLOBALS) : TAD_DRIVER_GLOBALS :=
  {| ProtectedPid := ProtectedPid g;
     ObCallbackHandle := ObCallbackHandle g;
     AllowUnload := AllowUnload g;
     InputLocked := InputLocked g;
     ProtectedUiPid := ProtectedUiPid g;
     StealthActive := StealthActive g;
     StealthFlags := StealthFlags g;
     FailedUnlockAttempts := FailedUnlockAttempts g;
     LockoutUntil := LockoutUntil g;
     FilterHandle := FilterHandle g;
     AgentProcess := AgentProcess g;
     LastHeartbeatTime := v;
     HeartbeatAlive := HeartbeatAlive g;
     CurrentPolicy := CurrentPolicy g;
     PolicyValid := PolicyValid g;
     CurrentUserRole := CurrentUserRole g;
     Banned := Banned g |}.

Definition set_HeartbeatAlive (v : LONG) (g : TAD_DRIVER_GLOBALS) : TAD_DRIVER_GLOBALS :=
  {| ProtectedPid := ProtectedPid g;
     ObCallbackHandle := ObCallbackHandle g;
     AllowUnload := AllowUnload g;
     InputLocked := InputLocked g;
     ProtectedUiPid := ProtectedUiPid g;
     StealthActive := StealthActive g;
     StealthFlags := StealthFlags g;
     FailedUnlockAttempts := FailedUnlockAttempts g;
     LockoutUntil := LockoutUntil g;
     FilterHandle := FilterHandle g;
     AgentProcess := AgentProcess g;
     LastHeartbeatTime := LastHeartbeatTime g;
     HeartbeatAlive := v;
     CurrentPolicy := CurrentPolicy g;
     PolicyValid := PolicyValid g;
     CurrentUserRole := CurrentUserRole g;
     Banned := Banned g |}.

Definition set_CurrentPolicy (v : TAD_POLICY_BUFFER) (g : TAD_DRIVER_GLOBALS) : TAD_DRIVER_GLOBALS :=
  {| ProtectedPid := ProtectedPid g;
     ObCallbackHandle := ObCallbackHandle g;
     AllowUnload := AllowUnload g;
     InputLocked := InputLocked g;
     ProtectedUiPid := ProtectedUiPid g;
     StealthActive := StealthActive g;
     StealthFlags := StealthFlags g;
     FailedUnlockAttempts := FailedUnlockAttempts g;
     LockoutUntil := LockoutUntil g;
     FilterHandle := FilterHandle g;
     AgentProcess := AgentProcess g;
     LastHeartbeatTime := LastHeartbeatTime g;
     HeartbeatAlive := HeartbeatAlive g;
     CurrentPolicy := v;
     PolicyValid := PolicyValid g;
     CurrentUserRole := CurrentUserRole g;
     Banned := Banned g |}.

Definition set_PolicyValid (v : LONG) (g : TAD_DRIVER_GLOBALS) : TAD_DRIVER_GLOBALS :=
  {| ProtectedPid := ProtectedPid g;
     ObCallbackHandle := ObCallbackHandle g;
     AllowUnload := AllowUnload g;
     InputLocked := InputLocked g;
     ProtectedUiPid := ProtectedUiPid g;
     StealthActive := StealthActive g;
     StealthFlags := StealthFlags g;
     FailedUnlockAttempts := FailedUnlockAttempts g;
     LockoutUntil := LockoutUntil g;
     FilterHandle := FilterHandle g;
     AgentProcess := AgentProcess g;
     LastHeartbeatTime := LastHeartbeatTime g;
     HeartbeatAlive := HeartbeatAlive g;
     CurrentPolicy := CurrentPolicy g;
     PolicyValid := v;
     CurrentUserRole := CurrentUserRole g;
     Banned := Banned g |}.

Definition set_CurrentUserRole (v : LONG) (g : TAD_DRIVER_GLOBALS) : TAD_DRIVER_GLOBALS :=
  {| ProtectedPid := ProtectedPid g;
     ObCallbackHandle := ObCallbackHandle g;
     AllowUnload := AllowUnload g;
     InputLocked := InputLocked g;
     ProtectedUiPid := ProtectedUiPid g;
     StealthActive := StealthActive g;
     StealthFlags := StealthFlags g;
     FailedUnlockAttempts := FailedUnlockAttempts g;
     LockoutUntil := LockoutUntil g;
     FilterHandle := FilterHandle g;
     AgentProcess := AgentProcess g;
     LastHeartbeatTime := LastHeartbeatTime g;
     HeartbeatAlive := HeartbeatAlive g;
     CurrentPolicy := CurrentPolicy g;
     PolicyValid := PolicyValid g;
     CurrentUserRole := v;
     Banned := Banned g |}.

Definition set_Banned (v : BANNED_APP_TABLE) (g : TAD_DRIVER_GLOBALS) : TAD_DRIVER_GLOBALS :=
  {| ProtectedPid := ProtectedPid g;
     ObCallbackHandle := ObCallbackHandle g;
     AllowUnload := AllowUnload g;
     InputLocked := InputLocked g;
     ProtectedUiPid := ProtectedUiPid g;
     StealthActive := StealthActive g;
     StealthFlags := StealthFlags g;
     FailedUnlockAttempts := FailedUnlockAttempts g;
     LockoutUntil := LockoutUntil g;
     FilterHandle := FilterHandle g;
     AgentProcess := AgentProcess g;
     LastHeartbeatTime := LastHeartbeatTime g;
     HeartbeatAlive := HeartbeatAlive g;
     CurrentPolicy := CurrentPolicy g;
     PolicyValid := PolicyValid g;
     CurrentUserRole := CurrentUserRole g;
     Banned := v |}.

(** [RtlZeroMemory(&g_Tad, sizeof(g_Tad))] followed by the explicit
    initial values of [DriverEntry]; the two handles are what the
    registration of the object callbacks and of the minifilter returned
    (NULL when a registration failed). *)
Definition cleared_BANNED_APP_TABLE : BANNED_APP_TABLE :=
  {| BannedAppStorage := repeat (repeat 0 TAD_MAX_IMAGE_NAME_LEN) TAD_MAX_BANNED_APPS;
     BannedApps := repeat {| Length := 0; MaximumLength := 0; Buffer := None |}
                          TAD_MAX_BANNED_APPS;
     BannedAppCount := 0 |}.

Definition DriverEntry (obHandle fltHandle : Z) : TAD_DRIVER_GLOBALS :=
  {| ProtectedPid := 0;
     ObCallbackHandle := obHandle;
     AllowUnload := 0;
     InputLocked := 0;
     ProtectedUiPid := 0;
     StealthActive := 0;
     StealthFlags := 0;
     FailedUnlockAttempts := 0;
     LockoutUntil := 0;
     FilterHandle := fltHandle;
     AgentProcess := 0;
     LastHeartbeatTime := 0;
     HeartbeatAlive := 0;
     CurrentPolicy := zero_POLICY_BUFFER;
     PolicyValid := 0;
     CurrentUserRole := to_LONG TadRoleUnknown;
     Banned := cleared_BANNED_APP_TABLE |}.

(* ===================================================================== *)
(** ** Host kernel primitives seen by one request *)
(* ===================================================================== *)

Record KERNEL := {
  PsGetCurrentProcess : PEPROCESS;
  PsGetCurrentProcessId : HANDLE;
  (** [None] when the lookup does not return a success status. *)
  PsLookupProcessByProcessId : HANDLE -> option PEPROCESS;
  (** Successive readings of the system time during the call. *)
  KeQuerySystemTime : nat -> LONGLONG
}.

Definition STATUS_SUCCESS                : NTSTATUS := 0.
Definition STATUS_INVALID_PARAMETER      : NTSTATUS := 0xC000000D.
Definition STATUS_INVALID_DEVICE_REQUEST : NTSTATUS := 0xC0000010.
Definition STATUS_ACCESS_DENIED          : NTSTATUS := 0xC0000022.
Definition STATUS_BUFFER_TOO_SMALL       : NTSTATUS := 0xC0000023.

Definition METHOD_BUFFERED   : Z := 0.
Definition FILE_READ_ACCESS  : Z := 1.
Definition FILE_WRITE_ACCESS : Z := 2.

Definition CTL_CODE (DeviceType Function Method Access : Z) : ULONG :=
  Z.lor (Z.lor (Z.lor (Z.shiftl DeviceType 16) (Z.shiftl Access 14))
               (Z.shiftl Function 2)) Method.

Definition TAD_DEVICE_TYPE : Z := 0x8A00.

Definition IOCTL_TAD_PROTECT_PID     := CTL_CODE TAD_DEVICE_TYPE 0x800 METHOD_BUFFERED FILE_WRITE_ACCESS.
Definition IOCTL_TAD_UNLOCK          := CTL_CODE TAD_DEVICE_TYPE 0x801 METHOD_BUFFERED FILE_WRITE_ACCESS.
Definition IOCTL_TAD_HEARTBEAT       := CTL_CODE TAD_DEVICE_TYPE 0x802 METHOD_BUFFERED FILE_READ_ACCESS.
Definition IOCTL_TAD_SET_USER_ROLE   := CTL_CODE TAD_DEVICE_TYPE 0x803 METHOD_BUFFERED FILE_WRITE_ACCESS.
Definition IOCTL_TAD_SET_POLICY      := CTL_CODE TAD_DEVICE_TYPE 0x804 METHOD_BUFFERED FILE_WRITE_ACCESS.
Definition IOCTL_TAD_READ_ALERT      := CTL_CODE TAD_DEVICE_TYPE 0x805 METHOD_BUFFERED FILE_READ_ACCESS.
Definition IOCTL_TAD_HARD_LOCK       := CTL_CODE TAD_DEVICE_TYPE 0x806 METHOD_BUFFERED FILE_WRITE_ACCESS.
Definition IOCTL_TAD_PROTECT_UI      := CTL_CODE TAD_DEVICE_TYPE 0x807 METHOD_BUFFERED FILE_WRITE_ACCESS.
Definition IOCTL_TAD_STEALTH         := CTL_CODE TAD_DEVICE_TYPE 0x808 METHOD_BUFFERED FILE_WRITE_ACCESS.
Definition IOCTL_TAD_SET_BANNED_APPS := CTL_CODE TAD_DEVICE_TYPE 0x809 METHOD_BUFFERED FILE_WRITE_ACCESS.

(** The device-control request as the dispatch routine reads it. *)
Record IRP := {
  IoControlCode : ULONG;
  InputBufferLength : ULONG;
  OutputBufferLength : ULONG;
  SystemBuffer : option (list byte)      (* [None] is a NULL buffer *)
}.

(** What the routine wrote through the system buffer. *)
Inductive OUTPUT :=
| NoOutput
| HeartbeatOutput (hb : TAD_HEARTBEAT_OUTPUT)
| AlertOutput (a : TAD_ALERT_OUTPUT).

(** A request is either completed with a status, a byte count, the
    output and the new globals, or the routine accessed memory through a
    NULL system buffer. *)
Inductive Outcome :=
| Completed (status : NTSTATUS) (bytesWritten : ULONG) (out : OUTPUT)
            (g : TAD_DRIVER_GLOBALS)
| NullDereference.

Definition complete (status : NTSTATUS) (g : TAD_DRIVER_GLOBALS) : Outcome :=
  Completed status 0 NoOutput g.

(* ===================================================================== *)
(** ** Command bridge: [TadDispatchDeviceControl] *)
(* ===================================================================== *)

Definition TadIsCallerProtectedAgent (k : KERNEL) (g : TAD_DRIVER_GLOBALS) : bool :=
  negb (AgentProcess g =? 0) && (PsGetCurrentProcess k =? AgentProcess g).

Definition Ioctl_ProtectPid (k : KERNEL) (irp : IRP) (g : TAD_DRIVER_GLOBALS) : Outcome :=
  if InputBufferLength irp <? sizeof_TAD_PROTECT_PID_INPUT
  then complete STATUS_BUFFER_TOO_SMALL g
  else match SystemBuffer irp with
  | None => complete STATUS_INVALID_PARAMETER g
  | Some p =>
      if (PROTECT_PID_TargetPid p =? 0) || negb (PROTECT_PID_Flags p =? 0)
      then complete STATUS_INVALID_PARAMETER g
      else match PsLookupProcessByProcessId k (PROTECT_PID_TargetPid p) with
      | None => complete STATUS_INVALID_PARAMETER g
      | Some proc =>
          (* the reference on the previous AgentProcess is dropped *)
          let g1 := set_AgentProcess proc g in
          let g2 := set_ProtectedPid (PROTECT_PID_TargetPid p) g1 in
          complete STATUS_SUCCESS g2
      end
  end.

Definition Ioctl_Unlock (k : KERNEL) (irp : IRP) (g : TAD_DRIVER_GLOBALS) : Outcome :=
  if InputBufferLength irp <? sizeof_TAD_UNLOCK_INPUT
  then complete STATUS_BUFFER_TOO_SMALL g
  else match SystemBuffer irp with
  | None => complete STATUS_INVALID_PARAMETER g
  | Some p =>
      if negb (AgentProcess g =? 0) && negb (TadIsCallerProtectedAgent k g)
      then complete STATUS_ACCESS_DENIED g
      else
        let now := KeQuerySystemTime k 0 in
        let throttled := TAD_MAX_UNLOCK_ATTEMPTS <=? FailedUnlockAttempts g in
        if throttled && (now <? LockoutUntil g)
        then complete STATUS_ACCESS_DENIED g
        else
          let g1 := if throttled then set_FailedUnlockAttempts 0 g else g in
          if TadVerifyAuthKey (UNLOCK_AuthKey p)
          then
            let g2 := set_AllowUnload 1 g1 in
            let g3 := set_FailedUnlockAttempts 0 g2 in
            complete STATUS_SUCCESS g3
          else
            let a := to_LONG (FailedUnlockAttempts g1 + 1) in
            let g2 := set_FailedUnlockAttempts a g1 in
            let g3 :=
              if TAD_MAX_UNLOCK_ATTEMPTS <=? a
              then set_LockoutUntil
                     (to_LONGLONG (KeQuerySystemTime k 1 + (- TAD_LOCKOUT_DURATION))) g2
              else g2 in
            complete STATUS_ACCESS_DENIED g3
  end.

Definition Ioctl_Heartbeat (k : KERNEL) (irp : IRP) (g : TAD_DRIVER_GLOBALS) : Outcome :=
  if OutputBufferLength irp <? sizeof_TAD_HEARTBEAT_OUTPUT
  then complete STATUS_BUFFER_TOO_SMALL g
  else
    let g1 := set_HeartbeatAlive 1 g in
    let g2 := set_LastHeartbeatTime (KeQuerySystemTime k 0) g1 in
    match SystemBuffer irp with
    | None => NullDereference               (* RtlZeroMemory(hb, ...) *)
    | Some _ =>
        let hb :=
          {| DriverVersionMajor := TAD_VERSION_MAJOR;
             DriverVersionMinor := TAD_VERSION_MINOR;
             hb_ProtectedPid := to_ULONG (ProtectedPid g2);
             ProcessProtectionActive := negb (ObCallbackHandle g2 =? 0);
             FileProtectionActive := negb (FilterHandle g2 =? 0);
             UnlockPermitted := negb (AllowUnload g2 =? 0);
             hb_HeartbeatAlive := 1;
             hb_FailedUnlockAttempts := to_ULONG (FailedUnlockAttempts g2);
             hb_CurrentUserRole := to_ULONG (CurrentUserRole g2);
             hb_PolicyValid := to_ULONG (PolicyValid g2) |} in
        Completed STATUS_SUCCESS sizeof_TAD_HEARTBEAT_OUTPUT (HeartbeatOutput hb) g2
    end.

Definition Ioctl_SetUserRole (k : KERNEL) (irp : IRP) (g : TAD_DRIVER_GLOBALS) : Outcome :=
  if InputBufferLength irp <? sizeof_TAD_SET_USER_ROLE_INPUT
  then complete STATUS_BUFFER_TOO_SMALL g
  else match SystemBuffer irp with
  | None => complete STATUS_INVALID_PARAMETER g
  | Some p =>
      if negb (AgentProcess g =? 0) && negb (TadIsCallerProtectedAgent k g)
      then complete STATUS_ACCESS_DENIED g
      else complete STATUS_SUCCESS
             (set_CurrentUserRole (to_LONG (SET_USER_ROLE_Role p)) g)
  end.

Definition Ioctl_SetPolicy (k : KERNEL) (irp : IRP) (g : TAD_DRIVER_GLOBALS) : Outcome :=
  if InputBufferLength irp <? sizeof_TAD_POLICY_BUFFER
  then complete STATUS_BUFFER_TOO_SMALL g
  else match SystemBuffer irp with
  | None => complete STATUS_INVALID_PARAMETER g
  | Some p =>
      if negb (AgentProcess g =? 0) && negb (TadIsCallerProtectedAgent k g)
      then complete STATUS_ACCESS_DENIED g
      else if negb (Version (as_POLICY_BUFFER p) =? 1)
      then complete STATUS_INVALID_PARAMETER g
      else
        let g1 := set_CurrentPolicy (as_POLICY_BUFFER p) g in   (* RtlCopyMemory *)
        let g2 := set_PolicyValid 1 g1 in
        complete STATUS_SUCCESS g2
  end.

Definition Ioctl_ReadAlert (k : KERNEL) (irp : IRP) (g : TAD_DRIVER_GLOBALS) : Outcome :=
  if OutputBufferLength irp <? sizeof_TAD_ALERT_OUTPUT
  then complete STATUS_BUFFER_TOO_SMALL g
  else match SystemBuffer irp with
  | None => NullDereference                 (* RtlZeroMemory(a, ...) *)
  | Some _ =>
      let a := {| AlertType := TadAlertNone;
                  Timestamp := KeQuerySystemTime k 0;
                  SourcePid := 0;
                  Detail := repeat 0 128%nat |} in
      Completed STATUS_SUCCESS sizeof_TAD_ALERT_OUTPUT (AlertOutput a) g
  end.

Definition Ioctl_HardLock (k : KERNEL) (irp : IRP) (g : TAD_DRIVER_GLOBALS) : Outcome :=
  if InputBufferLength irp <? sizeof_TAD_HARD_LOCK_INPUT
  then complete STATUS_BUFFER_TOO_SMALL g
  else if negb (TadIsCallerProtectedAgent k g)
  then complete STATUS_ACCESS_DENIED g
  else match SystemBuffer irp with
  | None => NullDereference                 (* hl->Enable *)
  | Some hl =>
      complete STATUS_SUCCESS
        (set_InputLocked (if HARD_LOCK_Enable hl =? 0 then 0 else 1) g)
  end.

Definition Ioctl_ProtectUi (k : KERNEL) (irp : IRP) (g : TAD_DRIVER_GLOBALS) : Outcome :=
  if InputBufferLength irp <? sizeof_TAD_PROTECT_UI_INPUT
  then complete STATUS_BUFFER_TOO_SMALL g
  else if negb (TadIsCallerProtectedAgent k g)
  then complete STATUS_ACCESS_DENIED g
  else match SystemBuffer irp with
  | None => NullDereference                 (* ui->Protect *)
  | Some ui =>
      if negb (PROTECT_UI_Protect ui =? 0)
      then complete STATUS_SUCCESS (set_ProtectedUiPid (PROTECT_UI_TargetPid ui) g)
      else complete STATUS_SUCCESS (set_ProtectedUiPid 0 g)
  end.

Definition Ioctl_Stealth (k : KERNEL) (irp : IRP) (g : TAD_DRIVER_GLOBALS) : Outcome :=
  if InputBufferLength irp <? sizeof_TAD_STEALTH_INPUT
  then complete STATUS_BUFFER_TOO_SMALL g
  else if negb (TadIsCallerProtectedAgent k g)
  then complete STATUS_ACCESS_DENIED g
  else match SystemBuffer irp with
  | None => NullDereference                 (* stl->Enable *)
  | Some stl =>
      if negb (STEALTH_Enable stl =? 0)
      then complete STATUS_SUCCESS
             (set_StealthFlags (STEALTH_Flags stl) (set_StealthActive 1 g))
      else complete STATUS_SUCCESS
             (set_StealthFlags 0 (set_StealthActive 0 g))
  end.

(** Inner loop of the banned-app update: the number of code units of
    [name] before the first NUL, looking at no more than the [n] units
    from [j] on. *)
Fixpoint scan_name (n j : nat) (name : list WCHAR) (srcLen : nat) : nat :=
  match n with
  | O => srcLen
  | S n' =>
      if rd 0 name j =? 0 then srcLen
      else scan_name n' (S j) name (S srcLen)
  end.

(** One accepted entry: [RtlCopyMemory] of [srcLen] units into storage row
    [i], then the counted string at slot [i] is pointed at that row. *)
Definition store_banned_app (i srcLen : nat) (name : list WCHAR)
    (t : BANNED_APP_TABLE) : BANNED_APP_TABLE :=
  let row := firstn srcLen name ++ skipn srcLen (rd [] (BannedAppStorage t) i) in
  let storage := wr (BannedAppStorage t) i row in
  {| BannedAppStorage := storage;
     BannedApps :=
       wr (BannedApps t) i
          {| Length := to_USHORT (Z.of_nat srcLen * 2);
             MaximumLength := to_USHORT (Z.of_nat TAD_MAX_IMAGE_NAME_LEN * 2);
             Buffer := Some (rd [] storage i) |};
     BannedAppCount := to_ULONG (BannedAppCount t + 1) |}.

(** Outer loop, [for (i = 0; i < p->Count; i++)], [n] iterations left. *)
Fixpoint banned_apps_loop (n i : nat) (p : list byte)
    (t : BANNED_APP_TABLE) : BANNED_APP_TABLE :=
  match n with
  | O => t
  | S n' =>
      let name := BANNED_APPS_ImageName p i in
      let srcLen := scan_name TAD_MAX_IMAGE_NAME_LEN 0 name 0 in
      if (srcLen =? 0)%nat || (TAD_MAX_IMAGE_NAME_LEN <=? srcLen)%nat
      then banned_apps_loop n' (S i) p t                       (* continue *)
      else banned_apps_loop n' (S i) p (store_banned_app i srcLen name t)
  end.

Definition Ioctl_SetBannedApps (k : KERNEL) (irp : IRP) (g : TAD_DRIVER_GLOBALS) : Outcome :=
  if InputBufferLength irp <? sizeof_TAD_BANNED_APPS_INPUT
  then complete STATUS_BUFFER_TOO_SMALL g
  else if negb (TadIsCallerProtectedAgent k g)
  then complete STATUS_ACCESS_DENIED g
  else match SystemBuffer irp with
  | None => NullDereference                 (* p->Count *)
  | Some p =>
      if Z.of_nat TAD_MAX_BANNED_APPS <? BANNED_APPS_Count p
      then complete STATUS_INVALID_PARAMETER g
      else
        (* under BannedAppsLock *)
        let t := banned_apps_loop (Z.to_nat (BANNED_APPS_Count p)) 0 p
                                  cleared_BANNED_APP_TABLE in
        complete STATUS_SUCCESS (set_Banned t g)
  end.

Definition TadDispatchDeviceControl (k : KERNEL) (irp : IRP)
    (g : TAD_DRIVER_GLOBALS) : Outcome :=
  let ioctl := IoControlCode irp in
  if ioctl =? IOCTL_TAD_PROTECT_PID then Ioctl_ProtectPid k irp g
  else if ioctl =? IOCTL_TAD_UNLOCK then Ioctl_Unlock k irp g
  else if ioctl =? IOCTL_TAD_HEARTBEAT then Ioctl_Heartbeat k irp g
  else if ioctl =? IOCTL_TAD_SET_USER_ROLE then Ioctl_SetUserRole k irp g
  else if ioctl =? IOCTL_TAD_SET_POLICY then Ioctl_SetPolicy k irp g
  else if ioctl =? IOCTL_TAD_READ_ALERT then Ioctl_ReadAlert k irp g
  else if ioctl =? IOCTL_TAD_HARD_LOCK then Ioctl_HardLock k irp g
  else if ioctl =? IOCTL_TAD_PROTECT_UI then Ioctl_ProtectUi k irp g
  else if ioctl =? IOCTL_TAD_STEALTH then Ioctl_Stealth k irp g
  else if ioctl =? IOCTL_TAD_SET_BANNED_APPS then Ioctl_SetBannedApps k irp g
  else complete STATUS_INVALID_DEVICE_REQUEST g.

(** Status and globals of an outcome. *)
Definition status_of (o : Outcome) : option NTSTATUS :=
  match o with Completed s _ _ _ => Some s | NullDereference => None end.

Definition globals_of (o : Outcome) : option TAD_DRIVER_GLOBALS :=
  match o with Completed _ _ _ g => Some g | NullDereference => None end.

(* ===================================================================== *)
(** ** Heartbeat watchdog *)
(* ===================================================================== *)

(** [InterlockedExchange(&g_Tad.HeartbeatAlive, 0) == 0]: the flag is read
    and cleared; the result tells whether liveness was lost. *)
Definition TadHeartbeatDpcRoutine (g : TAD_DRIVER_GLOBALS) : bool * TAD_DRIVER_GLOBALS :=
  (HeartbeatAlive g =? 0, set_HeartbeatAlive 0 g).

(* ===================================================================== *)
(** ** Handle interception *)
(* ===================================================================== *)

Definition PROCESS_TERMINATE      : ACCESS_MASK := 0x0001.
Definition PROCESS_CREATE_THREAD  : ACCESS_MASK := 0x0002.
Definition PROCESS_VM_OPERATION   : ACCESS_MASK := 0x0008.
Definition PROCESS_VM_WRITE       : ACCESS_MASK := 0x0020.
Definition PROCESS_SUSPEND_RESUME : ACCESS_MASK := 0x0800.
Definition THREAD_TERMINATE       : ACCESS_MASK := 0x0001.
Definition THREAD_SUSPEND_RESUME  : ACCESS_MASK := 0x0002.
Definition THREAD_SET_CONTEXT     : ACCESS_MASK := 0x0010.

Definition TAD_STRIPPED_PROCESS_RIGHTS : ACCESS_MASK :=
  Z.lor (Z.lor (Z.lor (Z.lor PROCESS_TERMINATE PROCESS_VM_WRITE)
                      PROCESS_VM_OPERATION) PROCESS_CREATE_THREAD)
        PROCESS_SUSPEND_RESUME.

Definition TAD_STRIPPED_THREAD_RIGHTS : ACCESS_MASK :=
  Z.lor (Z.lor THREAD_TERMINATE THREAD_SUSPEND_RESUME) THREAD_SET_CONTEXT.

Inductive OBJECT_TYPE := PsProcessType | PsThreadType | OtherObjectType.

Definition OBJECT_TYPE_eqb (a b : OBJECT_TYPE) : bool :=
  match a, b with
  | PsProcessType, PsProcessType => true
  | PsThreadType, PsThreadType => true
  | OtherObjectType, OtherObjectType => true
  | _, _ => false
  end.

Definition OB_OPERATION_HANDLE_CREATE    : Z := 1.
Definition OB_OPERATION_HANDLE_DUPLICATE : Z := 2.

Inductive OB_PREOP_CALLBACK_STATUS := OB_PREOP_SUCCESS.

(** [DesiredAccess] is the first member of both arms of the parameters
    union; [ObjectProcessId] is [PsGetProcessId] of the target process, or
    of the process owning the target thread. *)
Record OB_PRE_OPERATION_INFORMATION := {
  Operation : Z;
  ObjectType : OBJECT_TYPE;
  ObjectProcessId : HANDLE;
  DesiredAccess : ACCESS_MASK
}.

Definition set_DesiredAccess (v : ACCESS_MASK) (o : OB_PRE_OPERATION_INFORMATION) :=
  {| Operation := Operation o; ObjectType := ObjectType o;
     ObjectProcessId := ObjectProcessId o; DesiredAccess := v |}.

(** [DesiredAccess &= ~rights] on a 32-bit mask. *)
Definition strip_rights (rights access : ACCESS_MASK) : ACCESS_MASK :=
  Z.land access (to_ULONG (Z.lnot rights)).

Definition ObPreCallback (expected : OBJECT_TYPE) (rights : ACCESS_MASK)
    (k : KERNEL) (g : TAD_DRIVER_GLOBALS) (OpInfo : OB_PRE_OPERATION_INFORMATION)
    : OB_PREOP_CALLBACK_STATUS * OB_PRE_OPERATION_INFORMATION :=
  let pPid := if negb (ProtectedPid g =? 0) then ProtectedPid g else ProtectedUiPid g in
  if pPid =? 0 then (OB_PREOP_SUCCESS, OpInfo)
  else if negb (OBJECT_TYPE_eqb (ObjectType OpInfo) expected) then (OB_PREOP_SUCCESS, OpInfo)
  else
    let tPid := ObjectProcessId OpInfo in
    let cPid := PsGetCurrentProcessId k in
    let svcPid := ProtectedPid g in
    let uiPid := ProtectedUiPid g in
    if negb (tPid =? svcPid) && negb (tPid =? uiPid) then (OB_PREOP_SUCCESS, OpInfo)
    else if (cPid =? svcPid) || (cPid =? uiPid) then (OB_PREOP_SUCCESS, OpInfo)
    else if Operation OpInfo =? OB_OPERATION_HANDLE_CREATE
    then (OB_PREOP_SUCCESS, set_DesiredAccess (strip_rights rights (DesiredAccess OpInfo)) OpInfo)
    else if Operation OpInfo =? OB_OPERATION_HANDLE_DUPLICATE
    then (OB_PREOP_SUCCESS, set_DesiredAccess (strip_rights rights (DesiredAccess OpInfo)) OpInfo)
    else (OB_PREOP_SUCCESS, OpInfo).

(** The two registered callbacks have the same body up to the object
    type they accept and the rights they strip. *)
Definition TadObProcessPreCallback := ObPreCallback PsProcessType TAD_STRIPPED_PROCESS_RIGHTS.
Definition TadObThreadPreCallback  := ObPreCallback PsThreadType TAD_STRIPPED_THREAD_RIGHTS.

(* ===================================================================== *)
(** ** Filesystem intercept *)
(* ===================================================================== *)

(** [FILE_INFORMATION_CLASS] values of the recognized classes. *)
Definition FileRenameInformation        : Z := 10.
Definition FileDispositionInformation   : Z := 13.
Definition FileDispositionInformationEx : Z := 64.
Definition FileRenameInformationEx      : Z := 65.

Inductive FLT_PREOP_CALLBACK_STATUS :=
| FLT_PREOP_SUCCESS_WITH_CALLBACK
| FLT_PREOP_SUCCESS_NO_CALLBACK
| FLT_PREOP_PENDING
| FLT_PREOP_DISALLOW_FASTIO
| FLT_PREOP_COMPLETE
| FLT_PREOP_SYNCHRONIZE
| FLT_PREOP_DISALLOW_FSFILTER_IO.

(** What [FltParseFileNameInformation] leaves in the name information:
    whether parsing succeeded, and the final component. *)
Record FLT_FILE_NAME_INFORMATION := {
  ParseSucceeds : bool;
  FinalComponent : UNICODE_STRING
}.

(** The callback data of a set-information request: the information
    class, the caller's information buffer ([None] is NULL), the I/O
    status block, and the answer of [FltGetFileNameInformation] for the
    target ([None] when it fails or yields no name information). *)
Record FLT_CALLBACK_DATA := {
  FileInformationClass : Z;
  InfoBuffer : option (list byte);
  IoStatus_Status : NTSTATUS;
  IoStatus_Information : Z;
  FltGetFileNameInformation : option FLT_FILE_NAME_INFORMATION
}.

Definition set_IoStatus (s : NTSTATUS) (i : Z) (d : FLT_CALLBACK_DATA) : FLT_CALLBACK_DATA :=
  {| FileInformationClass := FileInformationClass d;
     InfoBuffer := InfoBuffer d;
     IoStatus_Status := s;
     IoStatus_Information := i;
     FltGetFileNameInformation := FltGetFileNameInformation d |}.

(** [DeleteFile] of [FILE_DISPOSITION_INFORMATION]: its first byte. *)
Definition DISPOSITION_DeleteFile (d : list byte) : bool :=
  negb (u8 (rd x00 d 0) =? 0).

(** [Flags] of [FILE_DISPOSITION_INFORMATION_EX]. *)
Definition DISPOSITION_EX_Flags (d : list byte) : ULONG := ULONG_at d 0.
Definition FILE_DISPOSITION_DO_NOT_DELETE : ULONG := 0.
Definition FILE_DISPOSITION_DELETE : ULONG := 1.

(** The result of the [switch] on the information class:
    [None] for the [default] arm, otherwise [(isDeletion, isRename)]. *)
Definition classify_set_information (Data : FLT_CALLBACK_DATA) : option (bool * bool) :=
  let infoClass := FileInformationClass Data in
  if infoClass =? FileDispositionInformation then
    match InfoBuffer Data with
    | Some d => if DISPOSITION_DeleteFile d then Some (true, false) else Some (false, false)
    | None => Some (false, false)
    end
  else if infoClass =? FileDispositionInformationEx then Some (true, false)
  else if (infoClass =? FileRenameInformation) || (infoClass =? FileRenameInformationEx)
  then Some (false, true)
  else None.

Section Intercepts.

Variable NlsUpcase : WCHAR -> WCHAR.

Definition TadPreSetInformationCallback (Data : FLT_CALLBACK_DATA)
    : FLT_PREOP_CALLBACK_STATUS * FLT_CALLBACK_DATA :=
  match classify_set_information Data with
  | None => (FLT_PREOP_SUCCESS_NO_CALLBACK, Data)
  | Some (isDeletion, isRename) =>
      if negb isDeletion && negb isRename then (FLT_PREOP_SUCCESS_NO_CALLBACK, Data)
      else match FltGetFileNameInformation Data with
      | None => (FLT_PREOP_SUCCESS_NO_CALLBACK, Data)
      | Some nameInfo =>
          if negb (ParseSucceeds nameInfo) then (FLT_PREOP_SUCCESS_NO_CALLBACK, Data)
          else
            let block := TadIsProtectedFilename NlsUpcase (FinalComponent nameInfo) in
            if block
            then (FLT_PREOP_COMPLETE, set_IoStatus STATUS_ACCESS_DENIED 0 Data)
            else (FLT_PREOP_SUCCESS_NO_CALLBACK, Data)
      end
  end.

(* =================================================================== *)
(** ** Process-launch intercept *)
(* =================================================================== *)

Record PS_CREATE_NOTIFY_INFO := {
  ImageFileName : option UNICODE_STRING;     (* [None] is NULL *)
  CreationStatus : NTSTATUS
}.

Definition set_CreationStatus (s : NTSTATUS) (c : PS_CREATE_NOTIFY_INFO) :=
  {| ImageFileName := ImageFileName c; CreationStatus := s |}.

(** [for (k = 0; k < Length / sizeof(WCHAR); k++)
      if (Buffer[k] == L'\\') lastSep = k + 1;], [n] iterations left. *)
Fixpoint last_separator (n k : nat) (buf : list WCHAR) (lastSep : nat) : nat :=
  match n with
  | O => lastSep
  | S n' =>
      last_separator n' (S k) buf (if rd 0 buf k =? 92 then S k else lastSep)
  end.

(** The counted string [component] the callback builds. *)
Definition image_component (name : UNICODE_STRING) (buf : list WCHAR) : UNICODE_STRING :=
  let lastSep := last_separator (Z.to_nat (Length name / 2)) 0 buf 0 in
  let len := to_USHORT (Length name - Z.of_nat lastSep * 2) in
  {| Length := len; MaximumLength := len; Buffer := Some (skipn lastSep buf) |}.

(** [for (i = 0; i < g_Tad.BannedAppCount; i++)] with its [break] on the
    first match; tells whether a match was found. *)
Fixpoint banned_match_loop (n i : nat) (component : UNICODE_STRING)
    (apps : list UNICODE_STRING) : bool :=
  match n with
  | O => false
  | S n' =>
      if RtlEqualUnicodeString NlsUpcase component
           (rd {| Length := 0; MaximumLength := 0; Buffer := None |} apps i)
      then true
      else banned_match_loop n' (S i) component apps
  end.

(** The callback leaves [CreateInfo] as it is or sets its creation
    status.  [CreateInfo = None] is a process termination. *)
Definition TadProcessNotifyCallback (g : TAD_DRIVER_GLOBALS)
    (CreateInfo : option PS_CREATE_NOTIFY_INFO) : option PS_CREATE_NOTIFY_INFO :=
  match CreateInfo with
  | None => None
  | Some ci =>
      match ImageFileName ci with
      | None => Some ci
      | Some name =>
          match Buffer name with
          | None => Some ci
          | Some buf =>
              if Length name =? 0 then Some ci
              else if Z.land (Flags (CurrentPolicy g)) TAD_POLICY_FLAG_BLOCK_APPS =? 0
              then Some ci
              else
                let component := image_component name buf in
                if Length component =? 0 then Some ci
                else
                  (* under BannedAppsLock *)
                  if banned_match_loop (Z.to_nat (BannedAppCount (Banned g))) 0
                       component (BannedApps (Banned g))
                  then Some (set_CreationStatus STATUS_ACCESS_DENIED ci)
                  else Some ci
          end
      end
  end.

End Intercepts.

(* ===================================================================== *)
(** ** Reachable driver states *)
(* ===================================================================== *)

(** The globals after [DriverEntry] and any sequence of completed device
    control requests and watchdog ticks.  The interception callbacks do
    not write to the globals. *)
Inductive reachable : TAD_DRIVER_GLOBALS -> Prop :=
| reachable_entry : forall ob flt, reachable (DriverEntry ob flt)
| reachable_request : forall k irp g status n out g',
    reachable g ->
    TadDispatchDeviceControl k irp g = Completed status n out g' ->
    reachable g'
| reachable_tick : forall g,
    reachable g -> reachable (snd (TadHeartbeatDpcRoutine g)).

(** Running a sequence of requests, each with the kernel context it is
    issued in; [None] when one of them does not complete. *)
Fixpoint run_requests (reqs : list (KERNEL * IRP)) (g : TAD_DRIVER_GLOBALS)
    : option TAD_DRIVER_GLOBALS :=
  match reqs with
  | [] => Some g
  | (k, irp) :: rest =>
      match TadDispatchDeviceControl k irp g with
      | Completed _ _ _ g' => run_requests rest g'
      | NullDereference => None
      end
  end.

(* ===================================================================== *)
(** ** Notions of the specification *)
(* ===================================================================== *)

(** The caller passes the identity check of the opcodes that skip it
    while no agent is registered. *)
Definition caller_admitted (k : KERNEL) (g : TAD_DRIVER_GLOBALS) : Prop :=
  AgentProcess g = 0 \/ PsGetCurrentProcess k = AgentProcess g.


(** The slots of the table the launch intercept looks at. *)
Definition compared_slots (t : BANNED_APP_TABLE) : list UNICODE_STRING :=
  map (rd {| Length := 0; MaximumLength := 0; Buffer := None |} (BannedApps t))
      (seq 0 (Z.to_nat (BannedAppCount t))).

Definition holds_string (s : UNICODE_STRING) : bool :=
  match Buffer s with Some _ => true | None => false end.

(** The current banned-app set: the patterns held by the slots the
    launch intercept looks at (a cleared slot holds no pattern). *)
Definition BannedAppSet (g : TAD_DRIVER_GLOBALS) : list (list WCHAR) :=
  map chars (filter holds_string (compared_slots (Banned g))).

(** An input entry is valid when it is non-empty and has a NUL within
    its 64 code units; its pattern is what precedes the first NUL. *)
Fixpoint until_nul (name : list WCHAR) : list WCHAR :=
  match name with
  | [] => []
  | c :: rest => if c =? 0 then [] else c :: until_nul rest
  end.

Definition valid_entry (name : list WCHAR) : bool :=
  existsb (fun c => c =? 0) name && negb (rd 0 name 0 =? 0).

(** The set a banned-app request asks for: the patterns of its valid
    entries among the first [Count]. *)
Definition requested_BannedAppSet (p : list byte) : list (list WCHAR) :=
  map until_nul
      (filter valid_entry
              (map (BANNED_APPS_ImageName p) (seq 0 (Z.to_nat (BANNED_APPS_Count p))))).


(* ===================================================================== *)
(** ** Payloads as the agent lays them out *)
(* ===================================================================== *)

Definition bytes_of_ULONG (v : Z) : list byte :=
  map (fun i => to_UCHAR (Z.shiftr v (8 * Z.of_nat i))) (seq 0 4).

Definition bytes_of_WCHARs (l : list WCHAR) : list byte :=
  flat_map (fun c => [to_UCHAR c; to_UCHAR (Z.shiftr c 8)]) l.

(** A fixed field of [n] bytes holding [l], zero-filled. *)
Definition field (n : nat) (l : list byte) : list byte :=
  firstn n (l ++ repeat x00 n).

Definition mk_PROTECT_PID_INPUT (TargetPid Flags : Z) : list byte :=
  bytes_of_ULONG TargetPid ++ bytes_of_ULONG Flags.

Definition mk_POLICY_BUFFER (Version Flags : Z) : list byte :=
  field (Z.to_nat sizeof_TAD_POLICY_BUFFER)
        (bytes_of_ULONG Version ++ bytes_of_ULONG Flags).

Definition mk_BANNED_APPS_INPUT (Count : Z) (names : list (list WCHAR)) : list byte :=
  field (Z.to_nat sizeof_TAD_BANNED_APPS_INPUT)
        (bytes_of_ULONG Count
         ++ flat_map (fun nm => field (2 * TAD_MAX_IMAGE_NAME_LEN) (bytes_of_WCHARs nm)) names).

Definition request (code : ULONG) (payload : list byte) : IRP :=
  {| IoControlCode := code;
     InputBufferLength := Z.of_nat (length payload);
     OutputBufferLength := 0;
     SystemBuffer := Some payload |}.

(** A kernel context in which the current process is [proc] with
    identifier [pid], every lookup of a non-zero identifier [i] yields
    the process object [1000 + i], and the clock reads [t]. *)
Definition kernel_of (proc : PEPROCESS) (pid : HANDLE) (t : LONGLONG) : KERNEL :=
  {| PsGetCurrentProcess := proc;
     PsGetCurrentProcessId := pid;
     PsLookupProcessByProcessId := fun i => Some (1000 + i);
     KeQuerySystemTime := fun _ => t |}.

(** A counted string for a literal. *)
Definition ustr (l : list WCHAR) : UNICODE_STRING :=
  {| Length := 2 * Z.of_nat (length l);
     MaximumLength := 2 * Z.of_nat (length l);
     Buffer := Some l |}.

(** A counted string is well formed when its byte length is the size of
    the code units it denotes. *)
Definition well_formed (s : UNICODE_STRING) : Prop :=
  0 <= Length s < 2 ^ 16 /\ Length s mod 2 = 0.

(** The set-information request is one the filesystem intercept
    recognizes as a deletion or a rename. *)
Definition recognized_operation (Data : FLT_CALLBACK_DATA) : bool :=
  match classify_set_information Data with
  | Some (isDeletion, isRename) => isDeletion || isRename
  | None => false
  end.

(** The final path component of the target, when the filter manager
    resolves and parses the target's name. *)
Definition target_final_component (Data : FLT_CALLBACK_DATA) : option UNICODE_STRING :=
  match FltGetFileNameInformation Data with
  | Some nameInfo =>
      if ParseSucceeds nameInfo then Some (FinalComponent nameInfo) else None
  | None => None
  end.

Definition set_InfoBuffer (b : option (list byte)) (d : FLT_CALLBACK_DATA) : FLT_CALLBACK_DATA :=
  {| FileInformationClass := FileInformationClass d;
     InfoBuffer := b;
     IoStatus_Status := IoStatus_Status d;
     IoStatus_Information := IoStatus_Information d;
     FltGetFileNameInformation := FltGetFileNameInformation d |}.

(** A set-information request of class [cls] with information buffer
    [b] on a target whose name resolves to the final component [name]. *)
Definition set_information_on (cls : Z) (b : option (list byte)) (name : list WCHAR)
    : FLT_CALLBACK_DATA :=
  {| FileInformationClass := cls;
     InfoBuffer := b;
     IoStatus_Status := STATUS_SUCCESS;
     IoStatus_Information := 0;
     FltGetFileNameInformation :=
       Some {| ParseSucceeds := true; FinalComponent := ustr name |} |}.

(** Opcodes whose identity check is skipped while no agent is
    registered, and opcodes that always require the registered agent. *)
Definition bootstrap_opcodes : list ULONG :=
  [IOCTL_TAD_UNLOCK; IOCTL_TAD_SET_USER_ROLE; IOCTL_TAD_SET_POLICY].

Definition agent_only_opcodes : list ULONG :=
  [IOCTL_TAD_HARD_LOCK; IOCTL_TAD_PROTECT_UI; IOCTL_TAD_STEALTH;
   IOCTL_TAD_SET_BANNED_APPS].

(** The payload size an opcode requires of its input buffer. *)
Definition required_input_length (code : ULONG) : Z :=
  if code =? IOCTL_TAD_PROTECT_PID then sizeof_TAD_PROTECT_PID_INPUT
  else if code =? IOCTL_TAD_UNLOCK then sizeof_TAD_UNLOCK_INPUT
  else if code =? IOCTL_TAD_SET_USER_ROLE then sizeof_TAD_SET_USER_ROLE_INPUT
  else if code =? IOCTL_TAD_SET_POLICY then sizeof_TAD_POLICY_BUFFER
  else if code =? IOCTL_TAD_HARD_LOCK then sizeof_TAD_HARD_LOCK_INPUT
  else if code =? IOCTL_TAD_PROTECT_UI then sizeof_TAD_PROTECT_UI_INPUT
  else if code =? IOCTL_TAD_STEALTH then sizeof_TAD_STEALTH_INPUT
  else if code =? IOCTL_TAD_SET_BANNED_APPS then sizeof_TAD_BANNED_APPS_INPUT
  else 0.

(** The same kernel context with another current process. *)
Definition with_caller (proc : PEPROCESS) (k : KERNEL) : KERNEL :=
  {| PsGetCurrentProcess := proc;
     PsGetCurrentProcessId := PsGetCurrentProcessId k;
     PsLookupProcessByProcessId := PsLookupProcessByProcessId k;
     KeQuerySystemTime := KeQuerySystemTime k |}.

(** A request of the given opcode whose system buffer is NULL, with the
    given buffer lengths. *)
Definition null_buffer_request (code inLen outLen : Z) : IRP :=
  {| IoControlCode := code;
     InputBufferLength := inLen;
     OutputBufferLength := outLen;
     SystemBuffer := None |}.

(** An Unlock request that is large enough and has a buffer, with a
    secret that does not verify / that verifies. *)
Definition unlock_request (irp : IRP) (verifies : bool) : Prop :=
  IoControlCode irp = IOCTL_TAD_UNLOCK
  /\ sizeof_TAD_UNLOCK_INPUT <= InputBufferLength irp
  /\ exists p, SystemBuffer irp = Some p
               /\ TadVerifyAuthKey (UNLOCK_AuthKey p) = verifies.

(** The state in which process object 5321, identifier 4321, has been
    registered as the agent by a ProtectPid request. *)
Definition agent_registered : TAD_DRIVER_GLOBALS :=
  match TadDispatchDeviceControl (kernel_of 5321 4321 0)
          (request IOCTL_TAD_PROTECT_PID (mk_PROTECT_PID_INPUT 4321 0))
          (DriverEntry 1 1) with
  | Completed _ _ _ g => g
  | NullDereference => DriverEntry 1 1
  end.

(** The statuses with which the command bridge rejects a malformed
    request. *)
Definition validation_status (s : NTSTATUS) : Prop :=
  s = STATUS_INVALID_PARAMETER \/ s = STATUS_BUFFER_TOO_SMALL
  \/ s = STATUS_INVALID_DEVICE_REQUEST.

Definition mk_HARD_LOCK_INPUT (Enable Flags : Z) : list byte :=
  bytes_of_ULONG Enable ++ bytes_of_ULONG Flags.

Definition mk_PROTECT_UI_INPUT (TargetPid Protect : Z) : list byte :=
  bytes_of_ULONG TargetPid ++ bytes_of_ULONG Protect.

Definition mk_STEALTH_INPUT (Enable Flags : Z) : list byte :=
  bytes_of_ULONG Enable ++ bytes_of_ULONG Flags.

(** The shape of a slot of the banned-app table: cleared, or holding a
    non-empty pattern shorter than its field. *)
Definition slot_ok (e : UNICODE_STRING) : Prop :=
  (Buffer e = None /\ Length e = 0)
  \/ (Buffer e <> None
      /\ 2 <= Length e < 2 * Z.of_nat TAD_MAX_IMAGE_NAME_LEN
      /\ Length e mod 2 = 0).


(** The block-apps flag of the current policy. *)
Definition block_apps_flag (g : TAD_DRIVER_GLOBALS) : bool :=
  negb (Z.land (Flags (CurrentPolicy g)) TAD_POLICY_FLAG_BLOCK_APPS =? 0).

(** A process creation with the given image path. *)
Definition launch (path : list WCHAR) : option PS_CREATE_NOTIFY_INFO :=
  Some {| ImageFileName := Some (ustr path); CreationStatus := STATUS_SUCCESS |}.


(** The agent registers itself, pushes a policy with the block-apps
    flag and then the banned-app list [names] with the given count. *)
Definition agent_pushes (Count : Z) (names : list (list WCHAR)) : list (KERNEL * IRP) :=
  let k := kernel_of 5321 4321 0 in
  [ (k, request IOCTL_TAD_PROTECT_PID (mk_PROTECT_PID_INPUT 4321 0));
    (k, request IOCTL_TAD_SET_POLICY (mk_POLICY_BUFFER 1 TAD_POLICY_FLAG_BLOCK_APPS));
    (k, request IOCTL_TAD_SET_BANNED_APPS (mk_BANNED_APPS_INPUT Count names)) ].

Definition state_after (reqs : list (KERNEL * IRP)) : TAD_DRIVER_GLOBALS :=
  match run_requests reqs (DriverEntry 1 1) with
  | Some g => g
  | None => DriverEntry 1 1
  end.

(** The list [{"a.exe", "b.exe"}] is in force. *)
Definition banning_a_b : TAD_DRIVER_GLOBALS :=
  state_after (agent_pushes 2 [L "a.exe"; L "b.exe"]).

(** A list of two entries whose first entry is empty was pushed. *)
Definition pushed_empty_then_a : TAD_DRIVER_GLOBALS :=
  state_after (agent_pushes 2 [[]; L "a.exe"]).

(** The four malformed requests: ProtectPid of identifier 0 or with
    non-zero flags, SetPolicy of version 2, SetBannedApps of count 33. *)
Definition malformed_request (irp : IRP) (p : list byte) : Prop :=
  (IoControlCode irp = IOCTL_TAD_PROTECT_PID
   /\ (PROTECT_PID_TargetPid p = 0 \/ PROTECT_PID_Flags p <> 0))
  \/ (IoControlCode irp = IOCTL_TAD_SET_POLICY /\ Version (as_POLICY_BUFFER p) = 2)
  \/ (IoControlCode irp = IOCTL_TAD_SET_BANNED_APPS /\ BANNED_APPS_Count p = 33).

(** The request passes the checks that precede the validation of its
    fields: the size check and, where the opcode has one, the identity
    check. *)
Definition reaches_validation (k : KERNEL) (irp : IRP) (g : TAD_DRIVER_GLOBALS) : Prop :=
  required_input_length (IoControlCode irp) <= InputBufferLength irp
  /\ (IoControlCode irp = IOCTL_TAD_SET_POLICY -> caller_admitted k g)
  /\ (IoControlCode irp = IOCTL_TAD_SET_BANNED_APPS ->
      TadIsCallerProtectedAgent k g = true).

Definition rejection_status (s : NTSTATUS) : Prop :=
  s = STATUS_BUFFER_TOO_SMALL \/ s = STATUS_ACCESS_DENIED
  \/ s = STATUS_INVALID_PARAMETER.

(** Slot [j] of a banned-app table. *)
Definition slot (t : BANNED_APP_TABLE) (j : nat) : UNICODE_STRING :=
  rd {| Length := 0; MaximumLength := 0; Buffer := None |} (BannedApps t) j.

(** The input entries of a banned-app request, in order. *)
Definition input_entries (p : list byte) : list (list WCHAR) :=
  map (BANNED_APPS_ImageName p) (seq 0 (Z.to_nat (BANNED_APPS_Count p))).

(* ===================================================================== *)
(** ** Further notions of the command bridge *)
(* ===================================================================== *)

Definition set_ObCallbackHandle (v : Z) (g : TAD_DRIVER_GLOBALS) : TAD_DRIVER_GLOBALS :=
  {| ProtectedPid := ProtectedPid g;
     ObCallbackHandle := v;
     AllowUnload := AllowUnload g;
     InputLocked := InputLocked g;
     ProtectedUiPid := ProtectedUiPid g;
     StealthActive := StealthActive g;
     StealthFlags := StealthFlags g;
     FailedUnlockAttempts := FailedUnlockAttempts g;
     LockoutUntil := LockoutUntil g;
     FilterHandle := FilterHandle g;
     AgentProcess := AgentProcess g;
     LastHeartbeatTime := LastHeartbeatTime g;
     HeartbeatAlive := HeartbeatAlive g;
     CurrentPolicy := CurrentPolicy g;
     PolicyValid := PolicyValid g;
     CurrentUserRole := CurrentUserRole g;
     Banned := Banned g |}.

Definition set_FilterHandle (v : Z) (g : TAD_DRIVER_GLOBALS) : TAD_DRIVER_GLOBALS :=
  {| ProtectedPid := ProtectedPid g;
     ObCallbackHandle := ObCallbackHandle g;
     AllowUnload := AllowUnload g;
     InputLocked := InputLocked g;
     ProtectedUiPid := ProtectedUiPid g;
     StealthActive := StealthActive g;
     StealthFlags := StealthFlags g;
     FailedUnlockAttempts := FailedUnlockAttempts g;
     LockoutUntil := LockoutUntil g;
     FilterHandle := v;
     AgentProcess := AgentProcess g;
     LastHeartbeatTime := LastHeartbeatTime g;
     HeartbeatAlive := HeartbeatAlive g;
     CurrentPolicy := CurrentPolicy g;
     PolicyValid := PolicyValid g;
     CurrentUserRole := CurrentUserRole g;
     Banned := Banned g |}.

(** The ten opcodes of the switch. *)
Definition known_opcodes : list ULONG :=
  [IOCTL_TAD_PROTECT_PID; IOCTL_TAD_UNLOCK; IOCTL_TAD_HEARTBEAT;
   IOCTL_TAD_SET_USER_ROLE; IOCTL_TAD_SET_POLICY; IOCTL_TAD_READ_ALERT;
   IOCTL_TAD_HARD_LOCK; IOCTL_TAD_PROTECT_UI; IOCTL_TAD_STEALTH;
   IOCTL_TAD_SET_BANNED_APPS].

(** The size an opcode requires of its output buffer. *)
Definition required_output_length (code : ULONG) : Z :=
  if code =? IOCTL_TAD_HEARTBEAT then sizeof_TAD_HEARTBEAT_OUTPUT
  else if code =? IOCTL_TAD_READ_ALERT then sizeof_TAD_ALERT_OUTPUT
  else 0.

(** A request of a known opcode one of whose declared buffer lengths
    (unsigned numbers) is below what the opcode requires. *)
Definition undersized (irp : IRP) : Prop :=
  In (IoControlCode irp) known_opcodes
  /\ 0 <= InputBufferLength irp /\ 0 <= OutputBufferLength irp
  /\ (InputBufferLength irp < required_input_length (IoControlCode irp)
      \/ OutputBufferLength irp < required_output_length (IoControlCode irp)).

(** [g'] is [g] up to the two fields of the unlock throttle. *)
Definition same_except_throttle (g g' : TAD_DRIVER_GLOBALS) : Prop :=
  g' = set_LockoutUntil (LockoutUntil g')
         (set_FailedUnlockAttempts (FailedUnlockAttempts g') g).

(** The request is an Unlock that gets as far as checking its secret,
    and the secret verifies. *)
Definition verifying_unlock (irp : IRP) : Prop :=
  IoControlCode irp = IOCTL_TAD_UNLOCK
  /\ exists p, SystemBuffer irp = Some p
               /\ TadVerifyAuthKey (UNLOCK_AuthKey p) = true.

(** A Heartbeat request whose declared output length is sufficient. *)
Definition sized_heartbeat (irp : IRP) : Prop :=
  IoControlCode irp = IOCTL_TAD_HEARTBEAT
  /\ sizeof_TAD_HEARTBEAT_OUTPUT <= OutputBufferLength irp.

(** The heartbeat record a request returns, if it returns one. *)
Definition heartbeat_of (o : Outcome) : option TAD_HEARTBEAT_OUTPUT :=
  match o with
  | Completed _ _ (HeartbeatOutput hb) _ => Some hb
  | _ => None
  end.

(** The alert record a request returns, if it returns one. *)
Definition alert_of (o : Outcome) : option TAD_ALERT_OUTPUT :=
  match o with
  | Completed _ _ (AlertOutput a) _ => Some a
  | _ => None
  end.

Definition bytes_written_of (o : Outcome) : Z :=
  match o with
  | Completed _ n _ _ => n
  | NullDereference => 0
  end.

(** [mask] requests no right outside [requested]. *)
Definition submask (mask requested : ACCESS_MASK) : Prop :=
  Z.land mask requested = mask.

(** Exchange of upper and lower case on the letters [A-Z], [a-z]. *)
Definition swap_ascii_case (c : WCHAR) : WCHAR :=
  if (65 <=? c) && (c <=? 90) then c + 32
  else if (97 <=? c) && (c <=? 122) then c - 32
  else c.

(** [c'] is [c] or [c] with its ASCII case exchanged. *)
Definition case_variant (c c' : WCHAR) : Prop :=
  c' = c \/ c' = swap_ascii_case c.

(** Two counted strings of the same byte length whose code units agree
    up to ASCII case. *)
Definition same_up_to_ascii_case (s s' : UNICODE_STRING) : Prop :=
  Length s' = Length s /\ Forall2 case_variant (chars s) (chars s').

(** The request [Data] with the final component of its resolved name
    replaced by [fc] (nothing changes when the name does not resolve). *)
Definition with_final_component (fc : UNICODE_STRING) (Data : FLT_CALLBACK_DATA)
    : FLT_CALLBACK_DATA :=
  {| FileInformationClass := FileInformationClass Data;
     InfoBuffer := InfoBuffer Data;
     IoStatus_Status := IoStatus_Status Data;
     IoStatus_Information := IoStatus_Information Data;
     FltGetFileNameInformation :=
       match FltGetFileNameInformation Data with
       | Some info => Some {| ParseSucceeds := ParseSucceeds info; FinalComponent := fc |}
       | None => None
       end |}.

(* ===================================================================== *)
(** ** Load and unload *)
(* ===================================================================== *)

Definition STATUS_INSUFFICIENT_RESOURCES : NTSTATUS := 0xC000009A.
Definition STATUS_ALREADY_REGISTERED     : NTSTATUS := 0xC0000718.
Definition STATUS_FLT_DO_NOT_DETACH      : NTSTATUS := 0xC01C0010.

(** [NT_SUCCESS(status)]: the status, read as a signed number, is not
    negative. *)
Definition NT_SUCCESS (status : NTSTATUS) : bool := 0 <=? to_LONG status.

(** [g_Tad] with the fields the load and unload paths use beside the
    globals above.  [ProcessNotifyRegistered] is declared in no header at
    hand; it is a flag by its uses in [TAD_RV.c]. *)
Record TAD_DRIVER := {
  Globals : TAD_DRIVER_GLOBALS;
  DeviceObject : Z;                     (* 0 is NULL *)
  SymbolicLinkCreated : bool;
  ProcessNotifyRegistered : bool
}.

Definition set_Globals (v : TAD_DRIVER_GLOBALS) (d : TAD_DRIVER) : TAD_DRIVER :=
  {| Globals := v;
     DeviceObject := DeviceObject d;
     SymbolicLinkCreated := SymbolicLinkCreated d;
     ProcessNotifyRegistered := ProcessNotifyRegistered d |}.

Definition set_DeviceObject (v : Z) (d : TAD_DRIVER) : TAD_DRIVER :=
  {| Globals := Globals d;
     DeviceObject := v;
     SymbolicLinkCreated := SymbolicLinkCreated d;
     ProcessNotifyRegistered := ProcessNotifyRegistered d |}.

Definition set_SymbolicLinkCreated (v : bool) (d : TAD_DRIVER) : TAD_DRIVER :=
  {| Globals := Globals d;
     DeviceObject := DeviceObject d;
     SymbolicLinkCreated := v;
     ProcessNotifyRegistered := ProcessNotifyRegistered d |}.

Definition set_ProcessNotifyRegistered (v : bool) (d : TAD_DRIVER) : TAD_DRIVER :=
  {| Globals := Globals d;
     DeviceObject := DeviceObject d;
     SymbolicLinkCreated := SymbolicLinkCreated d;
     ProcessNotifyRegistered := v |}.

(** What the kernel holds on behalf of the driver: the objects the load
    path creates and registers, and the allocations of the DACL routine. *)
Record HOST := {
  Device : bool                  (* the device object exists *);
  DeviceDacl : bool              (* the restricting DACL is on the device *);
  SymbolicLink : bool            (* the symbolic link exists *);
  ObCallbacks : bool             (* the object callbacks are registered *);
  ProcessNotifyRoutine : bool    (* the process-notify routine is registered *);
  Filter : bool                  (* the minifilter is registered *);
  Filtering : bool               (* the minifilter has been started *);
  HeartbeatTimer : bool          (* the watchdog timer is set *);
  Sids : nat                     (* SIDs allocated and not freed *);
  PoolBlocks : nat               (* pool blocks allocated and not freed *)
}.

Definition set_Device (v : bool) (h : HOST) : HOST :=
  {| Device := v;
     DeviceDacl := DeviceDacl h;
     SymbolicLink := SymbolicLink h;
     ObCallbacks := ObCallbacks h;
     ProcessNotifyRoutine := ProcessNotifyRoutine h;
     Filter := Filter h;
     Filtering := Filtering h;
     HeartbeatTimer := HeartbeatTimer h;
     Sids := Sids h;
     PoolBlocks := PoolBlocks h |}.

Definition set_DeviceDacl (v : bool) (h : HOST) : HOST :=
  {| Device := Device h;
     DeviceDacl := v;
     SymbolicLink := SymbolicLink h;
     ObCallbacks := ObCallbacks h;
     ProcessNotifyRoutine := ProcessNotifyRoutine h;
     Filter := Filter h;
     Filtering := Filtering h;
     HeartbeatTimer := HeartbeatTimer h;
     Sids := Sids h;
     PoolBlocks := PoolBlocks h |}.

Definition set_SymbolicLink (v : bool) (h : HOST) : HOST :=
  {| Device := Device h;
     DeviceDacl := DeviceDacl h;
     SymbolicLink := v;
     ObCallbacks := ObCallbacks h;
     ProcessNotifyRoutine := ProcessNotifyRoutine h;
     Filter := Filter h;
     Filtering := Filtering h;
     HeartbeatTimer := HeartbeatTimer h;
     Sids := Sids h;
     PoolBlocks := PoolBlocks h |}.

Definition set_ObCallbacks (v : bool) (h : HOST) : HOST :=
  {| Device := Device h;
     DeviceDacl := DeviceDacl h;
     SymbolicLink := SymbolicLink h;
     ObCallbacks := v;
     ProcessNotifyRoutine := ProcessNotifyRoutine h;
     Filter := Filter h;
     Filtering := Filtering h;
     HeartbeatTimer := HeartbeatTimer h;
     Sids := Sids h;
     PoolBlocks := PoolBlocks h |}.

Definition set_ProcessNotifyRoutine (v : bool) (h : HOST) : HOST :=
  {| Device := Device h;
     DeviceDacl := DeviceDacl h;
     SymbolicLink := SymbolicLink h;
     ObCallbacks := ObCallbacks h;
     ProcessNotifyRoutine := v;
     Filter := Filter h;
     Filtering := Filtering h;
     HeartbeatTimer := HeartbeatTimer h;
     Sids := Sids h;
     PoolBlocks := PoolBlocks h |}.

Definition set_Filter (v : bool) (h : HOST) : HOST :=
  {| Device := Device h;
     DeviceDacl := DeviceDacl h;
     SymbolicLink := SymbolicLink h;
     ObCallbacks := ObCallbacks h;
     ProcessNotifyRoutine := ProcessNotifyRoutine h;
     Filter := v;
     Filtering := Filtering h;
     HeartbeatTimer := HeartbeatTimer h;
     Sids := Sids h;
     PoolBlocks := PoolBlocks h |}.

Definition set_Filtering (v : bool) (h : HOST) : HOST :=
  {| Device := Device h;
     DeviceDacl := DeviceDacl h;
     SymbolicLink := SymbolicLink h;
     ObCallbacks := ObCallbacks h;
     ProcessNotifyRoutine := ProcessNotifyRoutine h;
     Filter := Filter h;
     Filtering := v;
     HeartbeatTimer := HeartbeatTimer h;
     Sids := Sids h;
     PoolBlocks := PoolBlocks h |}.

Definition set_HeartbeatTimer (v : bool) (h : HOST) : HOST :=
  {| Device := Device h;
     DeviceDacl := DeviceDacl h;
     SymbolicLink := SymbolicLink h;
     ObCallbacks := ObCallbacks h;
     ProcessNotifyRoutine := ProcessNotifyRoutine h;
     Filter := Filter h;
     Filtering := Filtering h;
     HeartbeatTimer := v;
     Sids := Sids h;
     PoolBlocks := PoolBlocks h |}.

Definition set_Sids (v : nat) (h : HOST) : HOST :=
  {| Device := Device h;
     DeviceDacl := DeviceDacl h;
     SymbolicLink := SymbolicLink h;
     ObCallbacks := ObCallbacks h;
     ProcessNotifyRoutine := ProcessNotifyRoutine h;
     Filter := Filter h;
     Filtering := Filtering h;
     HeartbeatTimer := HeartbeatTimer h;
     Sids := v;
     PoolBlocks := PoolBlocks h |}.

Definition set_PoolBlocks (v : nat) (h : HOST) : HOST :=
  {| Device := Device h;
     DeviceDacl := DeviceDacl h;
     SymbolicLink := SymbolicLink h;
     ObCallbacks := ObCallbacks h;
     ProcessNotifyRoutine := ProcessNotifyRoutine h;
     Filter := Filter h;
     Filtering := Filtering h;
     HeartbeatTimer := HeartbeatTimer h;
     Sids := Sids h;
     PoolBlocks := v |}.

Definition nothing_held : HOST :=
  {| Device := false; DeviceDacl := false; SymbolicLink := false;
     ObCallbacks := false; ProcessNotifyRoutine := false;
     Filter := false; Filtering := false; HeartbeatTimer := false;
     Sids := 0; PoolBlocks := 0 |}.

(** The effects of the kernel routines on what the kernel holds. *)
Definition IoDeleteDevice (h : HOST) : HOST := set_DeviceDacl false (set_Device false h).
Definition FltUnregisterFilter (h : HOST) : HOST := set_Filtering false (set_Filter false h).
Definition SidAllocated (h : HOST) : HOST := set_Sids (S (Sids h)) h.
Definition RtlFreeSid (h : HOST) : HOST := set_Sids (pred (Sids h)) h.
Definition PoolAllocated (h : HOST) : HOST := set_PoolBlocks (S (PoolBlocks h)) h.
Definition ExFreePoolWithTag (h : HOST) : HOST := set_PoolBlocks (pred (PoolBlocks h)) h.

(** What the kernel routines called by [TadSetDeviceDacl] return, in the
    order of the calls ([ExAllocatePool2]: whether a block came back). *)
Record DACL_RESULTS := {
  AllocateSystemSid : NTSTATUS;
  AllocateAdminsSid : NTSTATUS;
  ExAllocatePool2 : bool;
  RtlCreateAcl : NTSTATUS;
  RtlCreateSecurityDescriptor : NTSTATUS;
  ObSetSecurityObjectByPointer : NTSTATUS
}.

(** What the kernel routines called by [DriverEntry] return: a status
    and, where the routine has one, the object or handle it stores. *)
Record LOAD_RESULTS := {
  IoCreateDevice : NTSTATUS * Z;
  IoCreateSymbolicLink : NTSTATUS;
  SetDeviceDacl : DACL_RESULTS;
  ObRegisterCallbacks : NTSTATUS * Z;
  PsSetCreateProcessNotifyRoutineEx : NTSTATUS;
  FltRegisterFilter : NTSTATUS * Z;
  FltStartFiltering : NTSTATUS
}.

(** Routines of the load and unload paths act on [g_Tad] and on what
    the kernel holds. *)
Module Sys.
Definition M (A : Type) : Type := TAD_DRIVER * HOST -> A * (TAD_DRIVER * HOST).
Definition ret {A} (a : A) : M A := fun m => (a, m).
Definition bind {A B} (c : M A) (k : A -> M B) : M B :=
  fun m => let (a, m') := c m in k a m'.
Definition read {A} (f : TAD_DRIVER -> A) : M A := fun m => (f (fst m), m).
Definition driver (f : TAD_DRIVER -> TAD_DRIVER) : M unit :=
  fun m => (tt, (f (fst m), snd m)).
Definition globals (f : TAD_DRIVER_GLOBALS -> TAD_DRIVER_GLOBALS) : M unit :=
  driver (fun d => set_Globals (f (Globals d)) d).
Definition host (f : HOST -> HOST) : M unit :=
  fun m => (tt, (fst m, f (snd m))).
Definition when (c : bool) (body : M unit) : M unit := if c then body else ret tt.
End Sys.

Notation "x <- c ;; k" := (Sys.bind c (fun x => k))
  (at level 61, c at next level, right associativity).
Notation "c ;;; k" := (Sys.bind c (fun _ => k))
  (at level 61, right associativity).

Definition TadCreateDeviceAndSymlink (r : LOAD_RESULTS) : Sys.M NTSTATUS :=
  let (status, device) := IoCreateDevice r in
  if negb (NT_SUCCESS status) then Sys.ret status
  else
    Sys.host (set_Device true) ;;;
    Sys.driver (set_DeviceObject device) ;;;
    let status := IoCreateSymbolicLink r in
    if negb (NT_SUCCESS status) then
      Sys.host IoDeleteDevice ;;;
      Sys.driver (set_DeviceObject 0) ;;;
      Sys.ret status
    else
      Sys.host (set_SymbolicLink true) ;;;
      Sys.driver (set_SymbolicLinkCreated true) ;;;
      Sys.ret STATUS_SUCCESS.

Definition TadCleanupDeviceAndSymlink : Sys.M unit :=
  created <- Sys.read SymbolicLinkCreated ;;
  Sys.when created
    (Sys.host (set_SymbolicLink false) ;;;       (* IoDeleteSymbolicLink *)
     Sys.driver (set_SymbolicLinkCreated false)) ;;;
  device <- Sys.read DeviceObject ;;
  Sys.when (negb (device =? 0))
    (Sys.host IoDeleteDevice ;;;
     Sys.driver (set_DeviceObject 0)).

(** The [Cleanup] label of [TadSetDeviceDacl]; the three locals say
    whether the pointer of that name is non-NULL. *)
Definition Cleanup (dacl systemSid adminsSid : bool) (status : NTSTATUS)
    : Sys.M NTSTATUS :=
  Sys.when dacl (Sys.host ExFreePoolWithTag) ;;;
  Sys.when systemSid (Sys.host RtlFreeSid) ;;;
  Sys.when adminsSid (Sys.host RtlFreeSid) ;;;
  Sys.ret status.

Definition TadSetDeviceDacl (r : DACL_RESULTS) : Sys.M NTSTATUS :=
  let status := AllocateSystemSid r in
  if negb (NT_SUCCESS status) then Cleanup false false false status else
  Sys.host SidAllocated ;;;
  let status := AllocateAdminsSid r in
  if negb (NT_SUCCESS status) then Cleanup false true false status else
  Sys.host SidAllocated ;;;
  if negb (ExAllocatePool2 r)
  then Cleanup false true true STATUS_INSUFFICIENT_RESOURCES else
  Sys.host PoolAllocated ;;;
  let status := RtlCreateAcl r in
  if negb (NT_SUCCESS status) then Cleanup true true true status else
  let status := RtlCreateSecurityDescriptor r in
  if negb (NT_SUCCESS status) then Cleanup true true true status else
  let status := ObSetSecurityObjectByPointer r in
  Sys.when (NT_SUCCESS status) (Sys.host (set_DeviceDacl true)) ;;;
  Cleanup true true true status.

Definition TadRegisterProcessProtection (r : LOAD_RESULTS) : Sys.M NTSTATUS :=
  handle <- Sys.read (fun d => ObCallbackHandle (Globals d)) ;;
  if negb (handle =? 0) then Sys.ret STATUS_ALREADY_REGISTERED
  else
    let (status, handle) := ObRegisterCallbacks r in
    (if NT_SUCCESS status
     then Sys.host (set_ObCallbacks true) ;;;
          Sys.globals (set_ObCallbackHandle handle)
     else Sys.globals (set_ObCallbackHandle 0)) ;;;
    Sys.ret status.

Definition TadUnregisterProcessProtection : Sys.M unit :=
  handle <- Sys.read (fun d => ObCallbackHandle (Globals d)) ;;
  Sys.when (negb (handle =? 0))
    (Sys.host (set_ObCallbacks false) ;;;        (* ObUnRegisterCallbacks *)
     Sys.globals (set_ObCallbackHandle 0)) ;;;
  Sys.globals (set_ProtectedPid 0).

Definition TadRegisterProcessNotify (r : LOAD_RESULTS) : Sys.M NTSTATUS :=
  registered <- Sys.read ProcessNotifyRegistered ;;
  if registered then Sys.ret STATUS_ALREADY_REGISTERED
  else
    let status := PsSetCreateProcessNotifyRoutineEx r in
    Sys.when (NT_SUCCESS status)
      (Sys.host (set_ProcessNotifyRoutine true) ;;;
       Sys.driver (set_ProcessNotifyRegistered true)) ;;;
    Sys.ret status.

Definition TadUnregisterProcessNotify : Sys.M unit :=
  registered <- Sys.read ProcessNotifyRegistered ;;
  Sys.when registered
    (Sys.host (set_ProcessNotifyRoutine false) ;;;   (* Remove = TRUE *)
     Sys.driver (set_ProcessNotifyRegistered false)).

Definition TadInitHeartbeatWatchdog : Sys.M unit := Sys.host (set_HeartbeatTimer true).
Definition TadStopHeartbeatWatchdog : Sys.M unit := Sys.host (set_HeartbeatTimer false).

(** [g_Tad] as [RtlZeroMemory] and the explicit initial values leave it. *)
Definition zeroed_g_Tad : TAD_DRIVER :=
  {| Globals := DriverEntry 0 0;
     DeviceObject := 0;
     SymbolicLinkCreated := false;
     ProcessNotifyRegistered := false |}.

(** The whole of [DriverEntry]: its status, [g_Tad] and what the kernel
    holds when it returns. *)
Definition TadDriverEntry (r : LOAD_RESULTS) : Sys.M NTSTATUS :=
  Sys.driver (fun _ => zeroed_g_Tad) ;;;
  status <- TadCreateDeviceAndSymlink r ;;
  if negb (NT_SUCCESS status) then Sys.ret status
  else
    TadSetDeviceDacl (SetDeviceDacl r) ;;;            (* non-fatal *)
    TadRegisterProcessProtection r ;;;
    TadRegisterProcessNotify r ;;;
    (let (status, filter) := FltRegisterFilter r in
     if NT_SUCCESS status then
       Sys.host (set_Filter true) ;;;
       Sys.globals (set_FilterHandle filter) ;;;
       let status := FltStartFiltering r in
       if negb (NT_SUCCESS status) then
         Sys.host FltUnregisterFilter ;;;
         Sys.globals (set_FilterHandle 0)
       else Sys.host (set_Filtering true)
     else Sys.globals (set_FilterHandle 0)) ;;;
    TadInitHeartbeatWatchdog ;;;
    Sys.ret STATUS_SUCCESS.

Definition TadDriverUnload : Sys.M unit :=
  allow <- Sys.read (fun d => AllowUnload (Globals d)) ;;
  if allow =? 0 then Sys.ret tt                        (* unload denied *)
  else
    TadStopHeartbeatWatchdog ;;;
    filter <- Sys.read (fun d => FilterHandle (Globals d)) ;;
    Sys.when (negb (filter =? 0))
      (Sys.host FltUnregisterFilter ;;;
       Sys.globals (set_FilterHandle 0)) ;;;
    TadUnregisterProcessNotify ;;;
    TadUnregisterProcessProtection ;;;
    agent <- Sys.read (fun d => AgentProcess (Globals d)) ;;
    Sys.when (negb (agent =? 0))
      (Sys.globals (set_AgentProcess 0)) ;;;           (* ObDereferenceObject *)
    TadCleanupDeviceAndSymlink.

Definition TadFilterUnloadCallback (g : TAD_DRIVER_GLOBALS) : NTSTATUS :=
  if AllowUnload g =? 0 then STATUS_FLT_DO_NOT_DETACH else STATUS_SUCCESS.

(** The kernel hands out an object or handle with every success. *)
Definition returns_objects (r : LOAD_RESULTS) : Prop :=
  (NT_SUCCESS (fst (IoCreateDevice r)) = true -> snd (IoCreateDevice r) <> 0)
  /\ (NT_SUCCESS (fst (ObRegisterCallbacks r)) = true -> snd (ObRegisterCallbacks r) <> 0)
  /\ (NT_SUCCESS (fst (FltRegisterFilter r)) = true -> snd (FltRegisterFilter r) <> 0).

(** The fields of the globals that the unload routine does not write. *)
Definition kept_by_unload (g g' : TAD_DRIVER_GLOBALS) : Prop :=
  ProtectedUiPid g' = ProtectedUiPid g
  /\ AllowUnload g' = AllowUnload g
  /\ InputLocked g' = InputLocked g
  /\ StealthActive g' = StealthActive g
  /\ StealthFlags g' = StealthFlags g
  /\ FailedUnlockAttempts g' = FailedUnlockAttempts g
  /\ LockoutUntil g' = LockoutUntil g
  /\ LastHeartbeatTime g' = LastHeartbeatTime g
  /\ HeartbeatAlive g' = HeartbeatAlive g
  /\ CurrentPolicy g' = CurrentPolicy g
  /\ PolicyValid g' = PolicyValid g
  /\ CurrentUserRole g' = CurrentUserRole g
  /\ Banned g' = Banned g.

(** The bookkeeping of [g_Tad] agrees with what the kernel holds, and
    no allocation of the DACL routine is outstanding. *)
Definition in_step (d : TAD_DRIVER) (h : HOST) : Prop :=
  Device h = negb (DeviceObject d =? 0)
  /\ SymbolicLink h = SymbolicLinkCreated d
  /\ ObCallbacks h = negb (ObCallbackHandle (Globals d) =? 0)
  /\ ProcessNotifyRoutine h = ProcessNotifyRegistered d
  /\ Filter h = negb (FilterHandle (Globals d) =? 0)
  /\ (Filtering h = true -> Filter h = true)
  /\ (DeviceDacl h = true -> Device h = true)
  /\ Sids h = 0%nat /\ PoolBlocks h = 0%nat.

(** Every step of [TadSetDeviceDacl] succeeds. *)
Definition dacl_succeeds (r : DACL_RESULTS) : bool :=
  NT_SUCCESS (AllocateSystemSid r) && NT_SUCCESS (AllocateAdminsSid r)
  && ExAllocatePool2 r && NT_SUCCESS (RtlCreateAcl r)
  && NT_SUCCESS (RtlCreateSecurityDescriptor r)
  && NT_SUCCESS (ObSetSecurityObjectByPointer r).

(** A load in which every kernel routine succeeds. *)
Definition all_succeed : LOAD_RESULTS :=
  {| IoCreateDevice := (STATUS_SUCCESS, 0x1000);
     IoCreateSymbolicLink := STATUS_SUCCESS;
     SetDeviceDacl :=
       {| AllocateSystemSid := STATUS_SUCCESS; AllocateAdminsSid := STATUS_SUCCESS;
          ExAllocatePool2 := true; RtlCreateAcl := STATUS_SUCCESS;
          RtlCreateSecurityDescriptor := STATUS_SUCCESS;
          ObSetSecurityObjectByPointer := STATUS_SUCCESS |};
     ObRegisterCallbacks := (STATUS_SUCCESS, 0x2000);
     PsSetCreateProcessNotifyRoutineEx := STATUS_SUCCESS;
     FltRegisterFilter := (STATUS_SUCCESS, 0x3000);
     FltStartFiltering := STATUS_SUCCESS |}.

(** A load in which the symbolic link cannot be created. *)
Definition link_fails : LOAD_RESULTS :=
  {| IoCreateDevice := (STATUS_SUCCESS, 0x1000);
     IoCreateSymbolicLink := 0xC0000035;            (* name collision *)
     SetDeviceDacl := SetDeviceDacl all_succeed;
     ObRegisterCallbacks := ObRegisterCallbacks all_succeed;
     PsSetCreateProcessNotifyRoutineEx := STATUS_SUCCESS;
     FltRegisterFilter := FltRegisterFilter all_succeed;
     FltStartFiltering := STATUS_SUCCESS |}.

(** A load in which only the device and its link can be created. *)
Definition only_device : LOAD_RESULTS :=
  {| IoCreateDevice := (STATUS_SUCCESS, 0x1000);
     IoCreateSymbolicLink := STATUS_SUCCESS;
     SetDeviceDacl :=
       {| AllocateSystemSid := STATUS_SUCCESS; AllocateAdminsSid := STATUS_SUCCESS;
          ExAllocatePool2 := false; RtlCreateAcl := STATUS_SUCCESS;
          RtlCreateSecurityDescriptor := STATUS_SUCCESS;
          ObSetSecurityObjectByPointer := STATUS_SUCCESS |};
     ObRegisterCallbacks := (STATUS_ACCESS_DENIED, 0);
     PsSetCreateProcessNotifyRoutineEx := STATUS_ACCESS_DENIED;
     FltRegisterFilter := (STATUS_SUCCESS, 0x3000);
     FltStartFiltering := STATUS_INSUFFICIENT_RESOURCES |}.

(** [g_Tad] and what the kernel holds after a load in which every
    routine succeeds. *)
Definition fully_loaded : TAD_DRIVER * HOST :=
  snd (TadDriverEntry all_succeed (zeroed_g_Tad, nothing_held)).

(** The agent registers itself, has the overlay 88 protected and
    presents the secret. *)
Definition agent_unlocks : list (KERNEL * IRP) :=
  [ (kernel_of 5321 4321 0,
     request IOCTL_TAD_PROTECT_PID (mk_PROTECT_PID_INPUT 4321 0));
    (kernel_of 5321 4321 0,
     request IOCTL_TAD_PROTECT_UI (mk_PROTECT_UI_INPUT 88 1));
    (kernel_of 5321 4321 0, request IOCTL_TAD_UNLOCK AuthSecret) ].

Definition unlocked_globals : TAD_DRIVER_GLOBALS :=
  match run_requests agent_unlocks (Globals (fst fully_loaded)) with
  | Some g => g
  | None => Globals (fst fully_loaded)
  end.

(** What holds of the switches and identifiers of the globals in every
    state the command bridge can reach. *)
Definition settings_consistent (g : TAD_DRIVER_GLOBALS) : Prop :=
  ((PolicyValid g = 0 /\ CurrentPolicy g = zero_POLICY_BUFFER)
   \/ (PolicyValid g = 1 /\ Version (CurrentPolicy g) = 1))
  /\ (InputLocked g = 0 \/ InputLocked g = 1)
  /\ (HeartbeatAlive g = 0 \/ HeartbeatAlive g = 1)
  /\ ((StealthActive g = 0 /\ StealthFlags g = 0) \/ StealthActive g = 1)
  /\ (ProtectedPid g = 0 -> AgentProcess g = 0)
  /\ 0 <= ProtectedPid g < 2 ^ 32
  /\ 0 <= ProtectedUiPid g < 2 ^ 32.

(** The banned-app table within its arrays: the count does not exceed
    the 32 slots, both arrays have 32 entries, every storage row has its
    64 code units, and every slot is cleared or holds a pattern shorter
    than a row. *)
Definition table_in_bounds (t : BANNED_APP_TABLE) : Prop :=
  0 <= BannedAppCount t <= Z.of_nat TAD_MAX_BANNED_APPS
  /\ length (BannedApps t) = TAD_MAX_BANNED_APPS
  /\ length (BannedAppStorage t) = TAD_MAX_BANNED_APPS
  /\ Forall (fun row => length row = TAD_MAX_IMAGE_NAME_LEN) (BannedAppStorage t)
  /\ Forall slot_ok (BannedApps t).

(** The globals after the requests [reqs] from [g] ([g] itself when one
    of them does not complete). *)
Definition state_after_on (reqs : list (KERNEL * IRP)) (g : TAD_DRIVER_GLOBALS)
    : TAD_DRIVER_GLOBALS :=
  match run_requests reqs g with
  | Some g' => g'
  | None => g
  end.

(** What the I/O manager guarantees of a [METHOD_BUFFERED] request, the
    transfer method of all ten opcodes: the system buffer holds the
    larger of the two declared lengths, so it is NULL only when both
    lengths are 0. *)
Definition buffered (irp : IRP) : Prop :=
  SystemBuffer irp = None ->
  InputBufferLength irp = 0 /\ OutputBufferLength irp = 0.

(* ===================================================================== *)
(** * Properties *)
(* ===================================================================== *)

(** ** Bytes *)

Lemma u8_range (b : UCHAR) : 0 <= u8 b < 256.
Proof.
  unfold u8. pose proof (Byte.to_N_bounded b). lia.
Qed.

Lemma land_255_range (z : Z) : 0 <= Z.land z 255 < 256.
Proof.
  change 255 with (Z.ones 8). rewrite Z.land_ones by lia.
  apply Z.mod_pos_bound. reflexivity.
Qed.

Lemma land_255_small (z : Z) : 0 <= z < 256 -> Z.land z 255 = z.
Proof.
  intros H. change 255 with (Z.ones 8). rewrite Z.land_ones by lia.
  apply Z.mod_small. exact H.
Qed.

Lemma u8_to_UCHAR (z : Z) : u8 (to_UCHAR z) = Z.land z 255.
Proof.
  unfold to_UCHAR, u8.
  pose proof (land_255_range z) as R.
  pose proof (Byte.to_of_N_option_map (Z.to_N (Z.land z 255))) as E.
  destruct (Byte.of_N (Z.to_N (Z.land z 255))) as [b|]; simpl in E.
  - destruct (N.leb_spec (Z.to_N (Z.land z 255)) 255) as [_|C]; [|discriminate].
    injection E as ->. lia.
  - destruct (N.leb_spec (Z.to_N (Z.land z 255)) 255) as [C|C]; [discriminate|lia].
Qed.

Lemma to_UCHAR_u8 (b : UCHAR) : to_UCHAR (u8 b) = b.
Proof.
  unfold to_UCHAR. rewrite land_255_small by apply u8_range.
  unfold u8. rewrite N2Z.id, Byte.of_to_N. reflexivity.
Qed.

Lemma u8_inj (a b : UCHAR) : u8 a = u8 b -> a = b.
Proof.
  intros H. rewrite <- (to_UCHAR_u8 a), <- (to_UCHAR_u8 b), H. reflexivity.
Qed.

Lemma u8_zero_iff (b : UCHAR) : u8 b = 0 <-> b = x00.
Proof.
  split; [intros H; apply u8_inj; exact H | intros ->; reflexivity].
Qed.

(** ** Secret verification *)

Lemma decode_loop_AuthSecret :
  decode_loop TAD_AUTH_KEY_SIZE 0 (repeat x00 TAD_AUTH_KEY_SIZE)
  = (AuthSecret, TAD_AUTH_KEY_SIZE).
Proof. vm_compute. reflexivity. Qed.

Lemma accumulate_zero_iff (diff a b : UCHAR) :
  u8 (to_UCHAR (Z.lor (u8 diff) (Z.lxor (u8 a) (u8 b)))) = 0
  <-> u8 diff = 0 /\ a = b.
Proof.
  rewrite u8_to_UCHAR, Z.land_lor_distr_l.
  rewrite (land_255_small (u8 diff)) by apply u8_range.
  assert (X : Z.land (Z.lxor (u8 a) (u8 b)) 255 = Z.lxor (u8 a) (u8 b)).
  { apply Z.bits_inj'. intros n Hn.
    rewrite Z.land_spec, Z.lxor_spec.
    rewrite <- (land_255_small (u8 a)) by apply u8_range.
    rewrite <- (land_255_small (u8 b)) by apply u8_range.
    rewrite !Z.land_spec. destruct (Z.testbit 255 n); 
      rewrite ?andb_true_r, ?andb_false_r; reflexivity. }
  rewrite X, Z.lor_eq_0_iff, Z.lxor_eq_0_iff.
  split; intros [H1 H2]; split; auto using u8_inj. congruence.
Qed.

Lemma compare_loop_count (n i : nat) (decoded key : list UCHAR) (diff : UCHAR) :
  Ops.count (compare_loop n i decoded key diff) = (2 * n)%nat.
Proof.
  revert i diff. induction n as [|n IH]; intros i diff; [reflexivity|].
  simpl compare_loop. unfold byte_xor, byte_or_assign, Ops.op, Ops.bind.
  specialize (IH (S i) (to_UCHAR (Z.lor (u8 diff)
     (Z.lxor (u8 (rd x00 decoded i)) (u8 (rd x00 key i)))))).
  unfold Ops.count in *.
  destruct (compare_loop n (S i) decoded key _) as [d c].
  simpl in *. lia.
Qed.

Lemma compare_loop_value (n i : nat) (decoded key : list UCHAR) (diff : UCHAR) :
  u8 (Ops.value (compare_loop n i decoded key diff)) = 0
  <-> u8 diff = 0 /\
      forall j, (j < n)%nat -> rd x00 decoded (i + j) = rd x00 key (i + j).
Proof.
  revert i diff. induction n as [|n IH]; intros i diff.
  - simpl. split; [intros H; split; [exact H | intros j Hj; lia] | tauto].
  - simpl compare_loop. unfold byte_xor, byte_or_assign, Ops.op, Ops.bind.
    specialize (IH (S i) (to_UCHAR (Z.lor (u8 diff)
       (Z.lxor (u8 (rd x00 decoded i)) (u8 (rd x00 key i)))))).
    unfold Ops.value in *.
    destruct (compare_loop n (S i) decoded key _) as [d c].
    simpl in *. rewrite IH, accumulate_zero_iff.
    split.
    + intros [[H0 H1] H2]. split; [exact H0|].
      intros [|j] Hj.
      * rewrite Nat.add_0_r. exact H1.
      * replace (i + S j)%nat with (S (i + j)) by lia. apply H2. lia.
    + intros [H0 H1]. repeat split; [exact H0 | |].
      * specialize (H1 O). rewrite Nat.add_0_r in H1. apply H1. lia.
      * intros j Hj. specialize (H1 (S j)).
        replace (i + S j)%nat with (S (i + j)) in H1 by lia. apply H1. lia.
Qed.

Lemma TadVerifyAuthKey_counted_eq (key : list UCHAR) :
  TadVerifyAuthKey_counted key
  = (u8 (Ops.value (compare_loop TAD_AUTH_KEY_SIZE 0 AuthSecret key x00)) =? 0,
     (3 * TAD_AUTH_KEY_SIZE)%nat).
Proof.
  unfold TadVerifyAuthKey_counted. rewrite decode_loop_AuthSecret.
  unfold Ops.bind at 1.
  pose proof (compare_loop_count TAD_AUTH_KEY_SIZE 0 AuthSecret key x00) as C.
  unfold Ops.bind, Ops.ret, Ops.value, Ops.count in *.
  destruct (compare_loop TAD_AUTH_KEY_SIZE 0 AuthSecret key x00) as [d c].
  simpl in *. subst c. reflexivity.
Qed.

Lemma TadVerifyAuthKey_true_iff (key : list UCHAR) :
  TadVerifyAuthKey key = true
  <-> forall j, (j < TAD_AUTH_KEY_SIZE)%nat -> rd x00 AuthSecret j = rd x00 key j.
Proof.
  unfold TadVerifyAuthKey. rewrite TadVerifyAuthKey_counted_eq.
  unfold Ops.value at 1. cbn [fst].
  rewrite Z.eqb_eq, compare_loop_value. cbn [Nat.add].
  split; [tauto | intros H; split; [reflexivity | exact H]].
Qed.

(** C8.  The secret verification returns true exactly when the 32
    provided bytes are, byte for byte, the de-obfuscated stored key, and
    it executes the same number of byte operations (96: one XOR per byte
    to de-obfuscate, one XOR and one OR per byte to compare) on every
    input, wherever the first differing byte is. *)
Theorem C8_verify_exact_and_constant_cost :
  (forall key : list UCHAR,
      length key = TAD_AUTH_KEY_SIZE ->
      (TadVerifyAuthKey key = true <-> key = AuthSecret))
  /\ (forall key : list UCHAR,
        Ops.count (TadVerifyAuthKey_counted key) = 96%nat)
  /\ (forall key1 key2 : list UCHAR,
        Ops.count (TadVerifyAuthKey_counted key1)
        = Ops.count (TadVerifyAuthKey_counted key2)).
Proof.
  assert (C : forall key, Ops.count (TadVerifyAuthKey_counted key) = 96%nat).
  { intros key. rewrite TadVerifyAuthKey_counted_eq. reflexivity. }
  split; [|split; [exact C | intros; rewrite !C; reflexivity]].
  intros key Hlen. rewrite TadVerifyAuthKey_true_iff. split.
  - intros H. symmetry. apply (nth_ext _ _ x00 x00).
    + symmetry. exact Hlen.
    + intros n Hn. apply H. exact Hn.
  - intros -> j _. reflexivity.
Qed.

(** The secret as a key, and two keys that differ from it at position 0
    and at position 31 only. *)
Lemma C8_witness :
  (TadVerifyAuthKey AuthSecret = true <-> AuthSecret = AuthSecret)
  /\ TadVerifyAuthKey (wr AuthSecret 0 x00) = false
  /\ TadVerifyAuthKey (wr AuthSecret 31 x00) = false
  /\ Ops.count (TadVerifyAuthKey_counted (wr AuthSecret 0 x00))
     = Ops.count (TadVerifyAuthKey_counted (wr AuthSecret 31 x00)).
Proof.
  split; [apply (proj1 C8_verify_exact_and_constant_cost AuthSecret); reflexivity|].
  split; [vm_compute; reflexivity|].
  split; [vm_compute; reflexivity|].
  apply (proj2 (proj2 C8_verify_exact_and_constant_cost)).
Defined.

(** ** Handle interception *)

Ltac case_eqb :=
  repeat (match goal with
          | |- context [Z.eqb ?a ?b] => destruct (Z.eqb_spec a b)
          | |- context [Z.ltb ?a ?b] => destruct (Z.ltb_spec a b)
          | |- context [Z.leb ?a ?b] => destruct (Z.leb_spec a b)
          end; cbn [negb andb orb fst snd]).

Lemma ObPreCallback_succeeds expected rights k g op :
  fst (ObPreCallback expected rights k g op) = OB_PREOP_SUCCESS.
Proof.
  destruct (fst (ObPreCallback expected rights k g op)). reflexivity.
Qed.

Lemma ObPreCallback_strips expected rights k g op :
  ProtectedPid g <> 0 \/ ProtectedUiPid g <> 0 ->
  ObjectType op = expected ->
  ObjectProcessId op = ProtectedPid g \/ ObjectProcessId op = ProtectedUiPid g ->
  PsGetCurrentProcessId k <> ProtectedPid g ->
  PsGetCurrentProcessId k <> ProtectedUiPid g ->
  Operation op = OB_OPERATION_HANDLE_CREATE
  \/ Operation op = OB_OPERATION_HANDLE_DUPLICATE ->
  snd (ObPreCallback expected rights k g op)
  = set_DesiredAccess (strip_rights rights (DesiredAccess op)) op.
Proof.
  intros Hset Hty Htgt Hc1 Hc2 Hop. unfold ObPreCallback.
  rewrite Hty.
  replace (OBJECT_TYPE_eqb expected expected) with true by (destruct expected; reflexivity).
  unfold OB_OPERATION_HANDLE_CREATE, OB_OPERATION_HANDLE_DUPLICATE in *.
  destruct (Z.eqb_spec (ProtectedPid g) 0); cbn [negb];
    case_eqb; try reflexivity; exfalso; lia.
Qed.

Lemma ObPreCallback_unchanged expected rights k g op :
  (PsGetCurrentProcessId k = ProtectedPid g \/ PsGetCurrentProcessId k = ProtectedUiPid g)
  \/ (ObjectProcessId op <> ProtectedPid g /\ ObjectProcessId op <> ProtectedUiPid g)
  \/ (ProtectedPid g = 0 /\ ProtectedUiPid g = 0) ->
  snd (ObPreCallback expected rights k g op) = op.
Proof.
  intros H. unfold ObPreCallback.
  destruct (OBJECT_TYPE_eqb (ObjectType op) expected);
    destruct (Z.eqb_spec (ProtectedPid g) 0); cbn [negb];
    case_eqb; try reflexivity; exfalso; lia.
Qed.

Lemma small_index (i : Z) :
  0 <= i < 32 -> exists n : nat, i = Z.of_nat n /\ (n < 32)%nat.
Proof. intros H. exists (Z.to_nat i). lia. Qed.

Ltac each_bit_below_32 i H :=
  destruct (small_index i H) as [n [-> Hn]];
  do 32 (destruct n as [|n]; [reflexivity|]); exfalso; lia.

Lemma strip_rights_bit (rights a i : Z) :
  0 <= i < 32 ->
  Z.testbit (strip_rights rights a) i
  = Z.testbit a i && negb (Z.testbit rights i).
Proof.
  intros H. unfold strip_rights, to_ULONG.
  rewrite Z.land_spec, Z.mod_pow2_bits_low, Z.lnot_spec by lia. reflexivity.
Qed.

Lemma strip_rights_range (rights a : Z) :
  0 <= strip_rights rights a < 2 ^ 32.
Proof.
  unfold strip_rights, to_ULONG.
  assert (B : 0 <= Z.lnot rights mod 2 ^ 32 < 2 ^ 32)
    by (apply Z.mod_pos_bound; reflexivity).
  set (m := Z.lnot rights mod 2 ^ 32) in *.
  split.
  - apply Z.land_nonneg. right. lia.
  - assert (L : Z.land a m = Z.land a m mod 2 ^ 32).
    { apply Z.bits_inj'. intros n Hn.
      destruct (Z.ltb_spec n 32).
      - rewrite Z.mod_pow2_bits_low by lia. reflexivity.
      - rewrite Z.mod_pow2_bits_high by lia. rewrite Z.land_spec.
        replace m with (m mod 2 ^ 32) by (apply Z.mod_small; lia).
        rewrite Z.mod_pow2_bits_high by lia. apply andb_false_r. }
    rewrite L. apply Z.mod_pos_bound. reflexivity.
Qed.

Lemma process_rights_bits (i : Z) :
  0 <= i < 32 ->
  Z.testbit TAD_STRIPPED_PROCESS_RIGHTS i = existsb (Z.eqb i) [0; 1; 3; 5; 11].
Proof. intros H. each_bit_below_32 i H. Qed.

Lemma thread_rights_bits (i : Z) :
  0 <= i < 32 ->
  Z.testbit TAD_STRIPPED_THREAD_RIGHTS i = existsb (Z.eqb i) [0; 1; 4].
Proof. intros H. each_bit_below_32 i H. Qed.

(** C6.  Both handle callbacks always return success.  With a protected
    identity registered, a handle create or duplicate on a target whose
    process identifier is one of the two protected slots, requested by a
    process that is neither slot, gets the requested mask with the
    stripped rights cleared: bits 0, 1, 3, 5, 11 (terminate,
    create-thread, memory operation, memory write, suspend/resume) for a
    process; bits 0, 1, 4 (terminate, suspend/resume, set-context) for a
    thread; every other bit is as requested, and operation, object type
    and target are as they were.  A request by either protected slot, or
    on a target that is neither slot, or while neither slot is set,
    keeps its mask.  Slots are compared the way the callbacks compare
    them, as identifier values, an unset slot being the value 0. *)
Theorem C6_handle_rights_stripped :
  forall (k : KERNEL) (g : TAD_DRIVER_GLOBALS) (op : OB_PRE_OPERATION_INFORMATION),
    let svc := ProtectedPid g in
    let ui := ProtectedUiPid g in
    let target := ObjectProcessId op in
    let caller := PsGetCurrentProcessId k in
    (fst (TadObProcessPreCallback k g op) = OB_PREOP_SUCCESS
     /\ fst (TadObThreadPreCallback k g op) = OB_PREOP_SUCCESS)
    /\ (svc <> 0 \/ ui <> 0 ->
        target = svc \/ target = ui ->
        caller <> svc -> caller <> ui ->
        Operation op = OB_OPERATION_HANDLE_CREATE
        \/ Operation op = OB_OPERATION_HANDLE_DUPLICATE ->
        (ObjectType op = PsProcessType ->
         snd (TadObProcessPreCallback k g op)
         = set_DesiredAccess
             (strip_rights TAD_STRIPPED_PROCESS_RIGHTS (DesiredAccess op)) op
         /\ DesiredAccess (snd (TadObProcessPreCallback k g op))
            = strip_rights TAD_STRIPPED_PROCESS_RIGHTS (DesiredAccess op)
         /\ Operation (snd (TadObProcessPreCallback k g op)) = Operation op
         /\ ObjectType (snd (TadObProcessPreCallback k g op)) = ObjectType op
         /\ ObjectProcessId (snd (TadObProcessPreCallback k g op)) = ObjectProcessId op)
        /\ (ObjectType op = PsThreadType ->
            snd (TadObThreadPreCallback k g op)
            = set_DesiredAccess
                (strip_rights TAD_STRIPPED_THREAD_RIGHTS (DesiredAccess op)) op
            /\ DesiredAccess (snd (TadObThreadPreCallback k g op))
               = strip_rights TAD_STRIPPED_THREAD_RIGHTS (DesiredAccess op)
            /\ Operation (snd (TadObThreadPreCallback k g op)) = Operation op
            /\ ObjectType (snd (TadObThreadPreCallback k g op)) = ObjectType op
            /\ ObjectProcessId (snd (TadObThreadPreCallback k g op))
               = ObjectProcessId op))
    /\ ((caller = svc \/ caller = ui)
        \/ (target <> svc /\ target <> ui)
        \/ (svc = 0 /\ ui = 0) ->
        snd (TadObProcessPreCallback k g op) = op
        /\ snd (TadObThreadPreCallback k g op) = op
        /\ DesiredAccess (snd (TadObProcessPreCallback k g op)) = DesiredAccess op
        /\ DesiredAccess (snd (TadObThreadPreCallback k g op)) = DesiredAccess op)
    /\ (forall a i, 0 <= i < 32 ->
          Z.testbit (strip_rights TAD_STRIPPED_PROCESS_RIGHTS a) i
          = Z.testbit a i && negb (existsb (Z.eqb i) [0; 1; 3; 5; 11]))
    /\ (forall a i, 0 <= i < 32 ->
          Z.testbit (strip_rights TAD_STRIPPED_THREAD_RIGHTS a) i
          = Z.testbit a i && negb (existsb (Z.eqb i) [0; 1; 4])).
Proof.
  intros k g op svc ui target caller. subst svc ui target caller.
  unfold TadObProcessPreCallback, TadObThreadPreCallback.
  split; [split; apply ObPreCallback_succeeds|].
  split; [|split; [|split]].
  - intros Hset Htarget Hc1 Hc2 Hop. split; intros Hty;
      rewrite ObPreCallback_strips by assumption;
      cbn [set_DesiredAccess DesiredAccess Operation ObjectType ObjectProcessId];
      repeat split; reflexivity.
  - intros H. rewrite !ObPreCallback_unchanged by exact H.
    repeat split; reflexivity.
  - intros a i Hi. rewrite strip_rights_bit, process_rights_bits by exact Hi.
    reflexivity.
  - intros a i Hi. rewrite strip_rights_bit, thread_rights_bits by exact Hi.
    reflexivity.
Qed.

(** The agent is process 4321; process 77 asks for all access to it
    ([PROCESS_ALL_ACCESS], 0x1FFFFF) and is left with 0x1FF7D4; asking
    for all access to one of its threads, it is left with 0x1FFFEC. *)
Lemma C6_witness :
  let k := kernel_of 5000 77 0 in
  let g := set_ProtectedPid 4321 (DriverEntry 1 1) in
  let op := {| Operation := OB_OPERATION_HANDLE_CREATE;
               ObjectType := PsProcessType;
               ObjectProcessId := 4321;
               DesiredAccess := 0x1FFFFF |} in
  let th := {| Operation := OB_OPERATION_HANDLE_DUPLICATE;
               ObjectType := PsThreadType;
               ObjectProcessId := 4321;
               DesiredAccess := 0x1FFFFF |} in
  DesiredAccess (snd (TadObProcessPreCallback k g op)) = 0x1FF7D4
  /\ DesiredAccess (snd (TadObThreadPreCallback k g th)) = 0x1FFFEC.
Proof.
  intros k g op th. split.
  - destruct (C6_handle_rights_stripped k g op) as (_ & Hstrip & _).
    destruct Hstrip as [Hproc _].
    + left. vm_compute. discriminate.
    + left. reflexivity.
    + vm_compute. discriminate.
    + vm_compute. discriminate.
    + left. reflexivity.
    + destruct (Hproc eq_refl) as (_ & Hmask & _).
      exact (eq_trans Hmask eq_refl).
  - destruct (C6_handle_rights_stripped k g th) as (_ & Hstrip & _).
    destruct Hstrip as [_ Hthread].
    + left. vm_compute. discriminate.
    + left. reflexivity.
    + vm_compute. discriminate.
    + vm_compute. discriminate.
    + right. reflexivity.
    + destruct (Hthread eq_refl) as (_ & Hmask & _).
      exact (eq_trans Hmask eq_refl).
Defined.

(** ** Case-insensitive comparison *)

Section ComparisonFacts.

Variable NlsUpcase : WCHAR -> WCHAR.

Local Abbreviation up := (RtlUpcaseUnicodeChar NlsUpcase).

Lemma chars_length (s : UNICODE_STRING) :
  length (chars s) = Z.to_nat (Length s / 2).
Proof. unfold chars. rewrite length_map, length_seq. reflexivity. Qed.

Lemma compare_units_zero_iff (l1 l2 : list WCHAR) :
  length l1 = length l2 ->
  (compare_units NlsUpcase l1 l2 = 0 <-> map up l1 = map up l2).
Proof.
  revert l2. induction l1 as [|c1 t1 IH]; intros [|c2 t2] Hlen;
    try discriminate; simpl.
  - tauto.
  - injection Hlen as Hlen. specialize (IH t2 Hlen).
    destruct (Z.eqb_spec (up c1 - up c2) 0) as [E|E].
    + rewrite IH. split; intros H.
      * f_equal; [lia | exact H].
      * injection H as _ H. exact H.
    + split; intros H; [lia | injection H as H _; lia].
Qed.


Lemma well_formed_length (s : UNICODE_STRING) :
  well_formed s -> Length s = 2 * Z.of_nat (length (chars s)).
Proof.
  intros [[H0 _] H2]. rewrite chars_length.
  rewrite Z2Nat.id by (apply Z.div_pos; lia).
  pose proof (Z.div_mod (Length s) 2). lia.
Qed.

(** [RtlCompareUnicodeString(a, b, TRUE) == 0] on well-formed strings
    is case-insensitive equality of what they denote. *)
Lemma RtlCompareUnicodeString_zero_iff (s1 s2 : UNICODE_STRING) :
  well_formed s1 -> well_formed s2 ->
  (RtlCompareUnicodeString NlsUpcase s1 s2 = 0
   <-> CaseInsensitiveEq NlsUpcase (chars s1) (chars s2)).
Proof.
  intros W1 W2. unfold RtlCompareUnicodeString, CaseInsensitiveEq.
  pose proof (well_formed_length s1 W1) as L1.
  pose proof (well_formed_length s2 W2) as L2.
  destruct (Z.eqb_spec (compare_units NlsUpcase (chars s1) (chars s2)) 0) as [E|E].
  - split.
    + intros H. apply compare_units_zero_iff; [lia | exact E].
    + intros H. apply (f_equal (@length _)) in H.
      rewrite !length_map in H. lia.
  - split; [intros H; contradiction|].
    intros H. exfalso. apply E. apply compare_units_zero_iff; [|exact H].
    apply (f_equal (@length _)) in H. rewrite !length_map in H. exact H.
Qed.


Lemma chars_RtlInitUnicodeString (l : list WCHAR) :
  chars (RtlInitUnicodeString l) = l.
Proof.
  unfold chars, RtlInitUnicodeString. cbn [Length Buffer].
  replace (2 * Z.of_nat (length l) / 2) with (Z.of_nat (length l))
    by (rewrite Z.mul_comm, Z.div_mul; lia).
  rewrite Nat2Z.id. unfold rd.
  apply (nth_ext _ _ 0 0).
  - rewrite length_map, length_seq. reflexivity.
  - intros n Hn. rewrite length_map, length_seq in Hn.
    rewrite (nth_indep _ 0 (nth 0 l 0)) by (rewrite length_map, length_seq; exact Hn).
    rewrite (map_nth (fun i => nth i l 0)), seq_nth by exact Hn. reflexivity.
Qed.

Lemma well_formed_literal (l : list WCHAR) :
  Z.of_nat (length l) < 2 ^ 15 -> well_formed (RtlInitUnicodeString l).
Proof.
  intros H. unfold well_formed, RtlInitUnicodeString. cbn [Length].
  split; [lia|]. rewrite Z.mul_comm. apply Z.mod_mul. lia.
Qed.

(** The protected-name test is membership in the fixed set, up to
    case. *)
Lemma TadIsProtectedFilename_true_iff (FileName : UNICODE_STRING) :
  well_formed FileName ->
  (TadIsProtectedFilename NlsUpcase FileName = true
   <-> exists name, In name ProtectedFilenameSet
                    /\ CaseInsensitiveEq NlsUpcase (chars FileName) name).
Proof.
  intros W. unfold TadIsProtectedFilename, ProtectedFilenameSet.
  assert (R : forall l, Z.of_nat (length l) < 2 ^ 15 ->
    (RtlCompareUnicodeString NlsUpcase FileName (RtlInitUnicodeString l) =? 0) = true
    <-> CaseInsensitiveEq NlsUpcase (chars FileName) l).
  { intros l Hl. rewrite Z.eqb_eq, RtlCompareUnicodeString_zero_iff
      by (try exact W; apply well_formed_literal; exact Hl).
    rewrite chars_RtlInitUnicodeString. reflexivity. }
  pose proof (R TAD_DRIVER_FILENAME ltac:(vm_compute; reflexivity)) as R1.
  pose proof (R TAD_UI_FILENAME ltac:(vm_compute; reflexivity)) as R2.
  pose proof (R TAD_SERVICE_FILENAME ltac:(vm_compute; reflexivity)) as R3.
  clear R.
  destruct (RtlCompareUnicodeString NlsUpcase FileName
              (RtlInitUnicodeString TAD_DRIVER_FILENAME) =? 0).
  { split; [intros _|reflexivity]. eexists. split; [left; reflexivity|].
    apply R1. reflexivity. }
  destruct (RtlCompareUnicodeString NlsUpcase FileName
              (RtlInitUnicodeString TAD_UI_FILENAME) =? 0).
  { split; [intros _|reflexivity]. eexists. split; [right; left; reflexivity|].
    apply R2. reflexivity. }
  destruct (RtlCompareUnicodeString NlsUpcase FileName
              (RtlInitUnicodeString TAD_SERVICE_FILENAME) =? 0).
  { split; [intros _|reflexivity]. eexists. split; [right; right; left; reflexivity|].
    apply R3. reflexivity. }
  split; [discriminate|].
  intros [name [[<-|[<-|[<-|[]]]] H]].
  - apply R1 in H. discriminate.
  - apply R2 in H. discriminate.
  - apply R3 in H. discriminate.
Qed.

End ComparisonFacts.

(** ** Filesystem intercept *)

Lemma TadPreSetInformationCallback_recognized NlsUpcase (Data : FLT_CALLBACK_DATA) :
  recognized_operation Data = true ->
  TadPreSetInformationCallback NlsUpcase Data
  = match target_final_component Data with
    | Some fc =>
        if TadIsProtectedFilename NlsUpcase fc
        then (FLT_PREOP_COMPLETE, set_IoStatus STATUS_ACCESS_DENIED 0 Data)
        else (FLT_PREOP_SUCCESS_NO_CALLBACK, Data)
    | None => (FLT_PREOP_SUCCESS_NO_CALLBACK, Data)
    end.
Proof.
  unfold recognized_operation, TadPreSetInformationCallback, target_final_component.
  destruct (classify_set_information Data) as [[isDeletion isRename]|]; [|discriminate].
  intros H. destruct isDeletion, isRename; try discriminate; cbn [negb andb];
    destruct (FltGetFileNameInformation Data) as [info|]; try reflexivity;
    destruct (ParseSucceeds info); reflexivity.
Qed.

Lemma TadPreSetInformationCallback_not_recognized NlsUpcase (Data : FLT_CALLBACK_DATA) :
  recognized_operation Data = false ->
  TadPreSetInformationCallback NlsUpcase Data = (FLT_PREOP_SUCCESS_NO_CALLBACK, Data).
Proof.
  unfold recognized_operation, TadPreSetInformationCallback.
  destruct (classify_set_information Data) as [[isDeletion isRename]|]; [|reflexivity].
  destruct isDeletion, isRename; try discriminate. reflexivity.
Qed.

(** The recognized operations: a rename (plain or extended), an
    extended disposition, or a plain disposition whose [DeleteFile] byte
    is set. *)
Lemma recognized_operation_iff (Data : FLT_CALLBACK_DATA) :
  recognized_operation Data = true
  <-> FileInformationClass Data = FileRenameInformation
      \/ FileInformationClass Data = FileRenameInformationEx
      \/ FileInformationClass Data = FileDispositionInformationEx
      \/ (FileInformationClass Data = FileDispositionInformation
          /\ exists d, InfoBuffer Data = Some d /\ DISPOSITION_DeleteFile d = true).
Proof.
  unfold recognized_operation, classify_set_information.
  unfold FileRenameInformation, FileRenameInformationEx,
    FileDispositionInformationEx, FileDispositionInformation.
  destruct (Z.eqb_spec (FileInformationClass Data) 13) as [E|E].
  - destruct (InfoBuffer Data) as [d|].
    + destruct (DISPOSITION_DeleteFile d) eqn:Hd; cbn [orb].
      * split; [intros _|reflexivity]. right. right. right.
        split; [exact E|]. exists d. auto.
      * split; [discriminate|].
        intros [H|[H|[H|[_ [d' [Hd' Hdel]]]]]]; try lia.
        injection Hd' as <-. congruence.
    + cbn [orb]. split; [discriminate|].
      intros [H|[H|[H|[_ [d' [Hd' _]]]]]]; try lia. discriminate.
  - destruct (Z.eqb_spec (FileInformationClass Data) 64) as [E1|E1].
    + cbn [orb]. split; [intros _; auto | reflexivity].
    + destruct (Z.eqb_spec (FileInformationClass Data) 10) as [E2|E2];
        destruct (Z.eqb_spec (FileInformationClass Data) 65) as [E3|E3];
        cbn [orb]; split; auto; try discriminate;
        intros [H|[H|[H|[H _]]]]; lia.
Qed.

(** C7.  For a recognized delete or rename request, the intercept
    completes the request itself, with the status access-denied and no
    bytes transferred in its I/O status block, exactly when the resolved
    final path component of the target equals, up to case, one of the
    three protected names; in every other case (another final component,
    or no resolved name) the request passes through with its data,
    status included, unchanged. *)
Theorem C7_protected_names_denied :
  forall (NlsUpcase : WCHAR -> WCHAR) (Data : FLT_CALLBACK_DATA),
    recognized_operation Data = true ->
    (forall fc, target_final_component Data = Some fc -> well_formed fc) ->
    let protected_target :=
      exists fc name,
        target_final_component Data = Some fc
        /\ In name [L "TAD.RV.sys"; L "TAD.RV.exe"; L "TadBridgeService.exe"]
        /\ CaseInsensitiveEq NlsUpcase (chars fc) name in
    (protected_target ->
     TadPreSetInformationCallback NlsUpcase Data
     = (FLT_PREOP_COMPLETE, set_IoStatus STATUS_ACCESS_DENIED 0 Data)
     /\ fst (TadPreSetInformationCallback NlsUpcase Data) = FLT_PREOP_COMPLETE
     /\ IoStatus_Status (snd (TadPreSetInformationCallback NlsUpcase Data))
        = STATUS_ACCESS_DENIED
     /\ IoStatus_Information (snd (TadPreSetInformationCallback NlsUpcase Data)) = 0
     /\ FileInformationClass (snd (TadPreSetInformationCallback NlsUpcase Data))
        = FileInformationClass Data
     /\ InfoBuffer (snd (TadPreSetInformationCallback NlsUpcase Data))
        = InfoBuffer Data)
    /\ (~ protected_target ->
        TadPreSetInformationCallback NlsUpcase Data
        = (FLT_PREOP_SUCCESS_NO_CALLBACK, Data)
        /\ IoStatus_Status (snd (TadPreSetInformationCallback NlsUpcase Data))
           = IoStatus_Status Data
        /\ IoStatus_Information (snd (TadPreSetInformationCallback NlsUpcase Data))
           = IoStatus_Information Data)
    /\ (fst (TadPreSetInformationCallback NlsUpcase Data) = FLT_PREOP_COMPLETE
        <-> protected_target).
Proof.
  intros NlsUpcase Data Hrec Hwf protected_target.
  rewrite (TadPreSetInformationCallback_recognized NlsUpcase Data Hrec).
  assert (D : forall fc, target_final_component Data = Some fc ->
              (TadIsProtectedFilename NlsUpcase fc = true <-> protected_target)).
  { intros fc Hfc. rewrite TadIsProtectedFilename_true_iff by (apply Hwf; exact Hfc).
    subst protected_target. split.
    - intros [name [Hin Heq]]. exists fc, name. auto.
    - intros [fc' [name [Hfc' [Hin Heq]]]]. rewrite Hfc in Hfc'.
      injection Hfc' as <-. exists name. auto. }
  destruct (target_final_component Data) as [fc|] eqn:Hfc.
  - specialize (D fc eq_refl).
    destruct (TadIsProtectedFilename NlsUpcase fc).
    + assert (P : protected_target) by (apply D; reflexivity).
      split; [intros _; repeat split; reflexivity|].
      split; [intros N; contradiction|].
      split; [intros _; exact P | reflexivity].
    + assert (N : ~ protected_target) by (intros P; apply D in P; discriminate).
      split; [intros P; contradiction|].
      split; [intros _; repeat split; reflexivity|].
      split; [discriminate | intros P; contradiction].
  - assert (N : ~ protected_target).
    { subst protected_target. intros [fc [name [H _]]]. discriminate. }
    split; [intros P; contradiction|].
    split; [intros _; repeat split; reflexivity|].
    split; [discriminate | intros P; contradiction].
Qed.

(** A rename of [tad.rv.SYS], arriving with status success, is completed
    with access-denied. *)
Lemma C7_witness :
  IoStatus_Status (set_information_on FileRenameInformation None (L "tad.rv.SYS"))
  = STATUS_SUCCESS
  /\ fst (TadPreSetInformationCallback (fun c => c)
            (set_information_on FileRenameInformation None (L "tad.rv.SYS")))
     = FLT_PREOP_COMPLETE
  /\ IoStatus_Status
       (snd (TadPreSetInformationCallback (fun c => c)
               (set_information_on FileRenameInformation None (L "tad.rv.SYS"))))
     = STATUS_ACCESS_DENIED.
Proof.
  split; [reflexivity|].
  destruct (C7_protected_names_denied (fun c => c)
              (set_information_on FileRenameInformation None (L "tad.rv.SYS")))
    as (Hdeny & _).
  - reflexivity.
  - intros fc H. injection H as <-.
    split; vm_compute; [split; [discriminate | reflexivity] | reflexivity].
  - destruct Hdeny as (_ & Hfst & Hstatus & _).
    + exists (ustr (L "tad.rv.SYS")), (L "TAD.RV.sys").
      split; [reflexivity|]. split; [left; reflexivity|]. vm_compute. reflexivity.
    + split; [exact Hfst | exact Hstatus].
Defined.

(** C10.  On a target with a protected name, a request of the extended
    disposition class is completed with the status access-denied
    whatever its information buffer holds, also when its flags clear the
    delete disposition, and its outcome does not depend on the buffer; a
    request of the plain disposition class is completed with
    access-denied when its [DeleteFile] byte is set and passes through,
    its status as it came, when that byte is clear or the buffer is
    absent. *)
Theorem C10_extended_disposition_flags_ignored :
  forall (NlsUpcase : WCHAR -> WCHAR) (Data : FLT_CALLBACK_DATA) (fc : UNICODE_STRING),
    target_final_component Data = Some fc ->
    TadIsProtectedFilename NlsUpcase fc = true ->
    (FileInformationClass Data = FileDispositionInformationEx ->
     TadPreSetInformationCallback NlsUpcase Data
     = (FLT_PREOP_COMPLETE, set_IoStatus STATUS_ACCESS_DENIED 0 Data)
     /\ IoStatus_Status (snd (TadPreSetInformationCallback NlsUpcase Data))
        = STATUS_ACCESS_DENIED
     /\ forall b,
          fst (TadPreSetInformationCallback NlsUpcase (set_InfoBuffer b Data))
          = FLT_PREOP_COMPLETE
          /\ IoStatus_Status
               (snd (TadPreSetInformationCallback NlsUpcase (set_InfoBuffer b Data)))
             = STATUS_ACCESS_DENIED
          /\ IoStatus_Information
               (snd (TadPreSetInformationCallback NlsUpcase (set_InfoBuffer b Data)))
             = 0)
    /\ (FileInformationClass Data = FileDispositionInformation ->
        forall b,
          TadPreSetInformationCallback NlsUpcase (set_InfoBuffer b Data)
          = match b with
            | Some d =>
                if DISPOSITION_DeleteFile d
                then (FLT_PREOP_COMPLETE,
                      set_IoStatus STATUS_ACCESS_DENIED 0 (set_InfoBuffer b Data))
                else (FLT_PREOP_SUCCESS_NO_CALLBACK, set_InfoBuffer b Data)
            | None => (FLT_PREOP_SUCCESS_NO_CALLBACK, set_InfoBuffer b Data)
            end
          /\ IoStatus_Status
               (snd (TadPreSetInformationCallback NlsUpcase (set_InfoBuffer b Data)))
             = match b with
               | Some d =>
                   if DISPOSITION_DeleteFile d then STATUS_ACCESS_DENIED
                   else IoStatus_Status Data
               | None => IoStatus_Status Data
               end).
Proof.
  intros NlsUpcase Data fc Hfc Hprot. split.
  - intros Hcls.
    assert (R : forall b, recognized_operation (set_InfoBuffer b Data) = true).
    { intros b. unfold recognized_operation, classify_set_information.
      cbn [set_InfoBuffer FileInformationClass]. rewrite Hcls. reflexivity. }
    assert (E : TadPreSetInformationCallback NlsUpcase Data
                = (FLT_PREOP_COMPLETE, set_IoStatus STATUS_ACCESS_DENIED 0 Data)).
    { rewrite TadPreSetInformationCallback_recognized.
      - rewrite Hfc, Hprot. reflexivity.
      - specialize (R (InfoBuffer Data)). destruct Data. exact R. }
    split; [exact E|]. split; [rewrite E; reflexivity|].
    intros b. rewrite TadPreSetInformationCallback_recognized by apply R.
    unfold target_final_component in *. cbn [set_InfoBuffer FltGetFileNameInformation].
    rewrite Hfc, Hprot. repeat split; reflexivity.
  - intros Hcls b.
    assert (T : target_final_component (set_InfoBuffer b Data) = Some fc) by exact Hfc.
    assert (C : classify_set_information (set_InfoBuffer b Data)
                = match b with
                  | Some d => Some (DISPOSITION_DeleteFile d, false)
                  | None => Some (false, false)
                  end).
    { unfold classify_set_information. cbn [set_InfoBuffer FileInformationClass InfoBuffer].
      rewrite Hcls. cbn. destruct b as [d|]; [destruct (DISPOSITION_DeleteFile d)|];
        reflexivity. }
    destruct b as [d|].
    + destruct (DISPOSITION_DeleteFile d) eqn:Hd.
      * rewrite TadPreSetInformationCallback_recognized
          by (unfold recognized_operation; rewrite C; reflexivity).
        rewrite T, Hprot. split; reflexivity.
      * rewrite TadPreSetInformationCallback_not_recognized
          by (unfold recognized_operation; rewrite C; reflexivity).
        split; reflexivity.
    + rewrite TadPreSetInformationCallback_not_recognized
        by (unfold recognized_operation; rewrite C; reflexivity).
      split; reflexivity.
Qed.

(** On [TAD.RV.exe], both requests arriving with status success: the
    extended class with flags [FILE_DISPOSITION_DO_NOT_DELETE] is
    completed with access-denied; the plain class with
    [DeleteFile = FALSE] passes with its status as it came. *)
Lemma C10_witness :
  (fst (TadPreSetInformationCallback (fun c => c)
          (set_information_on FileDispositionInformationEx
             (Some (bytes_of_ULONG FILE_DISPOSITION_DO_NOT_DELETE)) (L "TAD.RV.exe")))
   = FLT_PREOP_COMPLETE
   /\ IoStatus_Status
        (snd (TadPreSetInformationCallback (fun c => c)
                (set_information_on FileDispositionInformationEx
                   (Some (bytes_of_ULONG FILE_DISPOSITION_DO_NOT_DELETE))
                   (L "TAD.RV.exe"))))
      = STATUS_ACCESS_DENIED)
  /\ (fst (TadPreSetInformationCallback (fun c => c)
             (set_information_on FileDispositionInformation
                (Some [x00]) (L "TAD.RV.exe")))
      = FLT_PREOP_SUCCESS_NO_CALLBACK
      /\ IoStatus_Status
           (snd (TadPreSetInformationCallback (fun c => c)
                   (set_information_on FileDispositionInformation
                      (Some [x00]) (L "TAD.RV.exe"))))
         = STATUS_SUCCESS).
Proof.
  split.
  - pose proof (C10_extended_disposition_flags_ignored (fun c => c)
      (set_information_on FileDispositionInformationEx None (L "TAD.RV.exe"))
      (ustr (L "TAD.RV.exe")) eq_refl ltac:(vm_compute; reflexivity)) as [H _].
    destruct (H eq_refl) as (_ & _ & H2).
    destruct (H2 (Some (bytes_of_ULONG FILE_DISPOSITION_DO_NOT_DELETE)))
      as (F & S & _).
    split; [exact F | exact S].
  - pose proof (C10_extended_disposition_flags_ignored (fun c => c)
      (set_information_on FileDispositionInformation None (L "TAD.RV.exe"))
      (ustr (L "TAD.RV.exe")) eq_refl ltac:(vm_compute; reflexivity)) as [_ H].
    destruct (H eq_refl (Some [x00])) as [E S].
    split; [exact (f_equal fst E) | exact S].
Defined.

(** ** Command bridge *)

Ltac pick_ioctl H :=
  unfold TadDispatchDeviceControl; rewrite H; reflexivity.

Lemma dispatch_ProtectPid k irp g :
  IoControlCode irp = IOCTL_TAD_PROTECT_PID ->
  TadDispatchDeviceControl k irp g = Ioctl_ProtectPid k irp g.
Proof. intros H. pick_ioctl H. Qed.

Lemma dispatch_Unlock k irp g :
  IoControlCode irp = IOCTL_TAD_UNLOCK ->
  TadDispatchDeviceControl k irp g = Ioctl_Unlock k irp g.
Proof. intros H. pick_ioctl H. Qed.

Lemma dispatch_Heartbeat k irp g :
  IoControlCode irp = IOCTL_TAD_HEARTBEAT ->
  TadDispatchDeviceControl k irp g = Ioctl_Heartbeat k irp g.
Proof. intros H. pick_ioctl H. Qed.

Lemma dispatch_SetUserRole k irp g :
  IoControlCode irp = IOCTL_TAD_SET_USER_ROLE ->
  TadDispatchDeviceControl k irp g = Ioctl_SetUserRole k irp g.
Proof. intros H. pick_ioctl H. Qed.

Lemma dispatch_SetPolicy k irp g :
  IoControlCode irp = IOCTL_TAD_SET_POLICY ->
  TadDispatchDeviceControl k irp g = Ioctl_SetPolicy k irp g.
Proof. intros H. pick_ioctl H. Qed.

Lemma dispatch_ReadAlert k irp g :
  IoControlCode irp = IOCTL_TAD_READ_ALERT ->
  TadDispatchDeviceControl k irp g = Ioctl_ReadAlert k irp g.
Proof. intros H. pick_ioctl H. Qed.

Lemma dispatch_HardLock k irp g :
  IoControlCode irp = IOCTL_TAD_HARD_LOCK ->
  TadDispatchDeviceControl k irp g = Ioctl_HardLock k irp g.
Proof. intros H. pick_ioctl H. Qed.

Lemma dispatch_ProtectUi k irp g :
  IoControlCode irp = IOCTL_TAD_PROTECT_UI ->
  TadDispatchDeviceControl k irp g = Ioctl_ProtectUi k irp g.
Proof. intros H. pick_ioctl H. Qed.

Lemma dispatch_Stealth k irp g :
  IoControlCode irp = IOCTL_TAD_STEALTH ->
  TadDispatchDeviceControl k irp g = Ioctl_Stealth k irp g.
Proof. intros H. pick_ioctl H. Qed.

Lemma dispatch_SetBannedApps k irp g :
  IoControlCode irp = IOCTL_TAD_SET_BANNED_APPS ->
  TadDispatchDeviceControl k irp g = Ioctl_SetBannedApps k irp g.
Proof. intros H. pick_ioctl H. Qed.

(** The dispatch routine is one of the ten handlers or the default arm. *)
Lemma dispatch_cases k irp g :
  TadDispatchDeviceControl k irp g = Ioctl_ProtectPid k irp g
  \/ TadDispatchDeviceControl k irp g = Ioctl_Unlock k irp g
  \/ TadDispatchDeviceControl k irp g = Ioctl_Heartbeat k irp g
  \/ TadDispatchDeviceControl k irp g = Ioctl_SetUserRole k irp g
  \/ TadDispatchDeviceControl k irp g = Ioctl_SetPolicy k irp g
  \/ TadDispatchDeviceControl k irp g = Ioctl_ReadAlert k irp g
  \/ TadDispatchDeviceControl k irp g = Ioctl_HardLock k irp g
  \/ TadDispatchDeviceControl k irp g = Ioctl_ProtectUi k irp g
  \/ TadDispatchDeviceControl k irp g = Ioctl_Stealth k irp g
  \/ TadDispatchDeviceControl k irp g = Ioctl_SetBannedApps k irp g
  \/ TadDispatchDeviceControl k irp g = complete STATUS_INVALID_DEVICE_REQUEST g.
Proof.
  unfold TadDispatchDeviceControl.
  repeat match goal with
         | |- context [if ?c then _ else _] =>
             lazymatch c with
             | IoControlCode irp =? _ => destruct c; [tauto|]
             end
         end.
  tauto.
Qed.

Lemma caller_is_agent_iff k g :
  TadIsCallerProtectedAgent k g = true
  <-> AgentProcess g <> 0 /\ PsGetCurrentProcess k = AgentProcess g.
Proof.
  unfold TadIsCallerProtectedAgent.
  rewrite andb_true_iff, negb_true_iff, Z.eqb_neq, Z.eqb_eq. reflexivity.
Qed.

Lemma caller_is_agent_bootstrap k g :
  AgentProcess g = 0 -> TadIsCallerProtectedAgent k g = false.
Proof.
  intros H. unfold TadIsCallerProtectedAgent. rewrite H. reflexivity.
Qed.

(** The guard of the opcodes that skip the check while no agent is
    registered. *)
Lemma bootstrap_guard k g :
  negb (AgentProcess g =? 0) && negb (TadIsCallerProtectedAgent k g) = false
  <-> caller_admitted k g.
Proof.
  unfold caller_admitted, TadIsCallerProtectedAgent.
  destruct (Z.eqb_spec (AgentProcess g) 0) as [E|E]; cbn [negb andb].
  - tauto.
  - destruct (Z.eqb_spec (PsGetCurrentProcess k) (AgentProcess g)); cbn [negb];
      split; intros H; try reflexivity; try discriminate; tauto.
Qed.

Ltac branch :=
  match goal with
  | |- context [if ?c then _ else _] => destruct c eqn:?
  | |- context [match SystemBuffer ?i with _ => _ end] => destruct (SystemBuffer i) eqn:?
  | |- context [match PsLookupProcessByProcessId ?k ?p with _ => _ end] =>
      destruct (PsLookupProcessByProcessId k p) eqn:?
  end.

Ltac validation_unchanged :=
  cbv zeta; unfold complete; repeat branch;
  intros H V; inversion H; subst; try reflexivity;
  exfalso; destruct V as [V|[V|V]]; discriminate V.

(** A request completed with a validation status has not written to the
    globals. *)
Lemma validation_rejection_keeps_globals k irp g s n out g' :
  TadDispatchDeviceControl k irp g = Completed s n out g' ->
  validation_status s ->
  g' = g.
Proof.
  destruct (dispatch_cases k irp g)
    as [E|[E|[E|[E|[E|[E|[E|[E|[E|[E|E]]]]]]]]]]; rewrite E; clear E.
  - unfold Ioctl_ProtectPid. validation_unchanged.
  - unfold Ioctl_Unlock. validation_unchanged.
  - unfold Ioctl_Heartbeat. validation_unchanged.
  - unfold Ioctl_SetUserRole. validation_unchanged.
  - unfold Ioctl_SetPolicy. validation_unchanged.
  - unfold Ioctl_ReadAlert. validation_unchanged.
  - unfold Ioctl_HardLock. validation_unchanged.
  - unfold Ioctl_ProtectUi. validation_unchanged.
  - unfold Ioctl_Stealth. validation_unchanged.
  - unfold Ioctl_SetBannedApps. validation_unchanged.
  - validation_unchanged.
Qed.

Ltac rejected := eexists; split; [reflexivity | auto].

Lemma malformed_never_accepted k irp g p :
  SystemBuffer irp = Some p ->
  malformed_request irp p ->
  exists s, TadDispatchDeviceControl k irp g = complete s g /\ rejection_status s.
Proof.
  unfold rejection_status.
  intros Hbuf [[Hc Hbad]|[[Hc Hbad]|[Hc Hbad]]].
  - rewrite dispatch_ProtectPid by exact Hc. unfold Ioctl_ProtectPid. rewrite Hbuf.
    destruct (InputBufferLength irp <? sizeof_TAD_PROTECT_PID_INPUT); [rejected|].
    destruct (Z.eqb_spec (PROTECT_PID_TargetPid p) 0); [cbn [orb]; rejected|].
    destruct (Z.eqb_spec (PROTECT_PID_Flags p) 0); [exfalso; tauto|].
    cbn [negb orb]. rejected.
  - rewrite dispatch_SetPolicy by exact Hc. unfold Ioctl_SetPolicy. rewrite Hbuf, Hbad.
    destruct (InputBufferLength irp <? sizeof_TAD_POLICY_BUFFER); [rejected|].
    destruct (negb (AgentProcess g =? 0) && negb (TadIsCallerProtectedAgent k g));
      cbn [Z.eqb negb]; rejected.
  - rewrite dispatch_SetBannedApps by exact Hc. unfold Ioctl_SetBannedApps.
    rewrite Hbuf, Hbad.
    destruct (InputBufferLength irp <? sizeof_TAD_BANNED_APPS_INPUT); [rejected|].
    destruct (TadIsCallerProtectedAgent k g); cbn [negb]; rejected.
Qed.

Lemma malformed_invalid_parameter k irp g p :
  SystemBuffer irp = Some p ->
  malformed_request irp p ->
  reaches_validation k irp g ->
  TadDispatchDeviceControl k irp g = complete STATUS_INVALID_PARAMETER g.
Proof.
  intros Hbuf Hbad (Hlen & Hpol & Hban).
  destruct Hbad as [[Hc Hbad]|[[Hc Hbad]|[Hc Hbad]]]; rewrite Hc in Hlen.
  - rewrite dispatch_ProtectPid by exact Hc.
    change (required_input_length _) with sizeof_TAD_PROTECT_PID_INPUT in Hlen.
    unfold Ioctl_ProtectPid. rewrite Hbuf.
    destruct (Z.ltb_spec (InputBufferLength irp) sizeof_TAD_PROTECT_PID_INPUT); [lia|].
    destruct (Z.eqb_spec (PROTECT_PID_TargetPid p) 0); [reflexivity|].
    destruct (Z.eqb_spec (PROTECT_PID_Flags p) 0); [|reflexivity].
    exfalso. tauto.
  - rewrite dispatch_SetPolicy by exact Hc.
    change (required_input_length _) with sizeof_TAD_POLICY_BUFFER in Hlen.
    unfold Ioctl_SetPolicy. rewrite Hbuf.
    destruct (Z.ltb_spec (InputBufferLength irp) sizeof_TAD_POLICY_BUFFER); [lia|].
    specialize (Hpol Hc). apply bootstrap_guard in Hpol. rewrite Hpol, Hbad.
    reflexivity.
  - rewrite dispatch_SetBannedApps by exact Hc.
    change (required_input_length _) with sizeof_TAD_BANNED_APPS_INPUT in Hlen.
    unfold Ioctl_SetBannedApps. rewrite Hbuf, (Hban Hc), Hbad.
    destruct (Z.ltb_spec (InputBufferLength irp) sizeof_TAD_BANNED_APPS_INPUT); [lia|].
    reflexivity.
Qed.

(** C9.  A ProtectPid request with [TargetPid = 0] or with non-zero
    [Flags], a SetPolicy request with [Version = 2] and a SetBannedApps
    request with [Count = 33] are never accepted and leave the globals
    as they were; each is completed with [STATUS_INVALID_PARAMETER] when
    it passes the checks that come before the validation of its fields
    (sufficient size, and for SetPolicy and SetBannedApps the identity
    check).  Whatever the request, completion with a validation status
    leaves the globals as they were. *)
Theorem C9_validation_rejections :
  forall (k : KERNEL) (irp : IRP) (g : TAD_DRIVER_GLOBALS),
    (forall p,
        SystemBuffer irp = Some p ->
        malformed_request irp p ->
        (exists s,
            TadDispatchDeviceControl k irp g = complete s g /\ rejection_status s)
        /\ (reaches_validation k irp g ->
            TadDispatchDeviceControl k irp g = complete STATUS_INVALID_PARAMETER g))
    /\ (forall s n out g',
          TadDispatchDeviceControl k irp g = Completed s n out g' ->
          validation_status s -> g' = g).
Proof.
  intros k irp g. split.
  - intros p Hbuf Hbad. split.
    + exact (malformed_never_accepted k irp g p Hbuf Hbad).
    + exact (malformed_invalid_parameter k irp g p Hbuf Hbad).
  - intros s n out g'. apply validation_rejection_keeps_globals.
Qed.

(** ProtectPid(0), ProtectPid with [Flags = 1], SetPolicy with
    [Version = 2] and SetBannedApps with [Count = 33], issued by the
    registered agent. *)
Lemma C9_witness :
  TadDispatchDeviceControl (kernel_of 5321 4321 0)
    (request IOCTL_TAD_PROTECT_PID (mk_PROTECT_PID_INPUT 0 0)) agent_registered
  = complete STATUS_INVALID_PARAMETER agent_registered
  /\ TadDispatchDeviceControl (kernel_of 5321 4321 0)
       (request IOCTL_TAD_PROTECT_PID (mk_PROTECT_PID_INPUT 4321 1)) agent_registered
     = complete STATUS_INVALID_PARAMETER agent_registered
  /\ TadDispatchDeviceControl (kernel_of 5321 4321 0)
       (request IOCTL_TAD_SET_POLICY (mk_POLICY_BUFFER 2 0)) agent_registered
     = complete STATUS_INVALID_PARAMETER agent_registered
  /\ TadDispatchDeviceControl (kernel_of 5321 4321 0)
       (request IOCTL_TAD_SET_BANNED_APPS (mk_BANNED_APPS_INPUT 33 []))
       agent_registered
     = complete STATUS_INVALID_PARAMETER agent_registered.
Proof.
  assert (A : TadIsCallerProtectedAgent (kernel_of 5321 4321 0) agent_registered = true)
    by (vm_compute; reflexivity).
  assert (C : caller_admitted (kernel_of 5321 4321 0) agent_registered)
    by (right; vm_compute; reflexivity).
  split; [|split; [|split]].
  - refine (proj2 (proj1 (C9_validation_rejections (kernel_of 5321 4321 0)
              (request IOCTL_TAD_PROTECT_PID (mk_PROTECT_PID_INPUT 0 0))
              agent_registered) (mk_PROTECT_PID_INPUT 0 0) eq_refl _) _).
    + left. split; [reflexivity|]. left. vm_compute. reflexivity.
    + split; [vm_compute; discriminate|]. split; intros E; vm_compute in E; discriminate E.
  - refine (proj2 (proj1 (C9_validation_rejections (kernel_of 5321 4321 0)
              (request IOCTL_TAD_PROTECT_PID (mk_PROTECT_PID_INPUT 4321 1))
              agent_registered) (mk_PROTECT_PID_INPUT 4321 1) eq_refl _) _).
    + left. split; [reflexivity|]. right. vm_compute. discriminate.
    + split; [vm_compute; discriminate|]. split; intros E; vm_compute in E; discriminate E.
  - refine (proj2 (proj1 (C9_validation_rejections (kernel_of 5321 4321 0)
              (request IOCTL_TAD_SET_POLICY (mk_POLICY_BUFFER 2 0))
              agent_registered) (mk_POLICY_BUFFER 2 0) eq_refl _) _).
    + right. left. split; [reflexivity | vm_compute; reflexivity].
    + split; [vm_compute; discriminate|]. split; [intros _; exact C | intros _; exact A].
  - refine (proj2 (proj1 (C9_validation_rejections (kernel_of 5321 4321 0)
              (request IOCTL_TAD_SET_BANNED_APPS (mk_BANNED_APPS_INPUT 33 []))
              agent_registered) (mk_BANNED_APPS_INPUT 33 []) eq_refl _) _).
    + right. right. split; [reflexivity | vm_compute; reflexivity].
    + split; [vm_compute; discriminate|]. split; [intros _; exact C | intros _; exact A].
Defined.

(** ** Unlock and its lockout *)

Lemma Unlock_locked_out k irp g verifies :
  unlock_request irp verifies ->
  caller_admitted k g ->
  TAD_MAX_UNLOCK_ATTEMPTS <= FailedUnlockAttempts g ->
  KeQuerySystemTime k 0 < LockoutUntil g ->
  TadDispatchDeviceControl k irp g = complete STATUS_ACCESS_DENIED g.
Proof.
  intros (Hc & Hlen & p & Hbuf & _) Hadm Hfail Hnow.
  rewrite dispatch_Unlock by exact Hc. unfold Ioctl_Unlock.
  rewrite Hbuf. apply bootstrap_guard in Hadm. rewrite Hadm.
  destruct (Z.ltb_spec (InputBufferLength irp) sizeof_TAD_UNLOCK_INPUT); [lia|].
  cbv zeta.
  destruct (Z.leb_spec TAD_MAX_UNLOCK_ATTEMPTS (FailedUnlockAttempts g)); [|lia].
  destruct (Z.ltb_spec (KeQuerySystemTime k 0) (LockoutUntil g)); [|lia].
  reflexivity.
Qed.

Lemma Unlock_accepted k irp g :
  unlock_request irp true ->
  caller_admitted k g ->
  FailedUnlockAttempts g < TAD_MAX_UNLOCK_ATTEMPTS
  \/ LockoutUntil g <= KeQuerySystemTime k 0 ->
  exists g',
    TadDispatchDeviceControl k irp g = complete STATUS_SUCCESS g'
    /\ AllowUnload g' = 1 /\ FailedUnlockAttempts g' = 0
    /\ AgentProcess g' = AgentProcess g.
Proof.
  intros (Hc & Hlen & p & Hbuf & Hkey) Hadm Hopen.
  rewrite dispatch_Unlock by exact Hc. unfold Ioctl_Unlock.
  rewrite Hbuf. apply bootstrap_guard in Hadm. rewrite Hadm.
  destruct (Z.ltb_spec (InputBufferLength irp) sizeof_TAD_UNLOCK_INPUT); [lia|].
  cbv zeta. rewrite Hkey.
  destruct (Z.leb_spec TAD_MAX_UNLOCK_ATTEMPTS (FailedUnlockAttempts g));
    destruct (Z.ltb_spec (KeQuerySystemTime k 0) (LockoutUntil g));
    cbn [andb]; try (exfalso; lia);
    eexists; repeat split; reflexivity.
Qed.

Lemma Unlock_rejected k irp g n :
  unlock_request irp false ->
  caller_admitted k g ->
  FailedUnlockAttempts g = n -> 0 <= n < TAD_MAX_UNLOCK_ATTEMPTS ->
  TadDispatchDeviceControl k irp g
  = complete STATUS_ACCESS_DENIED
      (if TAD_MAX_UNLOCK_ATTEMPTS <=? n + 1
       then set_LockoutUntil
              (to_LONGLONG (KeQuerySystemTime k 1 + 300000000))
              (set_FailedUnlockAttempts (n + 1) g)
       else set_FailedUnlockAttempts (n + 1) g).
Proof.
  intros (Hc & Hlen & p & Hbuf & Hkey) Hadm Hn Hrange.
  rewrite dispatch_Unlock by exact Hc. unfold Ioctl_Unlock.
  rewrite Hbuf. apply bootstrap_guard in Hadm. rewrite Hadm.
  destruct (Z.ltb_spec (InputBufferLength irp) sizeof_TAD_UNLOCK_INPUT); [lia|].
  cbv zeta. rewrite Hkey.
  unfold TAD_MAX_UNLOCK_ATTEMPTS in *.
  destruct (Z.leb_spec 5 (FailedUnlockAttempts g)); [lia|]. cbn [andb].
  rewrite Hn.
  replace (to_LONG (n + 1)) with (n + 1)
    by (unfold to_LONG; rewrite Z.mod_small; lia).
  reflexivity.
Qed.

(** C4.  From [FailedUnlockAttempts = 0], five consecutive Unlock
    requests with a wrong secret leave the counter at 5 and the lockout
    deadline 30 seconds after the time read while handling the fifth.
    From then on, an Unlock request arriving before the deadline is
    completed with access-denied and the globals as they were, whether
    or not its secret verifies; an Unlock request with the right secret
    arriving at or after the deadline succeeds, sets [AllowUnload] and
    resets the counter to 0. *)
Theorem C4_lockout_after_five_failures :
  forall (g0 : TAD_DRIVER_GLOBALS) (reqs : list (KERNEL * IRP)),
    FailedUnlockAttempts g0 = 0 ->
    length reqs = 5%nat ->
    Forall (fun r => unlock_request (snd r) false /\ caller_admitted (fst r) g0) reqs ->
    exists g5,
      run_requests reqs g0 = Some g5
      /\ FailedUnlockAttempts g5 = 5
      /\ AllowUnload g5 = AllowUnload g0
      /\ (forall k5 irp5, nth_error reqs 4 = Some (k5, irp5) ->
            LockoutUntil g5 = to_LONGLONG (KeQuerySystemTime k5 1 + 30 * 10000000))
      /\ (forall k irp verifies,
            unlock_request irp verifies -> caller_admitted k g0 ->
            KeQuerySystemTime k 0 < LockoutUntil g5 ->
            TadDispatchDeviceControl k irp g5 = complete STATUS_ACCESS_DENIED g5)
      /\ (forall k irp,
            unlock_request irp true -> caller_admitted k g0 ->
            LockoutUntil g5 <= KeQuerySystemTime k 0 ->
            exists g6,
              TadDispatchDeviceControl k irp g5 = complete STATUS_SUCCESS g6
              /\ AllowUnload g6 = 1 /\ FailedUnlockAttempts g6 = 0).
Proof.
  intros g0 reqs H0 Hlen Hall.
  destruct reqs as [|[k1 i1] [|[k2 i2] [|[k3 i3] [|[k4 i4] [|[k5 i5] [|]]]]]];
    try discriminate Hlen. clear Hlen.
  repeat match goal with
         | H : Forall _ (_ :: _) |- _ => inversion H; subst; clear H
         end.
  repeat match goal with
         | H : _ /\ _ |- _ => destruct H
         end.
  cbn [fst snd] in *.
  unfold run_requests.
  rewrite (Unlock_rejected k1 i1 g0 0) by (auto; unfold TAD_MAX_UNLOCK_ATTEMPTS; lia).
  cbn [Z.leb Z.add Z.compare Pos.compare Pos.compare_cont Pos.add]. unfold complete at 1.
  rewrite (Unlock_rejected k2 i2 _ 1) by (auto; unfold TAD_MAX_UNLOCK_ATTEMPTS; lia).
  unfold complete at 1. cbn -[set_FailedUnlockAttempts set_LockoutUntil to_LONGLONG].
  rewrite (Unlock_rejected k3 i3 _ 2) by (auto; unfold TAD_MAX_UNLOCK_ATTEMPTS; lia).
  unfold complete at 1. cbn -[set_FailedUnlockAttempts set_LockoutUntil to_LONGLONG].
  rewrite (Unlock_rejected k4 i4 _ 3) by (auto; unfold TAD_MAX_UNLOCK_ATTEMPTS; lia).
  unfold complete at 1. cbn -[set_FailedUnlockAttempts set_LockoutUntil to_LONGLONG].
  rewrite (Unlock_rejected k5 i5 _ 4) by (auto; unfold TAD_MAX_UNLOCK_ATTEMPTS; lia).
  unfold complete at 1. cbn -[set_FailedUnlockAttempts set_LockoutUntil to_LONGLONG].
  eexists. split; [reflexivity|].
  split; [reflexivity|]. split; [reflexivity|]. split; [|split].
  - intros k5' irp5 E. cbn in E. injection E as <- <-. reflexivity.
  - intros k irp verifies Hreq Hadm Hnow.
    apply (Unlock_locked_out k irp _ verifies); auto.
    cbn. unfold TAD_MAX_UNLOCK_ATTEMPTS. lia.
  - intros k irp Hreq Hadm Hnow.
    destruct (Unlock_accepted k irp
                (set_LockoutUntil (to_LONGLONG (KeQuerySystemTime k5 1 + 300000000))
                   (set_FailedUnlockAttempts 5
                      (set_FailedUnlockAttempts 4
                         (set_FailedUnlockAttempts 3
                            (set_FailedUnlockAttempts 2
                               (set_FailedUnlockAttempts 1 g0)))))))
      as (g6 & E & A & F & _); auto.
    exists g6. auto.
Qed.

(** Five all-zero secrets at time 100 on a freshly loaded driver; the
    deadline is then [100 + 300000000]. *)
Lemma C4_witness :
  let g0 := DriverEntry 1 1 in
  let reqs := repeat (kernel_of 5000 77 100,
                      request IOCTL_TAD_UNLOCK (repeat x00 32)) 5 in
  exists g5,
    run_requests reqs g0 = Some g5
    /\ FailedUnlockAttempts g5 = 5
    /\ AllowUnload g5 = AllowUnload g0
    /\ (forall k5 irp5, nth_error reqs 4 = Some (k5, irp5) ->
          LockoutUntil g5 = to_LONGLONG (KeQuerySystemTime k5 1 + 30 * 10000000))
    /\ (forall k irp verifies,
          unlock_request irp verifies -> caller_admitted k g0 ->
          KeQuerySystemTime k 0 < LockoutUntil g5 ->
          TadDispatchDeviceControl k irp g5 = complete STATUS_ACCESS_DENIED g5)
    /\ (forall k irp,
          unlock_request irp true -> caller_admitted k g0 ->
          LockoutUntil g5 <= KeQuerySystemTime k 0 ->
          exists g6,
            TadDispatchDeviceControl k irp g5 = complete STATUS_SUCCESS g6
            /\ AllowUnload g6 = 1 /\ FailedUnlockAttempts g6 = 0).
Proof.
  intros g0 reqs.
  apply (C4_lockout_after_five_failures g0 reqs).
  - reflexivity.
  - reflexivity.
  - assert (R : unlock_request (request IOCTL_TAD_UNLOCK (repeat x00 32)) false).
    { split; [reflexivity|]. split; [vm_compute; discriminate|].
      exists (repeat x00 32). split; [reflexivity | vm_compute; reflexivity]. }
    assert (A : caller_admitted (kernel_of 5000 77 100) g0) by (left; reflexivity).
    repeat (apply Forall_cons; [split; [exact R | exact A]|]). apply Forall_nil.
Defined.

(** ** Caller identity *)

Lemma bootstrap_caller_irrelevant k irp g proc :
  In (IoControlCode irp) bootstrap_opcodes ->
  AgentProcess g = 0 ->
  TadDispatchDeviceControl (with_caller proc k) irp g
  = TadDispatchDeviceControl k irp g.
Proof.
  intros Hin H0. unfold bootstrap_opcodes in Hin.
  destruct Hin as [E|[E|[E|[]]]]; symmetry in E.
  - rewrite !dispatch_Unlock by exact E. unfold Ioctl_Unlock.
    rewrite H0. reflexivity.
  - rewrite !dispatch_SetUserRole by exact E. unfold Ioctl_SetUserRole.
    rewrite H0. reflexivity.
  - rewrite !dispatch_SetPolicy by exact E. unfold Ioctl_SetPolicy.
    rewrite H0. reflexivity.
Qed.

Lemma bootstrap_not_denied k irp g :
  IoControlCode irp = IOCTL_TAD_SET_USER_ROLE \/ IoControlCode irp = IOCTL_TAD_SET_POLICY ->
  AgentProcess g = 0 ->
  status_of (TadDispatchDeviceControl k irp g) <> Some STATUS_ACCESS_DENIED.
Proof.
  intros [E|E] H0.
  - rewrite dispatch_SetUserRole by exact E. unfold Ioctl_SetUserRole.
    rewrite H0. cbn [Z.eqb negb andb]. repeat branch; discriminate.
  - rewrite dispatch_SetPolicy by exact E. unfold Ioctl_SetPolicy.
    rewrite H0. cbn [Z.eqb negb andb]. repeat branch; discriminate.
Qed.

Lemma agent_only_denied_at_bootstrap k irp g :
  In (IoControlCode irp) agent_only_opcodes ->
  required_input_length (IoControlCode irp) <= InputBufferLength irp ->
  AgentProcess g = 0 ->
  TadDispatchDeviceControl k irp g = complete STATUS_ACCESS_DENIED g.
Proof.
  intros Hin Hlen H0. unfold agent_only_opcodes in Hin.
  pose proof (caller_is_agent_bootstrap k g H0) as Hc.
  destruct Hin as [E|[E|[E|[E|[]]]]]; symmetry in E; rewrite E in Hlen.
  - rewrite dispatch_HardLock by exact E. unfold Ioctl_HardLock. rewrite Hc.
    change (required_input_length _) with sizeof_TAD_HARD_LOCK_INPUT in Hlen.
    destruct (Z.ltb_spec (InputBufferLength irp) sizeof_TAD_HARD_LOCK_INPUT);
      [lia | reflexivity].
  - rewrite dispatch_ProtectUi by exact E. unfold Ioctl_ProtectUi. rewrite Hc.
    change (required_input_length _) with sizeof_TAD_PROTECT_UI_INPUT in Hlen.
    destruct (Z.ltb_spec (InputBufferLength irp) sizeof_TAD_PROTECT_UI_INPUT);
      [lia | reflexivity].
  - rewrite dispatch_Stealth by exact E. unfold Ioctl_Stealth. rewrite Hc.
    change (required_input_length _) with sizeof_TAD_STEALTH_INPUT in Hlen.
    destruct (Z.ltb_spec (InputBufferLength irp) sizeof_TAD_STEALTH_INPUT);
      [lia | reflexivity].
  - rewrite dispatch_SetBannedApps by exact E. unfold Ioctl_SetBannedApps. rewrite Hc.
    change (required_input_length _) with sizeof_TAD_BANNED_APPS_INPUT in Hlen.
    destruct (Z.ltb_spec (InputBufferLength irp) sizeof_TAD_BANNED_APPS_INPUT);
      [lia | reflexivity].
Qed.

Ltac success_needs_agent k g Hreg :=
  cbv zeta; unfold complete;
  destruct (Z.eqb_spec (PsGetCurrentProcess k) (AgentProcess g)) as [Heq|Hne];
  [ intros _; exact Heq | ];
  unfold TadIsCallerProtectedAgent;
  rewrite (proj2 (Z.eqb_neq _ _) Hreg), (proj2 (Z.eqb_neq _ _) Hne);
  cbn [negb andb]; repeat branch; cbn [status_of]; intros S; discriminate S.

Lemma registered_success_needs_agent k irp g :
  In (IoControlCode irp) (bootstrap_opcodes ++ agent_only_opcodes) ->
  AgentProcess g <> 0 ->
  status_of (TadDispatchDeviceControl k irp g) = Some STATUS_SUCCESS ->
  PsGetCurrentProcess k = AgentProcess g.
Proof.
  intros Hin Hreg. cbn [app bootstrap_opcodes agent_only_opcodes] in Hin.
  destruct Hin as [E|[E|[E|[E|[E|[E|[E|[]]]]]]]]; symmetry in E.
  - rewrite dispatch_Unlock by exact E. unfold Ioctl_Unlock.
    success_needs_agent k g Hreg.
  - rewrite dispatch_SetUserRole by exact E. unfold Ioctl_SetUserRole.
    success_needs_agent k g Hreg.
  - rewrite dispatch_SetPolicy by exact E. unfold Ioctl_SetPolicy.
    success_needs_agent k g Hreg.
  - rewrite dispatch_HardLock by exact E. unfold Ioctl_HardLock.
    success_needs_agent k g Hreg.
  - rewrite dispatch_ProtectUi by exact E. unfold Ioctl_ProtectUi.
    success_needs_agent k g Hreg.
  - rewrite dispatch_Stealth by exact E. unfold Ioctl_Stealth.
    success_needs_agent k g Hreg.
  - rewrite dispatch_SetBannedApps by exact E. unfold Ioctl_SetBannedApps.
    success_needs_agent k g Hreg.
Qed.

(** C1 (as amended).  While no agent is registered, the outcome of
    Unlock, SetUserRole and SetPolicy does not depend on who the caller
    is: SetUserRole and SetPolicy are never completed with access-denied
    and an Unlock with the right secret outside a lockout succeeds;
    HardLock, ProtectUi, Stealth and SetBannedApps requests of sufficient
    size are completed with access-denied and the globals as they were.
    Once an agent is registered, each of the seven succeeds only when
    the current process is the registered agent process. *)
Theorem C1_caller_identity_check :
  forall (k : KERNEL) (irp : IRP) (g : TAD_DRIVER_GLOBALS),
    (AgentProcess g = 0 ->
     (In (IoControlCode irp) bootstrap_opcodes ->
      forall proc,
        TadDispatchDeviceControl (with_caller proc k) irp g
        = TadDispatchDeviceControl k irp g)
     /\ (IoControlCode irp = IOCTL_TAD_SET_USER_ROLE
         \/ IoControlCode irp = IOCTL_TAD_SET_POLICY ->
         status_of (TadDispatchDeviceControl k irp g) <> Some STATUS_ACCESS_DENIED)
     /\ (unlock_request irp true ->
         FailedUnlockAttempts g < TAD_MAX_UNLOCK_ATTEMPTS
         \/ LockoutUntil g <= KeQuerySystemTime k 0 ->
         status_of (TadDispatchDeviceControl k irp g) = Some STATUS_SUCCESS)
     /\ (In (IoControlCode irp) agent_only_opcodes ->
         required_input_length (IoControlCode irp) <= InputBufferLength irp ->
         TadDispatchDeviceControl k irp g = complete STATUS_ACCESS_DENIED g))
    /\ (AgentProcess g <> 0 ->
        In (IoControlCode irp) (bootstrap_opcodes ++ agent_only_opcodes) ->
        status_of (TadDispatchDeviceControl k irp g) = Some STATUS_SUCCESS ->
        PsGetCurrentProcess k = AgentProcess g).
Proof.
  intros k irp g. split.
  - intros H0. split; [|split; [|split]].
    + intros Hin proc. apply bootstrap_caller_irrelevant; assumption.
    + intros Hc. apply bootstrap_not_denied; assumption.
    + intros Hreq Hopen.
      destruct (Unlock_accepted k irp g Hreq (or_introl H0) Hopen) as (g' & E & _).
      rewrite E. reflexivity.
    + intros Hin Hlen. apply agent_only_denied_at_bootstrap; assumption.
  - intros Hreg Hin. apply registered_success_needs_agent; assumption.
Qed.

(** On a freshly loaded driver a SetBannedApps request of full size is
    denied; once process object 5321 is registered, a HardLock request
    that succeeds comes from process object 5321. *)
Lemma C1_witness :
  TadDispatchDeviceControl (kernel_of 5000 77 0)
    (request IOCTL_TAD_SET_BANNED_APPS (mk_BANNED_APPS_INPUT 0 []))
    (DriverEntry 1 1)
  = complete STATUS_ACCESS_DENIED (DriverEntry 1 1)
  /\ PsGetCurrentProcess (kernel_of 5321 4321 0) = AgentProcess agent_registered.
Proof.
  split.
  - refine (proj2 (proj2 (proj2 (proj1
             (C1_caller_identity_check (kernel_of 5000 77 0)
                (request IOCTL_TAD_SET_BANNED_APPS (mk_BANNED_APPS_INPUT 0 []))
                (DriverEntry 1 1)) eq_refl))) _ _).
    + right. right. right. left. reflexivity.
    + vm_compute. discriminate.
  - refine (proj2 (C1_caller_identity_check (kernel_of 5321 4321 0)
                     (request IOCTL_TAD_HARD_LOCK (mk_HARD_LOCK_INPUT 1 0))
                     agent_registered) _ _ _).
    + vm_compute. discriminate.
    + right. right. right. left. reflexivity.
    + vm_compute. reflexivity.
Defined.

(** The claim as stated fails for the four opcodes that always require
    the agent: with no agent registered, well-formed HardLock, ProtectUi,
    Stealth and SetBannedApps requests are denied. *)
Lemma C1_counterexample :
  AgentProcess (DriverEntry 1 1) = 0
  /\ status_of (TadDispatchDeviceControl (kernel_of 5000 77 0)
                  (request IOCTL_TAD_HARD_LOCK (mk_HARD_LOCK_INPUT 1 0))
                  (DriverEntry 1 1)) = Some STATUS_ACCESS_DENIED
  /\ status_of (TadDispatchDeviceControl (kernel_of 5000 77 0)
                  (request IOCTL_TAD_PROTECT_UI (mk_PROTECT_UI_INPUT 88 1))
                  (DriverEntry 1 1)) = Some STATUS_ACCESS_DENIED
  /\ status_of (TadDispatchDeviceControl (kernel_of 5000 77 0)
                  (request IOCTL_TAD_STEALTH (mk_STEALTH_INPUT 1 1))
                  (DriverEntry 1 1)) = Some STATUS_ACCESS_DENIED
  /\ status_of (TadDispatchDeviceControl (kernel_of 5000 77 0)
                  (request IOCTL_TAD_SET_BANNED_APPS
                     (mk_BANNED_APPS_INPUT 1 [L "a.exe"]))
                  (DriverEntry 1 1)) = Some STATUS_ACCESS_DENIED.
Proof.
  repeat split; vm_compute; reflexivity.
Qed.

(** ** NULL system buffers *)

Lemma checked_null_buffer k irp g :
  In (IoControlCode irp)
     [IOCTL_TAD_PROTECT_PID; IOCTL_TAD_UNLOCK; IOCTL_TAD_SET_USER_ROLE;
      IOCTL_TAD_SET_POLICY] ->
  required_input_length (IoControlCode irp) <= InputBufferLength irp ->
  SystemBuffer irp = None ->
  TadDispatchDeviceControl k irp g = complete STATUS_INVALID_PARAMETER g.
Proof.
  intros Hin Hlen Hbuf.
  destruct Hin as [E|[E|[E|[E|[]]]]]; symmetry in E; rewrite E in Hlen.
  - rewrite dispatch_ProtectPid by exact E. unfold Ioctl_ProtectPid. rewrite Hbuf.
    change (required_input_length _) with sizeof_TAD_PROTECT_PID_INPUT in Hlen.
    destruct (Z.ltb_spec (InputBufferLength irp) sizeof_TAD_PROTECT_PID_INPUT);
      [lia | reflexivity].
  - rewrite dispatch_Unlock by exact E. unfold Ioctl_Unlock. rewrite Hbuf.
    change (required_input_length _) with sizeof_TAD_UNLOCK_INPUT in Hlen.
    destruct (Z.ltb_spec (InputBufferLength irp) sizeof_TAD_UNLOCK_INPUT);
      [lia | reflexivity].
  - rewrite dispatch_SetUserRole by exact E. unfold Ioctl_SetUserRole. rewrite Hbuf.
    change (required_input_length _) with sizeof_TAD_SET_USER_ROLE_INPUT in Hlen.
    destruct (Z.ltb_spec (InputBufferLength irp) sizeof_TAD_SET_USER_ROLE_INPUT);
      [lia | reflexivity].
  - rewrite dispatch_SetPolicy by exact E. unfold Ioctl_SetPolicy. rewrite Hbuf.
    change (required_input_length _) with sizeof_TAD_POLICY_BUFFER in Hlen.
    destruct (Z.ltb_spec (InputBufferLength irp) sizeof_TAD_POLICY_BUFFER);
      [lia | reflexivity].
Qed.

Lemma agent_only_null_buffer k irp g :
  In (IoControlCode irp) agent_only_opcodes ->
  required_input_length (IoControlCode irp) <= InputBufferLength irp ->
  SystemBuffer irp = None ->
  TadIsCallerProtectedAgent k g = true ->
  TadDispatchDeviceControl k irp g = NullDereference.
Proof.
  intros Hin Hlen Hbuf Hc. unfold agent_only_opcodes in Hin.
  destruct Hin as [E|[E|[E|[E|[]]]]]; symmetry in E; rewrite E in Hlen.
  - rewrite dispatch_HardLock by exact E. unfold Ioctl_HardLock. rewrite Hbuf, Hc.
    change (required_input_length _) with sizeof_TAD_HARD_LOCK_INPUT in Hlen.
    destruct (Z.ltb_spec (InputBufferLength irp) sizeof_TAD_HARD_LOCK_INPUT);
      [lia | reflexivity].
  - rewrite dispatch_ProtectUi by exact E. unfold Ioctl_ProtectUi. rewrite Hbuf, Hc.
    change (required_input_length _) with sizeof_TAD_PROTECT_UI_INPUT in Hlen.
    destruct (Z.ltb_spec (InputBufferLength irp) sizeof_TAD_PROTECT_UI_INPUT);
      [lia | reflexivity].
  - rewrite dispatch_Stealth by exact E. unfold Ioctl_Stealth. rewrite Hbuf, Hc.
    change (required_input_length _) with sizeof_TAD_STEALTH_INPUT in Hlen.
    destruct (Z.ltb_spec (InputBufferLength irp) sizeof_TAD_STEALTH_INPUT);
      [lia | reflexivity].
  - rewrite dispatch_SetBannedApps by exact E. unfold Ioctl_SetBannedApps.
    rewrite Hbuf, Hc.
    change (required_input_length _) with sizeof_TAD_BANNED_APPS_INPUT in Hlen.
    destruct (Z.ltb_spec (InputBufferLength irp) sizeof_TAD_BANNED_APPS_INPUT);
      [lia | reflexivity].
Qed.

(** A NULL system buffer together with a sufficient declared length is
    not a request the I/O manager builds for a buffered opcode.  On such
    a request, with the registered agent as caller, ProtectPid, Unlock,
    SetUserRole and SetPolicy are completed with
    [STATUS_INVALID_PARAMETER], whereas HardLock, ProtectUi, Stealth and
    SetBannedApps, and also Heartbeat and ReadAlert, access memory
    through the NULL buffer: the handlers rely on the size check for
    these six. *)
Lemma null_buffer_with_declared_length :
  TadIsCallerProtectedAgent (kernel_of 5321 4321 0) agent_registered = true
  /\ map (fun code =>
            TadDispatchDeviceControl (kernel_of 5321 4321 0)
              (null_buffer_request code (required_input_length code) 0)
              agent_registered)
         [IOCTL_TAD_PROTECT_PID; IOCTL_TAD_UNLOCK; IOCTL_TAD_SET_USER_ROLE;
          IOCTL_TAD_SET_POLICY]
     = repeat (complete STATUS_INVALID_PARAMETER agent_registered) 4
  /\ map (fun code =>
            TadDispatchDeviceControl (kernel_of 5321 4321 0)
              (null_buffer_request code (required_input_length code) 0)
              agent_registered)
         [IOCTL_TAD_HARD_LOCK; IOCTL_TAD_PROTECT_UI; IOCTL_TAD_STEALTH;
          IOCTL_TAD_SET_BANNED_APPS]
     = repeat NullDereference 4
  /\ TadDispatchDeviceControl (kernel_of 5321 4321 0)
       (null_buffer_request IOCTL_TAD_HEARTBEAT 0 sizeof_TAD_HEARTBEAT_OUTPUT)
       agent_registered
     = NullDereference
  /\ TadDispatchDeviceControl (kernel_of 5321 4321 0)
       (null_buffer_request IOCTL_TAD_READ_ALERT 0 sizeof_TAD_ALERT_OUTPUT)
       agent_registered
     = NullDereference.
Proof.
  assert (A : TadIsCallerProtectedAgent (kernel_of 5321 4321 0) agent_registered = true)
    by (vm_compute; reflexivity).
  split; [exact A|]. split; [|split; [|split; vm_compute; reflexivity]].
  - cbn [map repeat].
    repeat (f_equal; [apply checked_null_buffer;
                        [cbn [In]; tauto | cbn; lia | reflexivity]|]).
    reflexivity.
  - cbn [map repeat].
    repeat (f_equal; [apply agent_only_null_buffer;
                        [cbn [In agent_only_opcodes]; tauto | cbn; lia
                        | reflexivity | exact A]|]).
    reflexivity.
Qed.

(** ** Reachable states *)

Lemma Forall_wr {A} (P : A -> Prop) (l : list A) (i : nat) (x : A) :
  Forall P l -> P x -> Forall P (wr l i x).
Proof.
  intros Hl Hx. revert i. induction Hl as [|h t Hh Ht IH]; intros i.
  - destruct i; constructor.
  - destruct i as [|j]; cbn [wr]; constructor; auto.
Qed.

Lemma store_banned_app_slots i srcLen name t :
  (0 < srcLen < TAD_MAX_IMAGE_NAME_LEN)%nat ->
  Forall slot_ok (BannedApps t) ->
  Forall slot_ok (BannedApps (store_banned_app i srcLen name t)).
Proof.
  intros Hlen Hok. unfold store_banned_app. cbn [BannedApps].
  apply Forall_wr; [exact Hok|].
  right. cbn [Buffer Length]. unfold TAD_MAX_IMAGE_NAME_LEN in *.
  assert (E : to_USHORT (Z.of_nat srcLen * 2) = Z.of_nat srcLen * 2)
    by (unfold to_USHORT; apply Z.mod_small; lia).
  rewrite E. split; [discriminate|]. split; [lia|]. apply Z.mod_mul. lia.
Qed.

Lemma banned_apps_loop_slots n i p t :
  Forall slot_ok (BannedApps t) ->
  Forall slot_ok (BannedApps (banned_apps_loop n i p t)).
Proof.
  revert i t. induction n as [|n IH]; intros i t Hok; [exact Hok|].
  cbn [banned_apps_loop].
  set (srcLen := scan_name TAD_MAX_IMAGE_NAME_LEN 0 (BANNED_APPS_ImageName p i) 0).
  destruct (Nat.eqb_spec srcLen 0) as [E|E]; cbn [orb]; [apply IH; exact Hok|].
  destruct (Nat.leb_spec TAD_MAX_IMAGE_NAME_LEN srcLen); [apply IH; exact Hok|].
  apply IH. apply store_banned_app_slots; [lia | exact Hok].
Qed.

Lemma cleared_table_slots : Forall slot_ok (BannedApps cleared_BANNED_APP_TABLE).
Proof.
  cbn [BannedApps cleared_BANNED_APP_TABLE].
  apply Forall_forall. intros e He. apply repeat_spec in He. subst e.
  left. split; reflexivity.
Qed.




Lemma run_requests_reachable reqs g g' :
  reachable g -> run_requests reqs g = Some g' -> reachable g'.
Proof.
  revert g. induction reqs as [|[k irp] rest IH]; intros g R E; cbn in E.
  - injection E as <-. exact R.
  - destruct (TadDispatchDeviceControl k irp g) as [s n out g1|] eqn:D; [|discriminate].
    apply (IH g1); [|exact E]. exact (reachable_request k irp g s n out g1 R D).
Qed.

(** ** Process-launch intercept *)






Lemma rd_skipn (buf : list WCHAR) (s i : nat) :
  rd 0 (skipn s buf) i = rd 0 buf (s + i).
Proof.
  unfold rd. revert buf. induction s as [|s IH]; intros buf; [reflexivity|].
  destruct buf as [|b buf]; cbn [skipn Nat.add nth].
  - destruct i; reflexivity.
  - apply IH.
Qed.




Section LaunchFacts.

Variable NlsUpcase : WCHAR -> WCHAR.









End LaunchFacts.





(** ** Replacing the banned-app set *)

Lemma SetBannedApps_count_zero_clears k irp g p :
  IoControlCode irp = IOCTL_TAD_SET_BANNED_APPS ->
  sizeof_TAD_BANNED_APPS_INPUT <= InputBufferLength irp ->
  SystemBuffer irp = Some p ->
  TadIsCallerProtectedAgent k g = true ->
  BANNED_APPS_Count p = 0 ->
  TadDispatchDeviceControl k irp g
  = complete STATUS_SUCCESS (set_Banned cleared_BANNED_APP_TABLE g)
  /\ BannedAppSet (set_Banned cleared_BANNED_APP_TABLE g) = [].
Proof.
  intros Hc Hlen Hbuf Hagent Hcount.
  rewrite dispatch_SetBannedApps by exact Hc. unfold Ioctl_SetBannedApps.
  rewrite Hbuf, Hagent, Hcount.
  destruct (Z.ltb_spec (InputBufferLength irp) sizeof_TAD_BANNED_APPS_INPUT); [lia|].
  split; reflexivity.
Qed.

(** C2 (the code at the failing input).  The agent pushes a list of two
    entries, the first empty and the second [a.exe], with the block-apps
    flag set.  The request asks for the set [{a.exe}]; the update stores
    [a.exe] in slot 1 and counts one entry, so the launch intercept looks
    at slot 0 only, which is cleared: the set it compares against is
    empty and launching [a.exe] is not denied. *)
Theorem C2_valid_entry_after_skipped_one_is_lost :
  requested_BannedAppSet (mk_BANNED_APPS_INPUT 2 [[]; L "a.exe"]) = [L "a.exe"]
  /\ run_requests (agent_pushes 2 [[]; L "a.exe"]) (DriverEntry 1 1)
     = Some pushed_empty_then_a
  /\ BannedAppCount (Banned pushed_empty_then_a) = 1
  /\ map chars (BannedApps (Banned pushed_empty_then_a))
     = [] :: L "a.exe" :: repeat [] 30
  /\ BannedAppSet pushed_empty_then_a = []
  /\ PolicyValid pushed_empty_then_a = 1
  /\ block_apps_flag pushed_empty_then_a = true
  /\ forall NlsUpcase,
       TadProcessNotifyCallback NlsUpcase pushed_empty_then_a
         (launch (L "\Device\HarddiskVolume3\a.exe"))
       = launch (L "\Device\HarddiskVolume3\a.exe").
Proof.
  do 7 (split; [vm_compute; reflexivity|]).
  intros NlsUpcase. vm_compute. reflexivity.
Qed.

(** *** What the update stores and what the intercept then scans *)

Lemma wr_length {A} (l : list A) (i : nat) (x : A) : length (wr l i x) = length l.
Proof.
  revert i. induction l as [|h t IH]; intros i; [reflexivity|].
  destruct i; cbn [wr length]; [reflexivity | rewrite IH; reflexivity].
Qed.

Lemma rd_wr_same {A} (d : A) (l : list A) (i : nat) (x : A) :
  (i < length l)%nat -> rd d (wr l i x) i = x.
Proof.
  unfold rd. revert i. induction l as [|h t IH]; intros i Hi; cbn [length] in Hi; [lia|].
  destruct i; cbn [wr nth]; [reflexivity | apply IH; lia].
Qed.

Lemma rd_wr_other {A} (d : A) (l : list A) (i j : nat) (x : A) :
  i <> j -> rd d (wr l i x) j = rd d l j.
Proof.
  unfold rd. revert i j. induction l as [|h t IH]; intros i j Hij; [reflexivity|].
  destruct i, j; cbn [wr nth]; try reflexivity; try lia. apply IH. lia.
Qed.

Lemma scan_name_suffix n pre suf srcLen :
  scan_name n (length pre) (pre ++ suf) srcLen
  = (srcLen + length (until_nul (firstn n suf)))%nat.
Proof.
  revert pre suf srcLen. induction n as [|n IH]; intros pre suf srcLen.
  - cbn. lia.
  - cbn [scan_name]. unfold rd.
    rewrite app_nth2, Nat.sub_diag by lia.
    destruct suf as [|c rest]; cbn [nth firstn until_nul].
    + cbn. lia.
    + destruct (c =? 0); [cbn; lia|].
      replace (pre ++ c :: rest) with ((pre ++ [c]) ++ rest)
        by (rewrite <- app_assoc; reflexivity).
      replace (S (length pre)) with (length (pre ++ [c]))
        by (rewrite length_app; cbn; lia).
      rewrite IH. cbn [length]. lia.
Qed.

Lemma scan_name_whole (name : list WCHAR) :
  scan_name (length name) 0 name 0 = length (until_nul name).
Proof.
  pose proof (scan_name_suffix (length name) [] name 0) as H.
  cbn [length app Nat.add] in H. rewrite H, firstn_all. reflexivity.
Qed.

Lemma until_nul_prefix (name : list WCHAR) :
  firstn (length (until_nul name)) name = until_nul name.
Proof.
  induction name as [|c rest IH]; [reflexivity|].
  cbn [until_nul]. destruct (c =? 0); [reflexivity|].
  cbn [length firstn]. rewrite IH. reflexivity.
Qed.

Lemma until_nul_length (name : list WCHAR) :
  (length (until_nul name) <= length name)%nat
  /\ ((length (until_nul name) < length name)%nat
      <-> existsb (fun c => c =? 0) name = true).
Proof.
  induction name as [|c rest [IH1 IH2]]; cbn [until_nul existsb length].
  - split; [lia|]. split; [lia | discriminate].
  - destruct (c =? 0); cbn [length orb].
    + split; [lia|]. split; [reflexivity | lia].
    + split; [lia|]. rewrite <- IH2. lia.
Qed.

Lemma until_nul_empty_iff (name : list WCHAR) :
  length (until_nul name) = O <-> (rd 0 name 0 =? 0) = true.
Proof.
  destruct name as [|c rest]; cbn [until_nul rd nth].
  - split; reflexivity.
  - destruct (c =? 0); cbn [length]; split; try reflexivity; try discriminate.
Qed.

(** The test of the update loop is the validity of the entry. *)
Lemma entry_test (name : list WCHAR) :
  length name = TAD_MAX_IMAGE_NAME_LEN ->
  let srcLen := scan_name TAD_MAX_IMAGE_NAME_LEN 0 name 0 in
  srcLen = length (until_nul name)
  /\ ((srcLen =? 0)%nat || (TAD_MAX_IMAGE_NAME_LEN <=? srcLen)%nat
      = negb (valid_entry name)).
Proof.
  intros Hlen. cbv zeta. unfold valid_entry. rewrite <- Hlen, !scan_name_whole.
  split; [reflexivity|].
  destruct (until_nul_length name) as [L1 L2].
  pose proof (until_nul_empty_iff name) as E.
  destruct (existsb (fun c => c =? 0) name).
  - assert (length (until_nul name) < length name)%nat by (apply L2; reflexivity).
    destruct (Nat.leb_spec (length name) (length (until_nul name))); [lia|].
    rewrite orb_false_r. cbn [andb].
    destruct (Nat.eqb_spec (length (until_nul name)) 0) as [Z0|Z0].
    + rewrite (proj1 E Z0). reflexivity.
    + destruct (rd 0 name 0 =? 0); [|reflexivity]. exfalso. apply Z0, E. reflexivity.
  - cbn [andb negb].
    destruct (Nat.leb_spec (length name) (length (until_nul name))).
    + apply orb_true_r.
    + exfalso. assert (false = true) by (apply L2; lia). discriminate.
Qed.

Lemma ImageName_length p i :
  length (BANNED_APPS_ImageName p i) = TAD_MAX_IMAGE_NAME_LEN.
Proof.
  unfold BANNED_APPS_ImageName, WCHARs_at. rewrite length_map, length_seq. reflexivity.
Qed.

Lemma map_rd_prefix (a b : list WCHAR) :
  map (rd 0 (a ++ b)) (seq 0 (length a)) = a.
Proof.
  induction a as [|c a IH]; [reflexivity|].
  cbn [length seq map app]. unfold rd at 1. cbn [nth]. f_equal.
  rewrite <- seq_shift, map_map. exact IH.
Qed.

Lemma store_banned_app_slot i name t :
  (i < length (BannedApps t))%nat ->
  (i < length (BannedAppStorage t))%nat ->
  length name = TAD_MAX_IMAGE_NAME_LEN ->
  valid_entry name = true ->
  let t' := store_banned_app i (length (until_nul name)) name t in
  holds_string (slot t' i) = true
  /\ chars (slot t' i) = until_nul name
  /\ (forall j, j <> i -> slot t' j = slot t j)
  /\ length (BannedApps t') = length (BannedApps t)
  /\ length (BannedAppStorage t') = length (BannedAppStorage t)
  /\ BannedAppCount t' = to_ULONG (BannedAppCount t + 1).
Proof.
  intros Hi Hs Hlen Hvalid. cbv zeta.
  destruct (entry_test name Hlen) as [Hscan Htest]. cbv zeta in *.
  rewrite Hvalid, Hscan in Htest. cbn [negb] in Htest.
  apply orb_false_iff in Htest. destruct Htest as [T0 T1].
  apply Nat.eqb_neq in T0. apply Nat.leb_gt in T1.
  unfold slot, store_banned_app. cbn [BannedApps BannedAppStorage BannedAppCount].
  split; [|split; [|split; [|split; [|split]]]].
  - rewrite rd_wr_same by exact Hi. reflexivity.
  - rewrite rd_wr_same by exact Hi. unfold chars. cbn [Buffer Length].
    rewrite rd_wr_same by exact Hs.
    unfold TAD_MAX_IMAGE_NAME_LEN in *.
    replace (to_USHORT (Z.of_nat (length (until_nul name)) * 2) / 2)
      with (Z.of_nat (length (until_nul name)))
      by (unfold to_USHORT; rewrite Z.mod_small by lia; rewrite Z.div_mul; lia).
    rewrite Nat2Z.id, (until_nul_prefix name).
    apply map_rd_prefix.
  - intros j Hj. apply rd_wr_other. lia.
  - apply wr_length.
  - apply wr_length.
  - reflexivity.
Qed.

Lemma banned_apps_loop_spec p n i t :
  length (BannedApps t) = TAD_MAX_BANNED_APPS ->
  length (BannedAppStorage t) = TAD_MAX_BANNED_APPS ->
  (i + n <= TAD_MAX_BANNED_APPS)%nat ->
  0 <= BannedAppCount t <= Z.of_nat i ->
  let t' := banned_apps_loop n i p t in
  BannedAppCount t'
  = BannedAppCount t
    + Z.of_nat (length (filter valid_entry
                          (map (BANNED_APPS_ImageName p) (seq i n))))
  /\ forall j,
       ((i <= j < i + n)%nat ->
        valid_entry (BANNED_APPS_ImageName p j) = true ->
        holds_string (slot t' j) = true
        /\ chars (slot t' j) = until_nul (BANNED_APPS_ImageName p j))
       /\ ((j < i)%nat \/ (i + n <= j)%nat
           \/ valid_entry (BANNED_APPS_ImageName p j) = false ->
           slot t' j = slot t j).
Proof.
  revert i t. induction n as [|n IH]; intros i t La Ls Hin Hc; cbv zeta.
  - cbn [banned_apps_loop seq map filter length]. split; [lia|].
    intros j. split; [lia | reflexivity].
  - cbn [banned_apps_loop]. cbv zeta.
    destruct (entry_test (BANNED_APPS_ImageName p i) (ImageName_length p i))
      as [Hscan Htest]. cbv zeta in Hscan, Htest. rewrite Htest, Hscan.
    cbn [seq map filter].
    destruct (valid_entry (BANNED_APPS_ImageName p i)) eqn:Hv; cbn [negb].
    + unfold TAD_MAX_BANNED_APPS in *.
      destruct (store_banned_app_slot i (BANNED_APPS_ImageName p i) t
                  ltac:(lia) ltac:(lia) (ImageName_length p i) Hv)
        as (Sh & Sc & So & Sla & Sls & Scount).
      cbv zeta in *.
      set (t1 := store_banned_app i (length (until_nul (BANNED_APPS_ImageName p i)))
                   (BANNED_APPS_ImageName p i) t) in *.
      assert (C1 : BannedAppCount t1 = BannedAppCount t + 1).
      { rewrite Scount. unfold to_ULONG. apply Z.mod_small. lia. }
      destruct (IH (S i) t1 ltac:(lia) ltac:(lia) ltac:(lia) ltac:(lia))
        as [IHc IHs]. cbv zeta in *.
      split; [cbn [length]; lia|].
      intros j. destruct (IHs j) as [IH1 IH2]. split.
      * intros Hj Hvj. destruct (Nat.eq_dec j i) as [->|Hne].
        -- rewrite (proj2 (IHs i)) by lia. split; assumption.
        -- apply IH1; [lia | exact Hvj].
      * intros Hj. destruct (Nat.eq_dec j i) as [->|Hne].
        -- exfalso. destruct Hj as [Hj|[Hj|Hj]]; [lia | lia | congruence].
        -- rewrite IH2 by (destruct Hj as [Hj|[Hj|Hj]]; [left|right; left|right; right];
                           try lia; exact Hj).
           apply So. exact Hne.
    + destruct (IH (S i) t La Ls ltac:(lia) ltac:(lia)) as [IHc IHs]. cbv zeta in *.
      split; [exact IHc|].
      intros j. destruct (IHs j) as [IH1 IH2]. split.
      * intros Hj Hvj. destruct (Nat.eq_dec j i) as [->|Hne]; [congruence|].
        apply IH1; [lia | exact Hvj].
      * intros Hj. apply IH2. destruct (Nat.eq_dec j i) as [->|Hne]; [left; lia|].
        destruct Hj as [Hj|[Hj|Hj]]; [left; lia | right; left; lia | right; right; exact Hj].
Qed.

Lemma firstn_seq_le (s v N : nat) :
  (v <= N)%nat -> firstn v (seq s N) = seq s v.
Proof.
  revert s N. induction v as [|v IH]; intros s N H; [reflexivity|].
  destruct N as [|N]; [lia|]. cbn [seq firstn]. rewrite IH by lia. reflexivity.
Qed.

Lemma cleared_slot_holds_nothing j :
  holds_string (slot cleared_BANNED_APP_TABLE j) = false.
Proof.
  unfold slot, cleared_BANNED_APP_TABLE, rd. cbn [BannedApps].
  destruct (nth_in_or_default j
              (repeat {| Length := 0; MaximumLength := 0; Buffer := None |}
                      TAD_MAX_BANNED_APPS)
              {| Length := 0; MaximumLength := 0; Buffer := None |}) as [H|H].
  - apply repeat_spec in H. rewrite H. reflexivity.
  - rewrite H. reflexivity.
Qed.

(** An accepted update replaces the table by what the loop builds from
    the cleared table, and leaves every other field. *)
Lemma SetBannedApps_accepted k irp g p :
  IoControlCode irp = IOCTL_TAD_SET_BANNED_APPS ->
  sizeof_TAD_BANNED_APPS_INPUT <= InputBufferLength irp ->
  SystemBuffer irp = Some p ->
  TadIsCallerProtectedAgent k g = true ->
  0 <= BANNED_APPS_Count p <= Z.of_nat TAD_MAX_BANNED_APPS ->
  TadDispatchDeviceControl k irp g
  = complete STATUS_SUCCESS
      (set_Banned (banned_apps_loop (Z.to_nat (BANNED_APPS_Count p)) 0 p
                     cleared_BANNED_APP_TABLE) g).
Proof.
  intros Hc Hlen Hbuf Hagent Hcount.
  rewrite dispatch_SetBannedApps by exact Hc. unfold Ioctl_SetBannedApps.
  rewrite Hbuf, Hagent. cbn [negb].
  destruct (Z.ltb_spec (InputBufferLength irp) sizeof_TAD_BANNED_APPS_INPUT); [lia|].
  destruct (Z.ltb_spec (Z.of_nat TAD_MAX_BANNED_APPS) (BANNED_APPS_Count p)); [lia|].
  reflexivity.
Qed.

Lemma scanned_set_of_update g p :
  0 <= BANNED_APPS_Count p <= Z.of_nat TAD_MAX_BANNED_APPS ->
  BannedAppSet
    (set_Banned (banned_apps_loop (Z.to_nat (BANNED_APPS_Count p)) 0 p
                   cleared_BANNED_APP_TABLE) g)
  = map until_nul
      (filter valid_entry
         (firstn (length (filter valid_entry (input_entries p)))
                 (input_entries p))).
Proof.
  intros Hcount.
  unfold BannedAppSet, compared_slots, input_entries. cbn [Banned set_Banned].
  set (N := Z.to_nat (BANNED_APPS_Count p)).
  destruct (banned_apps_loop_spec p N 0 cleared_BANNED_APP_TABLE)
    as [Cnt Slots]; try reflexivity.
  { unfold TAD_MAX_BANNED_APPS in *. lia. }
  { cbn. lia. }
  cbv zeta in *. set (t' := banned_apps_loop N 0 p cleared_BANNED_APP_TABLE) in *.
  set (v := length (filter valid_entry (map (BANNED_APPS_ImageName p) (seq 0 N)))) in *.
  assert (Hv : (v <= N)%nat).
  { subst v. etransitivity; [apply filter_length_le|].
    rewrite length_map, length_seq. lia. }
  rewrite Cnt. cbn [cleared_BANNED_APP_TABLE BannedAppCount Z.add]. rewrite Nat2Z.id.
  rewrite firstn_map, firstn_seq_le by exact Hv.
  fold (slot t').
  assert (G : forall l, (forall j, In j l -> (j < N)%nat) ->
            map chars (filter holds_string (map (slot t') l))
            = map until_nul (filter valid_entry (map (BANNED_APPS_ImageName p) l))).
  { induction l as [|j l IHl]; intros Hl; [reflexivity|].
    cbn [map filter]. destruct (Slots j) as [S1 S2].
    assert (Hj : (j < N)%nat) by (apply Hl; left; reflexivity).
    specialize (IHl (fun j' H' => Hl j' (or_intror H'))).
    destruct (valid_entry (BANNED_APPS_ImageName p j)) eqn:Hvj.
    - destruct (S1 ltac:(lia) eq_refl) as [Hh Hch].
      rewrite Hh. cbn [map]. rewrite Hch, IHl. reflexivity.
    - rewrite (S2 (or_intror (or_intror eq_refl))), cleared_slot_holds_nothing.
      exact IHl. }
  apply G. intros j Hj. apply in_seq in Hj. lia.
Qed.

(** X24.  After an accepted update with [Count <= 32], the set the
    launch intercept compares against is the set of valid entries among
    the first [v] input entries, where [v] is the number of valid
    entries of the input. *)
Theorem SetBannedApps_scanned_prefix :
  forall (k : KERNEL) (irp : IRP) (g : TAD_DRIVER_GLOBALS) (p : list byte),
    IoControlCode irp = IOCTL_TAD_SET_BANNED_APPS ->
    sizeof_TAD_BANNED_APPS_INPUT <= InputBufferLength irp ->
    SystemBuffer irp = Some p ->
    TadIsCallerProtectedAgent k g = true ->
    0 <= BANNED_APPS_Count p <= Z.of_nat TAD_MAX_BANNED_APPS ->
    exists g',
      TadDispatchDeviceControl k irp g = complete STATUS_SUCCESS g'
      /\ BannedAppSet g'
         = map until_nul
             (filter valid_entry
                (firstn (length (filter valid_entry (input_entries p)))
                        (input_entries p))).
Proof.
  intros k irp g p Hc Hlen Hbuf Hagent Hcount.
  eexists. split.
  - apply (SetBannedApps_accepted k irp g p); assumption.
  - apply scanned_set_of_update. exact Hcount.
Qed.

(** X25.  When every input entry is valid, the set the intercept
    compares against is the set the request asks for. *)
Corollary SetBannedApps_all_valid :
  forall (k : KERNEL) (irp : IRP) (g : TAD_DRIVER_GLOBALS) (p : list byte),
    IoControlCode irp = IOCTL_TAD_SET_BANNED_APPS ->
    sizeof_TAD_BANNED_APPS_INPUT <= InputBufferLength irp ->
    SystemBuffer irp = Some p ->
    TadIsCallerProtectedAgent k g = true ->
    0 <= BANNED_APPS_Count p <= Z.of_nat TAD_MAX_BANNED_APPS ->
    forallb valid_entry (input_entries p) = true ->
    exists g',
      TadDispatchDeviceControl k irp g = complete STATUS_SUCCESS g'
      /\ BannedAppSet g' = requested_BannedAppSet p.
Proof.
  intros k irp g p Hc Hlen Hbuf Hagent Hcount Hall.
  eexists. split; [apply (SetBannedApps_accepted k irp g p); assumption|].
  rewrite scanned_set_of_update by exact Hcount. unfold requested_BannedAppSet.
  fold (input_entries p).
  assert (F : filter valid_entry (input_entries p) = input_entries p).
  { apply forallb_filter_id. exact Hall. }
  rewrite F, firstn_all. rewrite F. reflexivity.
Qed.

(* ===================================================================== *)
(** * Further properties of the driver *)
(* ===================================================================== *)

(** ** The command bridge as a whole *)

(** The switch, with the opcode each arm is taken for. *)
Lemma dispatch_by_opcode k irp g :
  (IoControlCode irp = IOCTL_TAD_PROTECT_PID
   /\ TadDispatchDeviceControl k irp g = Ioctl_ProtectPid k irp g)
  \/ (IoControlCode irp = IOCTL_TAD_UNLOCK
      /\ TadDispatchDeviceControl k irp g = Ioctl_Unlock k irp g)
  \/ (IoControlCode irp = IOCTL_TAD_HEARTBEAT
      /\ TadDispatchDeviceControl k irp g = Ioctl_Heartbeat k irp g)
  \/ (IoControlCode irp = IOCTL_TAD_SET_USER_ROLE
      /\ TadDispatchDeviceControl k irp g = Ioctl_SetUserRole k irp g)
  \/ (IoControlCode irp = IOCTL_TAD_SET_POLICY
      /\ TadDispatchDeviceControl k irp g = Ioctl_SetPolicy k irp g)
  \/ (IoControlCode irp = IOCTL_TAD_READ_ALERT
      /\ TadDispatchDeviceControl k irp g = Ioctl_ReadAlert k irp g)
  \/ (IoControlCode irp = IOCTL_TAD_HARD_LOCK
      /\ TadDispatchDeviceControl k irp g = Ioctl_HardLock k irp g)
  \/ (IoControlCode irp = IOCTL_TAD_PROTECT_UI
      /\ TadDispatchDeviceControl k irp g = Ioctl_ProtectUi k irp g)
  \/ (IoControlCode irp = IOCTL_TAD_STEALTH
      /\ TadDispatchDeviceControl k irp g = Ioctl_Stealth k irp g)
  \/ (IoControlCode irp = IOCTL_TAD_SET_BANNED_APPS
      /\ TadDispatchDeviceControl k irp g = Ioctl_SetBannedApps k irp g)
  \/ (~ In (IoControlCode irp) known_opcodes
      /\ TadDispatchDeviceControl k irp g = complete STATUS_INVALID_DEVICE_REQUEST g).
Proof.
  unfold TadDispatchDeviceControl.
  destruct (Z.eqb_spec (IoControlCode irp) IOCTL_TAD_PROTECT_PID) as [E0|E0]; [tauto|].
  destruct (Z.eqb_spec (IoControlCode irp) IOCTL_TAD_UNLOCK) as [E1|E1]; [tauto|].
  destruct (Z.eqb_spec (IoControlCode irp) IOCTL_TAD_HEARTBEAT) as [E2|E2]; [tauto|].
  destruct (Z.eqb_spec (IoControlCode irp) IOCTL_TAD_SET_USER_ROLE) as [E3|E3]; [tauto|].
  destruct (Z.eqb_spec (IoControlCode irp) IOCTL_TAD_SET_POLICY) as [E4|E4]; [tauto|].
  destruct (Z.eqb_spec (IoControlCode irp) IOCTL_TAD_READ_ALERT) as [E5|E5]; [tauto|].
  destruct (Z.eqb_spec (IoControlCode irp) IOCTL_TAD_HARD_LOCK) as [E6|E6]; [tauto|].
  destruct (Z.eqb_spec (IoControlCode irp) IOCTL_TAD_PROTECT_UI) as [E7|E7]; [tauto|].
  destruct (Z.eqb_spec (IoControlCode irp) IOCTL_TAD_STEALTH) as [E8|E8]; [tauto|].
  destruct (Z.eqb_spec (IoControlCode irp) IOCTL_TAD_SET_BANNED_APPS) as [E9|E9]; [tauto|].
  do 10 right. split; [|reflexivity].
  unfold known_opcodes. cbn [In]. intros H.
  repeat (destruct H as [H|H]; [symmetry in H; contradiction|]). exact H.
Qed.

Ltac by_opcode k irp g :=
  destruct (dispatch_by_opcode k irp g)
    as [[Hop E]|[[Hop E]|[[Hop E]|[[Hop E]|[[Hop E]|[[Hop E]|[[Hop E]|[[Hop E]
        |[[Hop E]|[[Hop E]|[Hop E]]]]]]]]]]];
  rewrite E; clear E.

(** X1.  A request of a known opcode whose declared length is below the
    payload size is completed with [STATUS_BUFFER_TOO_SMALL], reports no
    byte written, and leaves the globals as they were: whoever the
    caller is, and also when the system buffer is NULL, which the size
    check precedes. *)
Theorem undersized_request_rejected :
  forall (k : KERNEL) (irp : IRP) (g : TAD_DRIVER_GLOBALS),
    undersized irp ->
    TadDispatchDeviceControl k irp g = complete STATUS_BUFFER_TOO_SMALL g.
Proof.
  intros k irp g (Hin & Hi0 & Ho0 & Hsmall).
  by_opcode k irp g; try contradiction;
    rewrite Hop in Hsmall;
    match goal with
    | |- ?f k irp g = _ => unfold f
    end;
    cbn in Hsmall;
    unfold sizeof_TAD_PROTECT_PID_INPUT, sizeof_TAD_UNLOCK_INPUT,
      sizeof_TAD_HEARTBEAT_OUTPUT, sizeof_TAD_SET_USER_ROLE_INPUT,
      sizeof_TAD_POLICY_BUFFER, sizeof_TAD_ALERT_OUTPUT, sizeof_TAD_HARD_LOCK_INPUT,
      sizeof_TAD_PROTECT_UI_INPUT, sizeof_TAD_STEALTH_INPUT,
      sizeof_TAD_BANNED_APPS_INPUT, TAD_MAX_SID_LENGTH, TAD_MAX_OU_LENGTH,
      TAD_MAX_BANNED_APPS, TAD_MAX_IMAGE_NAME_LEN in *;
    cbn in Hsmall |- *;
    match goal with
    | |- context [Z.ltb ?a ?b] => destruct (Z.ltb_spec a b); [reflexivity | exfalso; lia]
    end.
Qed.

(** A 16-byte buffer with the Unlock opcode is below the 32 bytes an
    Unlock needs. *)
Lemma undersized_request_rejected_witness :
  TadDispatchDeviceControl (kernel_of 5000 77 0)
    (request IOCTL_TAD_UNLOCK (repeat x00 16)) (DriverEntry 1 1)
  = complete STATUS_BUFFER_TOO_SMALL (DriverEntry 1 1).
Proof.
  apply undersized_request_rejected.
  split; [right; left; reflexivity|].
  split; [vm_compute; discriminate|]. split; [vm_compute; discriminate|].
  left. vm_compute. reflexivity.
Defined.

Ltac open_handler :=
  match goal with
  | |- context [Ioctl_ProtectPid] => unfold Ioctl_ProtectPid
  | |- context [Ioctl_Unlock] => unfold Ioctl_Unlock
  | |- context [Ioctl_Heartbeat] => unfold Ioctl_Heartbeat
  | |- context [Ioctl_SetUserRole] => unfold Ioctl_SetUserRole
  | |- context [Ioctl_SetPolicy] => unfold Ioctl_SetPolicy
  | |- context [Ioctl_ReadAlert] => unfold Ioctl_ReadAlert
  | |- context [Ioctl_HardLock] => unfold Ioctl_HardLock
  | |- context [Ioctl_ProtectUi] => unfold Ioctl_ProtectUi
  | |- context [Ioctl_Stealth] => unfold Ioctl_Stealth
  | |- context [Ioctl_SetBannedApps] => unfold Ioctl_SetBannedApps
  | _ => idtac
  end; cbv zeta; unfold complete; repeat branch.

(** C3.  No request the I/O manager delivers makes the command bridge
    read or write through a NULL system buffer, whatever the opcode,
    the caller and the state.  All opcodes are buffered, so a NULL
    system buffer comes with both declared lengths 0: such a request is
    rejected, its globals untouched, by the size check that opens every
    handler, with [STATUS_BUFFER_TOO_SMALL] for each of the ten opcodes
    (HardLock, ProtectUi, Stealth and SetBannedApps among them) and
    with [STATUS_INVALID_DEVICE_REQUEST] for any other opcode; no
    handler gets as far as the buffer. *)
Theorem C3_null_buffer_never_dereferenced :
  forall (k : KERNEL) (irp : IRP) (g : TAD_DRIVER_GLOBALS),
    buffered irp ->
    TadDispatchDeviceControl k irp g <> NullDereference
    /\ (SystemBuffer irp = None ->
        exists status,
          TadDispatchDeviceControl k irp g = complete status g
          /\ status <> STATUS_SUCCESS
          /\ (In (IoControlCode irp) known_opcodes ->
              status = STATUS_BUFFER_TOO_SMALL)
          /\ (~ In (IoControlCode irp) known_opcodes ->
              status = STATUS_INVALID_DEVICE_REQUEST)).
Proof.
  intros k irp g B.
  destruct (SystemBuffer irp) as [p|] eqn:Hbuf.
  - split; [|discriminate].
    by_opcode k irp g;
      match goal with
      | |- ?f k irp g <> _ => unfold f
      | _ => idtac
      end; rewrite ?Hbuf; cbv zeta; unfold complete; repeat branch; discriminate.
  - destruct (B Hbuf) as [I0 O0].
    assert (R : exists status,
               TadDispatchDeviceControl k irp g = complete status g
               /\ status <> STATUS_SUCCESS
               /\ (In (IoControlCode irp) known_opcodes ->
                   status = STATUS_BUFFER_TOO_SMALL)
               /\ (~ In (IoControlCode irp) known_opcodes ->
                   status = STATUS_INVALID_DEVICE_REQUEST)).
    { by_opcode k irp g.
      11:{ exists STATUS_INVALID_DEVICE_REQUEST. split; [reflexivity|].
           split; [discriminate|]. split; [intros K; contradiction | reflexivity]. }
      all: exists STATUS_BUFFER_TOO_SMALL;
        (split;
         [match goal with
          | |- ?f _ _ _ = _ => unfold f
          end; rewrite ?I0, ?O0; reflexivity|]);
        (split; [discriminate|]);
        (split; [reflexivity|]);
        intros N; exfalso; apply N; rewrite Hop; unfold known_opcodes; cbn [In]; tauto. }
    split; [|intros _; exact R].
    destruct R as (status & E & _). rewrite E. discriminate.
Qed.

(** The registered agent's HardLock with a NULL system buffer, as it
    can arrive: both lengths 0.  It is rejected by the size check. *)
Lemma C3_witness :
  buffered (null_buffer_request IOCTL_TAD_HARD_LOCK 0 0)
  /\ TadIsCallerProtectedAgent (kernel_of 5321 4321 0) agent_registered = true
  /\ TadDispatchDeviceControl (kernel_of 5321 4321 0)
       (null_buffer_request IOCTL_TAD_HARD_LOCK 0 0) agent_registered
     = complete STATUS_BUFFER_TOO_SMALL agent_registered.
Proof.
  assert (B : buffered (null_buffer_request IOCTL_TAD_HARD_LOCK 0 0)).
  { intros _. split; reflexivity. }
  split; [exact B|]. split; [vm_compute; reflexivity|].
  destruct (C3_null_buffer_never_dereferenced (kernel_of 5321 4321 0)
              (null_buffer_request IOCTL_TAD_HARD_LOCK 0 0) agent_registered B)
    as (_ & R).
  destruct (R eq_refl) as (status & E & _ & K & _).
  rewrite E. f_equal. apply K.
  unfold known_opcodes. cbn [In IoControlCode null_buffer_request]. tauto.
Defined.

(** X2.  Only a successful Heartbeat or ReadAlert writes to the system
    buffer: a request that reports bytes written, or returns a record,
    has succeeded, is one of these two, and reports exactly the size of
    its record. *)
Theorem output_only_from_successful_reads :
  forall (k : KERNEL) (irp : IRP) (g g' : TAD_DRIVER_GLOBALS)
         (s : NTSTATUS) (n : ULONG) (out : OUTPUT),
    TadDispatchDeviceControl k irp g = Completed s n out g' ->
    n <> 0 \/ out <> NoOutput ->
    s = STATUS_SUCCESS
    /\ ((IoControlCode irp = IOCTL_TAD_HEARTBEAT
         /\ n = sizeof_TAD_HEARTBEAT_OUTPUT
         /\ exists hb, out = HeartbeatOutput hb)
        \/ (IoControlCode irp = IOCTL_TAD_READ_ALERT
            /\ n = sizeof_TAD_ALERT_OUTPUT
            /\ exists a, out = AlertOutput a)).
Proof.
  intros k irp g g' s n out.
  by_opcode k irp g; open_handler; intros H W; inversion H; subst; clear H;
    try (exfalso; destruct W as [W|W]; apply W; reflexivity).
  - split; [reflexivity|]. left. split; [exact Hop|]. split; [reflexivity|]. eauto.
  - split; [reflexivity|]. right. split; [exact Hop|]. split; [reflexivity|]. eauto.
Qed.

(** A Heartbeat on a freshly loaded driver. *)
Lemma output_only_from_successful_reads_witness :
  exists s n out g',
    TadDispatchDeviceControl (kernel_of 5000 77 0)
      {| IoControlCode := IOCTL_TAD_HEARTBEAT; InputBufferLength := 0;
         OutputBufferLength := 28; SystemBuffer := Some (repeat x00 28) |}
      (DriverEntry 1 1) = Completed s n out g'
    /\ n <> 0
    /\ s = STATUS_SUCCESS.
Proof.
  eexists _, _, _, _.
  split; [vm_compute; reflexivity|]. split; [discriminate|].
  refine (proj1 (output_only_from_successful_reads (kernel_of 5000 77 0)
                   {| IoControlCode := IOCTL_TAD_HEARTBEAT; InputBufferLength := 0;
                      OutputBufferLength := 28; SystemBuffer := Some (repeat x00 28) |}
                   (DriverEntry 1 1) _ _ 28 _ _ _)).
  - vm_compute. reflexivity.
  - left. discriminate.
Defined.

(** X3.  A request completed with a status other than success has
    changed nothing, with one exception: an Unlock refused for its
    secret, which has changed the failure counter and, on reaching the
    limit, the lockout deadline, and nothing else. *)
Theorem failed_request_changes_nothing_but_throttle :
  forall (k : KERNEL) (irp : IRP) (g g' : TAD_DRIVER_GLOBALS)
         (s : NTSTATUS) (n : ULONG) (out : OUTPUT),
    TadDispatchDeviceControl k irp g = Completed s n out g' ->
    s <> STATUS_SUCCESS ->
    g' = g
    \/ (IoControlCode irp = IOCTL_TAD_UNLOCK
        /\ s = STATUS_ACCESS_DENIED
        /\ same_except_throttle g g').
Proof.
  intros k irp g g' s n out.
  by_opcode k irp g; open_handler; intros H W; inversion H; subst; clear H;
    try (left; reflexivity); try (exfalso; apply W; reflexivity);
    right; (split; [exact Hop|]); (split; [reflexivity|]);
    unfold same_except_throttle; destruct g; reflexivity.
Qed.

(** A wrong secret on a freshly loaded driver changes the counter only. *)
Lemma failed_request_changes_nothing_but_throttle_witness :
  exists s n out g',
    TadDispatchDeviceControl (kernel_of 5000 77 100)
      (request IOCTL_TAD_UNLOCK (repeat x00 32)) (DriverEntry 1 1)
    = Completed s n out g'
    /\ s <> STATUS_SUCCESS
    /\ (g' = DriverEntry 1 1
        \/ (IOCTL_TAD_UNLOCK = IOCTL_TAD_UNLOCK
            /\ s = STATUS_ACCESS_DENIED
            /\ same_except_throttle (DriverEntry 1 1) g')).
Proof.
  eexists _, _, _, _.
  split; [vm_compute; reflexivity|]. split; [discriminate|].
  refine (failed_request_changes_nothing_but_throttle (kernel_of 5000 77 100)
            (request IOCTL_TAD_UNLOCK (repeat x00 32)) (DriverEntry 1 1)
            _ _ _ _ _ _).
  - vm_compute. reflexivity.
  - discriminate.
Defined.

Ltac field_same Hop :=
  let Hne := fresh "Hne" in
  intros Hne; try exact Hop; exfalso; cbn in Hne;
  repeat match goal with
         | H : _ \/ _ |- _ => destruct H as [H|H]
         end; apply Hne; reflexivity.

(** X4.  Each part of the globals has one writer among the opcodes: the
    protected identifier and the agent process are written by ProtectPid
    only, the unlock gate and its throttle by Unlock only, the heartbeat
    record by Heartbeat only, the role by SetUserRole only, the policy by
    SetPolicy only, the input lock by HardLock only, the overlay
    identifier by ProtectUi only, the stealth record by Stealth only, the
    banned-app table by SetBannedApps only; no request writes the two
    registration handles. *)
Theorem each_field_has_one_writer :
  forall (k : KERNEL) (irp : IRP) (g g' : TAD_DRIVER_GLOBALS)
         (s : NTSTATUS) (n : ULONG) (out : OUTPUT),
    TadDispatchDeviceControl k irp g = Completed s n out g' ->
    (ProtectedPid g' <> ProtectedPid g \/ AgentProcess g' <> AgentProcess g ->
     IoControlCode irp = IOCTL_TAD_PROTECT_PID)
    /\ (AllowUnload g' <> AllowUnload g
        \/ FailedUnlockAttempts g' <> FailedUnlockAttempts g
        \/ LockoutUntil g' <> LockoutUntil g ->
        IoControlCode irp = IOCTL_TAD_UNLOCK)
    /\ (HeartbeatAlive g' <> HeartbeatAlive g
        \/ LastHeartbeatTime g' <> LastHeartbeatTime g ->
        IoControlCode irp = IOCTL_TAD_HEARTBEAT)
    /\ (CurrentUserRole g' <> CurrentUserRole g ->
        IoControlCode irp = IOCTL_TAD_SET_USER_ROLE)
    /\ (CurrentPolicy g' <> CurrentPolicy g \/ PolicyValid g' <> PolicyValid g ->
        IoControlCode irp = IOCTL_TAD_SET_POLICY)
    /\ (InputLocked g' <> InputLocked g ->
        IoControlCode irp = IOCTL_TAD_HARD_LOCK)
    /\ (ProtectedUiPid g' <> ProtectedUiPid g ->
        IoControlCode irp = IOCTL_TAD_PROTECT_UI)
    /\ (StealthActive g' <> StealthActive g \/ StealthFlags g' <> StealthFlags g ->
        IoControlCode irp = IOCTL_TAD_STEALTH)
    /\ (Banned g' <> Banned g ->
        IoControlCode irp = IOCTL_TAD_SET_BANNED_APPS)
    /\ ObCallbackHandle g' = ObCallbackHandle g
    /\ FilterHandle g' = FilterHandle g.
Proof.
  intros k irp g g' s n out.
  by_opcode k irp g; open_handler; intros H; inversion H; subst; clear H;
    (split; [field_same Hop|]); (split; [field_same Hop|]);
    (split; [field_same Hop|]); (split; [field_same Hop|]);
    (split; [field_same Hop|]); (split; [field_same Hop|]);
    (split; [field_same Hop|]); (split; [field_same Hop|]);
    (split; [field_same Hop|]); split; reflexivity.
Qed.

(** A HardLock by the registered agent leaves the registration handle
    alone. *)
Lemma each_field_has_one_writer_witness :
  exists s n out g',
    TadDispatchDeviceControl (kernel_of 5321 4321 0)
      (request IOCTL_TAD_HARD_LOCK (mk_HARD_LOCK_INPUT 1 0)) agent_registered
    = Completed s n out g'
    /\ InputLocked g' <> InputLocked agent_registered
    /\ ObCallbackHandle g' = ObCallbackHandle agent_registered.
Proof.
  eexists _, _, _, _.
  split; [vm_compute; reflexivity|]. split; [vm_compute; discriminate|].
  refine (proj1 (proj2 (proj2 (proj2 (proj2 (proj2 (proj2 (proj2 (proj2 (proj2
           (each_field_has_one_writer (kernel_of 5321 4321 0)
              (request IOCTL_TAD_HARD_LOCK (mk_HARD_LOCK_INPUT 1 0)) agent_registered
              _ _ _ _ _))))))))))).
  vm_compute. reflexivity.
Defined.

(** ** The unlock gate *)

Lemma to_LONG_small (z : Z) : - 2 ^ 31 <= z < 2 ^ 31 -> to_LONG z = z.
Proof. intros H. unfold to_LONG. rewrite Z.mod_small; lia. Qed.

(** What one request does to the unlock gate. *)
Lemma unlock_gate_step k irp g s n out g' :
  TadDispatchDeviceControl k irp g = Completed s n out g' ->
  (AllowUnload g' = AllowUnload g
   \/ (verifying_unlock irp /\ s = STATUS_SUCCESS
       /\ AllowUnload g' = 1 /\ FailedUnlockAttempts g' = 0))
  /\ (0 <= FailedUnlockAttempts g <= TAD_MAX_UNLOCK_ATTEMPTS ->
      0 <= FailedUnlockAttempts g' <= TAD_MAX_UNLOCK_ATTEMPTS).
Proof.
  unfold TAD_MAX_UNLOCK_ATTEMPTS.
  by_opcode k irp g; open_handler; intros H; inversion H; subst; clear H;
    try (split; [left; reflexivity | intros B; exact B]).
  all: split;
    [ first [ left; reflexivity
            | right; split;
              [split; [exact Hop | eexists; split; [eassumption | assumption]]
              | repeat split; reflexivity] ]
    | intros B; cbn [FailedUnlockAttempts set_FailedUnlockAttempts set_AllowUnload
                       set_LockoutUntil] in *;
      repeat match goal with
             | H : (_ <=? _) = true |- _ => apply Z.leb_le in H
             | H : (_ <=? _) = false |- _ => apply Z.leb_gt in H
             end;
      cbn [FailedUnlockAttempts set_FailedUnlockAttempts] in *;
      unfold TAD_MAX_UNLOCK_ATTEMPTS in *;
      try rewrite to_LONG_small by lia; try lia ].
Qed.

Lemma run_requests_gate reqs g g' :
  run_requests reqs g = Some g' ->
  (AllowUnload g = 1 -> AllowUnload g' = 1)
  /\ (AllowUnload g' <> AllowUnload g ->
      Exists (fun r => verifying_unlock (snd r)) reqs).
Proof.
  revert g. induction reqs as [|[k irp] rest IH]; intros g R; cbn in R.
  - injection R as <-. split; [auto | intros N; contradiction].
  - destruct (TadDispatchDeviceControl k irp g) as [s n out g1|] eqn:D; [|discriminate].
    destruct (IH g1 R) as [IH1 IH2].
    destruct (proj1 (unlock_gate_step k irp g s n out g1 D)) as [Same|(V & _ & A & _)].
    + split.
      * intros A. apply IH1. rewrite Same. exact A.
      * intros N. apply Exists_cons_tl, IH2. rewrite Same. exact N.
    + split.
      * intros _. apply IH1. exact A.
      * intros _. apply Exists_cons_hd. exact V.
Qed.

Lemma reachable_failure_count (g : TAD_DRIVER_GLOBALS) :
  reachable g -> 0 <= FailedUnlockAttempts g <= TAD_MAX_UNLOCK_ATTEMPTS.
Proof.
  induction 1 as [ob flt | k irp g s n out g' _ IH E | g _ IH].
  - unfold TAD_MAX_UNLOCK_ATTEMPTS. cbn. lia.
  - exact (proj2 (unlock_gate_step k irp g s n out g' E) IH).
  - exact IH.
Qed.

(** X5.  In every reachable state the failure counter lies between 0
    and the limit of 5, and [AllowUnload] is 0 or 1. *)
Theorem unlock_throttle_bounded :
  forall g : TAD_DRIVER_GLOBALS,
    reachable g ->
    0 <= FailedUnlockAttempts g <= TAD_MAX_UNLOCK_ATTEMPTS
    /\ (AllowUnload g = 0 \/ AllowUnload g = 1).
Proof.
  induction 1 as [ob flt | k irp g s n out g' _ [IHf IHa] E | g _ IH].
  - split; [unfold TAD_MAX_UNLOCK_ATTEMPTS; cbn; lia | left; reflexivity].
  - destruct (unlock_gate_step k irp g s n out g' E) as [[Same|(_ & _ & A & _)] B].
    + split; [exact (B IHf) | rewrite Same; exact IHa].
    + split; [exact (B IHf) | right; exact A].
  - exact IH.
Qed.

(** After the agent has registered, pushed a policy and a list. *)
Lemma unlock_throttle_bounded_witness :
  0 <= FailedUnlockAttempts banning_a_b <= TAD_MAX_UNLOCK_ATTEMPTS
  /\ (AllowUnload banning_a_b = 0 \/ AllowUnload banning_a_b = 1).
Proof.
  apply unlock_throttle_bounded.
  apply (run_requests_reachable (agent_pushes 2 [L "a.exe"; L "b.exe"])
           (DriverEntry 1 1)).
  - apply reachable_entry.
  - vm_compute. reflexivity.
Defined.

(** X6.  Over any sequence of completed requests, [AllowUnload] once 1
    stays 1, and it changes only if the sequence contains an Unlock
    request whose secret verifies. *)
Theorem unload_gate_opens_only_by_secret :
  forall (reqs : list (KERNEL * IRP)) (g g' : TAD_DRIVER_GLOBALS),
    run_requests reqs g = Some g' ->
    (AllowUnload g = 1 -> AllowUnload g' = 1)
    /\ (AllowUnload g' <> AllowUnload g ->
        Exists (fun r => verifying_unlock (snd r)) reqs).
Proof.
  intros reqs. induction reqs as [|[k irp] rest IH]; intros g g' R; cbn in R.
  - injection R as <-. split; [auto | intros N; contradiction].
  - destruct (TadDispatchDeviceControl k irp g) as [s n out g1|] eqn:D; [|discriminate].
    destruct (IH g1 g' R) as [IH1 IH2].
    destruct (proj1 (unlock_gate_step k irp g s n out g1 D)) as [Same|(V & _ & A & _)].
    + rewrite <- Same. split; [exact IH1|].
      intros N. apply Exists_cons_tl, IH2. exact N.
    + split; [intros _; apply IH1; exact A|].
      intros _. apply Exists_cons_hd. exact V.
Qed.

(** Five wrong secrets do not open the gate. *)
Lemma unload_gate_opens_only_by_secret_witness :
  exists g',
    run_requests (repeat (kernel_of 5000 77 100,
                          request IOCTL_TAD_UNLOCK (repeat x00 32)) 5)
                 (DriverEntry 1 1) = Some g'
    /\ (AllowUnload g' <> AllowUnload (DriverEntry 1 1) ->
        Exists (fun r => verifying_unlock (snd r))
               (repeat (kernel_of 5000 77 100,
                        request IOCTL_TAD_UNLOCK (repeat x00 32)) 5)).
Proof.
  eexists. split; [vm_compute; reflexivity|].
  refine (proj2 (unload_gate_opens_only_by_secret _ (DriverEntry 1 1) _ _)).
  vm_compute. reflexivity.
Defined.

(** X7.  When the lockout deadline has passed, a further wrong secret
    is refused, restarts the failure count at 1 and arms no new
    deadline: each expired lockout gives five further attempts. *)
Theorem expired_lockout_restarts_count :
  forall (k : KERNEL) (irp : IRP) (g : TAD_DRIVER_GLOBALS),
    unlock_request irp false ->
    caller_admitted k g ->
    TAD_MAX_UNLOCK_ATTEMPTS <= FailedUnlockAttempts g ->
    LockoutUntil g <= KeQuerySystemTime k 0 ->
    exists g',
      TadDispatchDeviceControl k irp g = complete STATUS_ACCESS_DENIED g'
      /\ FailedUnlockAttempts g' = 1
      /\ LockoutUntil g' = LockoutUntil g
      /\ AllowUnload g' = AllowUnload g.
Proof.
  intros k irp g (Hc & Hlen & p & Hbuf & Hkey) Hadm Hfail Hnow.
  rewrite dispatch_Unlock by exact Hc. unfold Ioctl_Unlock.
  rewrite Hbuf. apply bootstrap_guard in Hadm. rewrite Hadm.
  destruct (Z.ltb_spec (InputBufferLength irp) sizeof_TAD_UNLOCK_INPUT); [lia|].
  cbv zeta. rewrite Hkey.
  destruct (Z.leb_spec TAD_MAX_UNLOCK_ATTEMPTS (FailedUnlockAttempts g)); [|lia].
  destruct (Z.ltb_spec (KeQuerySystemTime k 0) (LockoutUntil g)); [lia|].
  cbn [andb FailedUnlockAttempts set_FailedUnlockAttempts].
  change (to_LONG (0 + 1)) with 1. change (TAD_MAX_UNLOCK_ATTEMPTS <=? 1) with false.
  eexists. repeat split; reflexivity.
Qed.

(** Five wrong secrets at time 100, then a sixth at time 400000000. *)
Lemma expired_lockout_restarts_count_witness :
  exists g5 g6,
    run_requests (repeat (kernel_of 5000 77 100,
                          request IOCTL_TAD_UNLOCK (repeat x00 32)) 5)
                 (DriverEntry 1 1) = Some g5
    /\ TadDispatchDeviceControl (kernel_of 5000 77 400000000)
         (request IOCTL_TAD_UNLOCK (repeat x00 32)) g5
       = complete STATUS_ACCESS_DENIED g6
    /\ FailedUnlockAttempts g6 = 1
    /\ LockoutUntil g6 = LockoutUntil g5
    /\ AllowUnload g6 = AllowUnload g5.
Proof.
  eexists.
  assert (R : run_requests (repeat (kernel_of 5000 77 100,
                                    request IOCTL_TAD_UNLOCK (repeat x00 32)) 5)
                (DriverEntry 1 1) = Some _) by (vm_compute; reflexivity).
  match type of R with
  | _ = Some ?g5 =>
      destruct (expired_lockout_restarts_count (kernel_of 5000 77 400000000)
                  (request IOCTL_TAD_UNLOCK (repeat x00 32)) g5) as (g6 & E)
  end.
  - split; [reflexivity|]. split; [vm_compute; discriminate|].
    exists (repeat x00 32). split; [reflexivity | vm_compute; reflexivity].
  - left. reflexivity.
  - vm_compute. discriminate.
  - vm_compute. discriminate.
  - exists g6. split; [exact R | exact E].
Defined.

(** ** Heartbeat and watchdog *)

Lemma sized_heartbeat_dec (irp : IRP) : {sized_heartbeat irp} + {~ sized_heartbeat irp}.
Proof.
  unfold sized_heartbeat.
  destruct (Z.eq_dec (IoControlCode irp) IOCTL_TAD_HEARTBEAT) as [E|E];
    [|right; tauto].
  destruct (Z_le_dec sizeof_TAD_HEARTBEAT_OUTPUT (OutputBufferLength irp)) as [L|L];
    [left | right]; tauto.
Qed.

(** What one completed request does to the liveness flag. *)
Lemma heartbeat_step k irp g s n out g' :
  TadDispatchDeviceControl k irp g = Completed s n out g' ->
  (sized_heartbeat irp /\ HeartbeatAlive g' = 1)
  \/ (~ sized_heartbeat irp /\ HeartbeatAlive g' = HeartbeatAlive g).
Proof.
  unfold sized_heartbeat.
  by_opcode k irp g; open_handler; intros H; inversion H; subst; clear H;
    try (right; split; [|reflexivity]; intros [C _];
         first [ rewrite Hop in C; vm_compute in C; discriminate C
               | apply Hop; rewrite C; cbn; tauto ]).
  - right. split; [|reflexivity]. intros [_ C].
    match goal with H : (_ <? _) = true |- _ => apply Z.ltb_lt in H end. lia.
  - left. split; [|reflexivity]. split; [exact Hop|].
    match goal with H : (_ <? _) = false |- _ => apply Z.ltb_ge in H end. lia.
Qed.

Lemma run_requests_liveness reqs g g' :
  run_requests reqs g = Some g' ->
  (HeartbeatAlive g = 1 \/ Exists (fun r => sized_heartbeat (snd r)) reqs ->
   HeartbeatAlive g' = 1)
  /\ (~ Exists (fun r => sized_heartbeat (snd r)) reqs ->
      HeartbeatAlive g' = HeartbeatAlive g).
Proof.
  revert g. induction reqs as [|[k irp] rest IH]; intros g R; cbn in R.
  - injection R as <-. split.
    + intros [A|E]; [exact A | inversion E].
    + reflexivity.
  - destruct (TadDispatchDeviceControl k irp g) as [s n out g1|] eqn:D; [|discriminate].
    destruct (IH g1 R) as [IH1 IH2].
    destruct (heartbeat_step k irp g s n out g1 D) as [[Sz A1]|[NSz Same]].
    + split.
      * intros _. apply IH1. left. exact A1.
      * intros N. exfalso. apply N. apply Exists_cons_hd. exact Sz.
    + split.
      * intros [A|E].
        -- apply IH1. left. rewrite Same. exact A.
        -- inversion E as [? ? Hd|? ? Tl]; subst; [contradiction|].
           apply IH1. right. exact Tl.
      * intros N. rewrite <- Same. apply IH2.
        intros E. apply N. apply Exists_cons_tl. exact E.
Qed.

(** X8.  Between two watchdog ticks, whatever requests are completed:
    the second tick finds the agent alive exactly when one of them was
    a Heartbeat request of sufficient declared size; otherwise it reports
    the loss. *)
Theorem watchdog_detects_missing_heartbeat :
  forall (g g' : TAD_DRIVER_GLOBALS) (reqs : list (KERNEL * IRP)),
    run_requests reqs (snd (TadHeartbeatDpcRoutine g)) = Some g' ->
    (fst (TadHeartbeatDpcRoutine g') = false
     <-> Exists (fun r => sized_heartbeat (snd r)) reqs)
    /\ HeartbeatAlive (snd (TadHeartbeatDpcRoutine g')) = 0.
Proof.
  intros g g' reqs R.
  destruct (run_requests_liveness reqs _ g' R) as [L1 L2].
  split; [|reflexivity].
  unfold TadHeartbeatDpcRoutine in *. cbn [fst snd] in *.
  cbn [HeartbeatAlive set_HeartbeatAlive] in L1, L2.
  destruct (Exists_dec (fun r => sized_heartbeat (snd r)) reqs
              (fun r => sized_heartbeat_dec (snd r))) as [E|E].
  - rewrite L1 by (right; exact E). split; [intros _; exact E | reflexivity].
  - rewrite L2 by exact E. split; [discriminate | intros E'; contradiction].
Qed.

(** A tick, a Heartbeat, then the next tick. *)
Lemma watchdog_detects_missing_heartbeat_witness :
  exists g',
    run_requests
      [(kernel_of 5000 77 0,
        {| IoControlCode := IOCTL_TAD_HEARTBEAT; InputBufferLength := 0;
           OutputBufferLength := 28; SystemBuffer := Some (repeat x00 28) |})]
      (snd (TadHeartbeatDpcRoutine (DriverEntry 1 1))) = Some g'
    /\ fst (TadHeartbeatDpcRoutine g') = false.
Proof.
  eexists. split; [vm_compute; reflexivity|].
  refine (proj2 (proj1 (watchdog_detects_missing_heartbeat (DriverEntry 1 1) _
            [(kernel_of 5000 77 0,
              {| IoControlCode := IOCTL_TAD_HEARTBEAT; InputBufferLength := 0;
                 OutputBufferLength := 28; SystemBuffer := Some (repeat x00 28) |})]
            _)) _).
  - vm_compute. reflexivity.
  - apply Exists_cons_hd. split; [reflexivity | vm_compute; discriminate].
Defined.

Lemma ULONG_at_range (buf : list byte) (off : nat) : 0 <= ULONG_at buf off < 2 ^ 32.
Proof.
  unfold ULONG_at.
  pose proof (u8_range (rd x00 buf off)).
  pose proof (u8_range (rd x00 buf (off + 1))).
  pose proof (u8_range (rd x00 buf (off + 2))).
  pose proof (u8_range (rd x00 buf (off + 3))).
  change (2 ^ 8) with 256. change (2 ^ 16) with 65536.
  change (2 ^ 24) with 16777216. change (2 ^ 32) with 4294967296. lia.
Qed.

(** A 32-bit value stored as LONG and read back as ULONG is itself. *)
Lemma to_ULONG_to_LONG (x : Z) : 0 <= x < 2 ^ 32 -> to_ULONG (to_LONG x) = x.
Proof.
  intros H. unfold to_ULONG, to_LONG.
  change (2 ^ 31) with 2147483648 in *. change (2 ^ 32) with 4294967296 in *.
  destruct (Z_lt_dec x 2147483648) as [S|S].
  - rewrite (Z.mod_small (x + 2147483648)) by lia.
    replace (x + 2147483648 - 2147483648) with x by lia. apply Z.mod_small. lia.
  - replace (x + 2147483648) with (x - 2147483648 + 1 * 4294967296) by lia.
    rewrite Z.mod_add by lia. rewrite (Z.mod_small (x - 2147483648)) by lia.
    replace (x - 2147483648 - 2147483648) with (x + (-1) * 4294967296) by lia.
    rewrite Z.mod_add by lia. apply Z.mod_small. lia.
Qed.

Lemma to_ULONG_small (x : Z) : 0 <= x < 2 ^ 32 -> to_ULONG x = x.
Proof. intros H. unfold to_ULONG. apply Z.mod_small. exact H. Qed.

(** What a completed Heartbeat of sufficient size returns. *)
Lemma heartbeat_snapshot k irp g b :
  sized_heartbeat irp ->
  SystemBuffer irp = Some b ->
  exists hb,
    heartbeat_of (TadDispatchDeviceControl k irp g) = Some hb
    /\ hb_CurrentUserRole hb = to_ULONG (CurrentUserRole g)
    /\ hb_ProtectedPid hb = to_ULONG (ProtectedPid g)
    /\ ProcessProtectionActive hb = negb (ObCallbackHandle g =? 0)
    /\ FileProtectionActive hb = negb (FilterHandle g =? 0)
    /\ UnlockPermitted hb = negb (AllowUnload g =? 0).
Proof.
  intros [Hc Hlen] Hbuf. rewrite dispatch_Heartbeat by exact Hc.
  unfold Ioctl_Heartbeat. rewrite Hbuf.
  destruct (Z.ltb_spec (OutputBufferLength irp) sizeof_TAD_HEARTBEAT_OUTPUT); [lia|].
  eexists. split; [reflexivity|]. repeat split; reflexivity.
Qed.

Lemma role_step k irp g s n out g' :
  TadDispatchDeviceControl k irp g = Completed s n out g' ->
  IoControlCode irp <> IOCTL_TAD_SET_USER_ROLE ->
  CurrentUserRole g' = CurrentUserRole g.
Proof.
  by_opcode k irp g; open_handler; intros H N; inversion H; subst; clear H;
    try reflexivity; contradiction.
Qed.

Lemma identity_step k irp g s n out g' :
  TadDispatchDeviceControl k irp g = Completed s n out g' ->
  IoControlCode irp <> IOCTL_TAD_PROTECT_PID ->
  ProtectedPid g' = ProtectedPid g /\ AgentProcess g' = AgentProcess g.
Proof.
  by_opcode k irp g; open_handler; intros H N; inversion H; subst; clear H;
    try (split; reflexivity); contradiction.
Qed.

Lemma run_requests_role reqs g g' :
  run_requests reqs g = Some g' ->
  Forall (fun r => IoControlCode (snd r) <> IOCTL_TAD_SET_USER_ROLE) reqs ->
  CurrentUserRole g' = CurrentUserRole g.
Proof.
  revert g. induction reqs as [|[k irp] rest IH]; intros g R F; cbn in R.
  - injection R as <-. reflexivity.
  - destruct (TadDispatchDeviceControl k irp g) as [s n out g1|] eqn:D; [|discriminate].
    inversion F as [|? ? Hd Tl]; subst.
    rewrite (IH g1 R Tl). exact (role_step k irp g s n out g1 D Hd).
Qed.

Lemma run_requests_identity reqs g g' :
  run_requests reqs g = Some g' ->
  Forall (fun r => IoControlCode (snd r) <> IOCTL_TAD_PROTECT_PID) reqs ->
  ProtectedPid g' = ProtectedPid g /\ AgentProcess g' = AgentProcess g.
Proof.
  revert g. induction reqs as [|[k irp] rest IH]; intros g R F; cbn in R.
  - injection R as <-. split; reflexivity.
  - destruct (TadDispatchDeviceControl k irp g) as [s n out g1|] eqn:D; [|discriminate].
    inversion F as [|? ? Hd Tl]; subst.
    destruct (IH g1 R Tl) as [P A].
    destruct (identity_step k irp g s n out g1 D Hd) as [P1 A1].
    split; congruence.
Qed.

(** X9.  The role a Heartbeat reports is the role of the last accepted
    SetUserRole request, for every 32-bit role value (the value passes
    through a signed field and comes back unchanged), whatever other
    requests were completed in between. *)
Theorem heartbeat_reports_last_role :
  forall (k k' : KERNEL) (irp irp' : IRP) (g g1 g2 : TAD_DRIVER_GLOBALS)
         (p b : list byte) (mid : list (KERNEL * IRP)),
    IoControlCode irp = IOCTL_TAD_SET_USER_ROLE ->
    SystemBuffer irp = Some p ->
    TadDispatchDeviceControl k irp g = complete STATUS_SUCCESS g1 ->
    run_requests mid g1 = Some g2 ->
    Forall (fun r => IoControlCode (snd r) <> IOCTL_TAD_SET_USER_ROLE) mid ->
    sized_heartbeat irp' ->
    SystemBuffer irp' = Some b ->
    exists hb,
      heartbeat_of (TadDispatchDeviceControl k' irp' g2) = Some hb
      /\ hb_CurrentUserRole hb = SET_USER_ROLE_Role p.
Proof.
  intros k k' irp irp' g g1 g2 p b mid Hc Hbuf D R F Hhb Hb.
  destruct (heartbeat_snapshot k' irp' g2 b Hhb Hb) as (hb & E & Hrole & _).
  exists hb. split; [exact E|]. rewrite Hrole, (run_requests_role mid g1 g2 R F).
  rewrite dispatch_SetUserRole in D by exact Hc. unfold Ioctl_SetUserRole in D.
  rewrite Hbuf in D. revert D. unfold complete. repeat branch;
    intros D; inversion D; subst; clear D.
  cbn [CurrentUserRole set_CurrentUserRole].
  apply to_ULONG_to_LONG. apply ULONG_at_range.
Qed.

(** The agent pushes role 0xFFFFFFFF, then a policy; then a Heartbeat. *)
Lemma heartbeat_reports_last_role_witness :
  exists hb,
    heartbeat_of
      (TadDispatchDeviceControl (kernel_of 5000 77 0)
         {| IoControlCode := IOCTL_TAD_HEARTBEAT; InputBufferLength := 0;
            OutputBufferLength := 28; SystemBuffer := Some (repeat x00 28) |}
         (set_PolicyValid 1
            (set_CurrentPolicy (as_POLICY_BUFFER (mk_POLICY_BUFFER 1 0))
               (set_CurrentUserRole (to_LONG 0xFFFFFFFF) agent_registered))))
    = Some hb
    /\ hb_CurrentUserRole hb
       = SET_USER_ROLE_Role (field 144 (bytes_of_ULONG 0xFFFFFFFF)).
Proof.
  apply (heartbeat_reports_last_role (kernel_of 5321 4321 0) (kernel_of 5000 77 0)
           (request IOCTL_TAD_SET_USER_ROLE (field 144 (bytes_of_ULONG 0xFFFFFFFF)))
           {| IoControlCode := IOCTL_TAD_HEARTBEAT; InputBufferLength := 0;
              OutputBufferLength := 28; SystemBuffer := Some (repeat x00 28) |}
           agent_registered
           (set_CurrentUserRole (to_LONG 0xFFFFFFFF) agent_registered)
           (set_PolicyValid 1
              (set_CurrentPolicy (as_POLICY_BUFFER (mk_POLICY_BUFFER 1 0))
                 (set_CurrentUserRole (to_LONG 0xFFFFFFFF) agent_registered)))
           (field 144 (bytes_of_ULONG 0xFFFFFFFF)) (repeat x00 28)
           [(kernel_of 5321 4321 0,
             request IOCTL_TAD_SET_POLICY (mk_POLICY_BUFFER 1 0))]).
  - reflexivity.
  - reflexivity.
  - vm_compute. reflexivity.
  - vm_compute. reflexivity.
  - apply Forall_cons; [vm_compute; discriminate | apply Forall_nil].
  - split; [reflexivity | vm_compute; discriminate].
  - reflexivity.
Defined.

(** ** Handle interception, on its own and after registration *)

Lemma strip_rights_submask (rights a : Z) : submask (strip_rights rights a) a.
Proof.
  unfold submask, strip_rights.
  rewrite (Z.land_comm a (to_ULONG (Z.lnot rights))), <- Z.land_assoc, Z.land_diag.
  reflexivity.
Qed.

Lemma strip_rights_idempotent (rights a : Z) :
  strip_rights rights (strip_rights rights a) = strip_rights rights a.
Proof.
  unfold strip_rights. rewrite <- Z.land_assoc, Z.land_diag. reflexivity.
Qed.

Lemma ObPreCallback_result expected rights k g op :
  snd (ObPreCallback expected rights k g op) = op
  \/ snd (ObPreCallback expected rights k g op)
     = set_DesiredAccess (strip_rights rights (DesiredAccess op)) op.
Proof.
  unfold ObPreCallback.
  repeat match goal with
         | |- context [if ?c then _ else _] => destruct c
         end; cbn [snd]; auto.
Qed.

Lemma ObPreCallback_idempotent expected rights k g op :
  snd (ObPreCallback expected rights k g (snd (ObPreCallback expected rights k g op)))
  = snd (ObPreCallback expected rights k g op).
Proof.
  destruct (ObPreCallback_result expected rights k g op) as [E|E]; rewrite E.
  - exact E.
  - destruct (ObPreCallback_result expected rights k g
                (set_DesiredAccess (strip_rights rights (DesiredAccess op)) op))
      as [E'|E']; rewrite E'; [reflexivity|].
    unfold set_DesiredAccess. cbn [Operation ObjectType ObjectProcessId DesiredAccess].
    rewrite strip_rights_idempotent. reflexivity.
Qed.

(** X10.  Neither handle callback ever adds a right or touches anything
    but the access mask: the mask it leaves is a sub-mask of the
    requested one, the operation, the object type and the target are as
    they were, and running the callback again on its own result changes
    nothing. *)
Theorem handle_callbacks_only_remove_rights :
  forall (k : KERNEL) (g : TAD_DRIVER_GLOBALS) (op : OB_PRE_OPERATION_INFORMATION),
    let after_process := snd (TadObProcessPreCallback k g op) in
    let after_thread := snd (TadObThreadPreCallback k g op) in
    (submask (DesiredAccess after_process) (DesiredAccess op)
     /\ Operation after_process = Operation op
     /\ ObjectType after_process = ObjectType op
     /\ ObjectProcessId after_process = ObjectProcessId op
     /\ snd (TadObProcessPreCallback k g after_process) = after_process)
    /\ (submask (DesiredAccess after_thread) (DesiredAccess op)
        /\ Operation after_thread = Operation op
        /\ ObjectType after_thread = ObjectType op
        /\ ObjectProcessId after_thread = ObjectProcessId op
        /\ snd (TadObThreadPreCallback k g after_thread) = after_thread).
Proof.
  intros k g op. cbv zeta. unfold TadObProcessPreCallback, TadObThreadPreCallback.
  split.
  - split; [|split; [|split; [|split]]];
      try apply ObPreCallback_idempotent;
      destruct (ObPreCallback_result PsProcessType TAD_STRIPPED_PROCESS_RIGHTS k g op)
        as [E|E]; rewrite E; try reflexivity.
    + apply Z.land_diag.
    + apply strip_rights_submask.
  - split; [|split; [|split; [|split]]];
      try apply ObPreCallback_idempotent;
      destruct (ObPreCallback_result PsThreadType TAD_STRIPPED_THREAD_RIGHTS k g op)
        as [E|E]; rewrite E; try reflexivity.
    + apply Z.land_diag.
    + apply strip_rights_submask.
Qed.

Lemma ProtectPid_accepted k irp g p proc :
  IoControlCode irp = IOCTL_TAD_PROTECT_PID ->
  sizeof_TAD_PROTECT_PID_INPUT <= InputBufferLength irp ->
  SystemBuffer irp = Some p ->
  PROTECT_PID_TargetPid p <> 0 ->
  PROTECT_PID_Flags p = 0 ->
  PsLookupProcessByProcessId k (PROTECT_PID_TargetPid p) = Some proc ->
  TadDispatchDeviceControl k irp g
  = complete STATUS_SUCCESS
      (set_ProtectedPid (PROTECT_PID_TargetPid p) (set_AgentProcess proc g)).
Proof.
  intros Hc Hlen Hbuf Hpid Hflags Hlook.
  rewrite dispatch_ProtectPid by exact Hc. unfold Ioctl_ProtectPid.
  rewrite Hbuf, Hflags, Hlook.
  destruct (Z.ltb_spec (InputBufferLength irp) sizeof_TAD_PROTECT_PID_INPUT); [lia|].
  destruct (Z.eqb_spec (PROTECT_PID_TargetPid p) 0); [contradiction|].
  reflexivity.
Qed.

(** X11.  A well-formed ProtectPid request whose target can be looked
    up is accepted from any caller, whether or not an agent is already
    registered.  From then on the target is the protected identifier and
    its process object the agent: a handle to it requested by a process
    that is neither it nor the overlay loses the stripped rights, the
    target itself keeps what it asks for, the agent check holds exactly
    for the looked-up process, and the identifier registered before is
    no longer protected. *)
Theorem ProtectPid_replaces_the_protected_identity :
  forall (k : KERNEL) (irp : IRP) (g : TAD_DRIVER_GLOBALS) (p : list byte)
         (proc : PEPROCESS),
    IoControlCode irp = IOCTL_TAD_PROTECT_PID ->
    sizeof_TAD_PROTECT_PID_INPUT <= InputBufferLength irp ->
    SystemBuffer irp = Some p ->
    PROTECT_PID_TargetPid p <> 0 ->
    PROTECT_PID_Flags p = 0 ->
    PsLookupProcessByProcessId k (PROTECT_PID_TargetPid p) = Some proc ->
    proc <> 0 ->
    exists g',
      TadDispatchDeviceControl k irp g = complete STATUS_SUCCESS g'
      /\ ProtectedPid g' = PROTECT_PID_TargetPid p
      /\ AgentProcess g' = proc
      /\ (forall k', TadIsCallerProtectedAgent k' g' = true
                     <-> PsGetCurrentProcess k' = proc)
      /\ (forall k' op,
            ObjectProcessId op = PROTECT_PID_TargetPid p ->
            PsGetCurrentProcessId k' <> PROTECT_PID_TargetPid p ->
            PsGetCurrentProcessId k' <> ProtectedUiPid g ->
            Operation op = OB_OPERATION_HANDLE_CREATE
            \/ Operation op = OB_OPERATION_HANDLE_DUPLICATE ->
            (ObjectType op = PsProcessType ->
             DesiredAccess (snd (TadObProcessPreCallback k' g' op))
             = strip_rights TAD_STRIPPED_PROCESS_RIGHTS (DesiredAccess op))
            /\ (ObjectType op = PsThreadType ->
                DesiredAccess (snd (TadObThreadPreCallback k' g' op))
                = strip_rights TAD_STRIPPED_THREAD_RIGHTS (DesiredAccess op)))
      /\ (forall k' op,
            PsGetCurrentProcessId k' = PROTECT_PID_TargetPid p ->
            snd (TadObProcessPreCallback k' g' op) = op
            /\ snd (TadObThreadPreCallback k' g' op) = op)
      /\ (forall k' op,
            ObjectProcessId op = ProtectedPid g ->
            ProtectedPid g <> PROTECT_PID_TargetPid p ->
            ProtectedPid g <> ProtectedUiPid g ->
            snd (TadObProcessPreCallback k' g' op) = op
            /\ snd (TadObThreadPreCallback k' g' op) = op).
Proof.
  intros k irp g p proc Hc Hlen Hbuf Hpid Hflags Hlook Hproc.
  eexists. split; [apply (ProtectPid_accepted k irp g p proc); assumption|].
  cbn [ProtectedPid AgentProcess ProtectedUiPid set_ProtectedPid set_AgentProcess].
  split; [reflexivity|]. split; [reflexivity|].
  split; [|split; [|split]].
  - intros k'. rewrite caller_is_agent_iff.
    cbn [AgentProcess set_ProtectedPid set_AgentProcess]. tauto.
  - intros k' op Ht Hc1 Hc2 Hop.
    unfold TadObProcessPreCallback, TadObThreadPreCallback. split; intros Hty;
      rewrite ObPreCallback_strips; try reflexivity; try assumption;
      cbn [ProtectedPid ProtectedUiPid set_ProtectedPid set_AgentProcess]; auto.
  - intros k' op Hcaller.
    unfold TadObProcessPreCallback, TadObThreadPreCallback.
    split; apply ObPreCallback_unchanged; left; left;
      cbn [ProtectedPid set_ProtectedPid set_AgentProcess]; exact Hcaller.
  - intros k' op Ht Hn1 Hn2.
    unfold TadObProcessPreCallback, TadObThreadPreCallback.
    split; apply ObPreCallback_unchanged; right; left;
      cbn [ProtectedPid ProtectedUiPid set_ProtectedPid set_AgentProcess];
      rewrite Ht; split; assumption.
Qed.

(** Process 77 registers itself although process 4321 is the agent;
    process 88 then asks for all access to it. *)
Lemma ProtectPid_replaces_the_protected_identity_witness :
  exists g',
    TadDispatchDeviceControl (kernel_of 1077 77 0)
      (request IOCTL_TAD_PROTECT_PID (mk_PROTECT_PID_INPUT 77 0)) agent_registered
    = complete STATUS_SUCCESS g'
    /\ TadIsCallerProtectedAgent (kernel_of 1077 77 0) g' = true
    /\ DesiredAccess
         (snd (TadObProcessPreCallback (kernel_of 1088 88 0) g'
                 {| Operation := OB_OPERATION_HANDLE_CREATE;
                    ObjectType := PsProcessType;
                    ObjectProcessId := 77;
                    DesiredAccess := 0x1FFFFF |}))
       = 0x1FF7D4.
Proof.
  destruct (ProtectPid_replaces_the_protected_identity (kernel_of 1077 77 0)
              (request IOCTL_TAD_PROTECT_PID (mk_PROTECT_PID_INPUT 77 0))
              agent_registered (mk_PROTECT_PID_INPUT 77 0) 1077)
    as (g' & E & _ & _ & Hagent & Hstrip & _).
  - reflexivity.
  - vm_compute. discriminate.
  - reflexivity.
  - vm_compute. discriminate.
  - vm_compute. reflexivity.
  - vm_compute. reflexivity.
  - discriminate.
  - exists g'. split; [exact E|]. split; [apply Hagent; reflexivity|].
    refine (proj1 (Hstrip (kernel_of 1088 88 0)
                     {| Operation := OB_OPERATION_HANDLE_CREATE;
                        ObjectType := PsProcessType;
                        ObjectProcessId := 77;
                        DesiredAccess := 0x1FFFFF |} _ _ _ _) eq_refl).
    + vm_compute. reflexivity.
    + vm_compute. discriminate.
    + vm_compute. discriminate.
    + left. reflexivity.
Defined.

(** X12.  A ProtectUi request of sufficient size from the registered
    agent sets the overlay identifier to its target when [Protect] is
    non-zero and clears it when [Protect] is zero, whatever the target
    then says; the service identifier stays.  While set, a handle to the
    overlay (or to one of its threads) requested by a third process
    loses the stripped rights; once cleared, a target other than the
    service and other than identifier 0 is left alone. *)
Theorem ProtectUi_sets_and_clears_the_overlay :
  forall (k : KERNEL) (irp : IRP) (g : TAD_DRIVER_GLOBALS) (p : list byte),
    IoControlCode irp = IOCTL_TAD_PROTECT_UI ->
    sizeof_TAD_PROTECT_UI_INPUT <= InputBufferLength irp ->
    SystemBuffer irp = Some p ->
    TadIsCallerProtectedAgent k g = true ->
    exists g',
      TadDispatchDeviceControl k irp g = complete STATUS_SUCCESS g'
      /\ ProtectedPid g' = ProtectedPid g
      /\ ProtectedUiPid g'
         = (if PROTECT_UI_Protect p =? 0 then 0 else PROTECT_UI_TargetPid p)
      /\ (PROTECT_UI_Protect p <> 0 ->
          PROTECT_UI_TargetPid p <> 0 ->
          forall k' op,
            ObjectProcessId op = PROTECT_UI_TargetPid p ->
            PsGetCurrentProcessId k' <> PROTECT_UI_TargetPid p ->
            PsGetCurrentProcessId k' <> ProtectedPid g ->
            Operation op = OB_OPERATION_HANDLE_CREATE
            \/ Operation op = OB_OPERATION_HANDLE_DUPLICATE ->
            (ObjectType op = PsProcessType ->
             DesiredAccess (snd (TadObProcessPreCallback k' g' op))
             = strip_rights TAD_STRIPPED_PROCESS_RIGHTS (DesiredAccess op))
            /\ (ObjectType op = PsThreadType ->
                DesiredAccess (snd (TadObThreadPreCallback k' g' op))
                = strip_rights TAD_STRIPPED_THREAD_RIGHTS (DesiredAccess op)))
      /\ (PROTECT_UI_Protect p = 0 ->
          forall k' op,
            ObjectProcessId op <> ProtectedPid g ->
            ObjectProcessId op <> 0 ->
            snd (TadObProcessPreCallback k' g' op) = op
            /\ snd (TadObThreadPreCallback k' g' op) = op).
Proof.
  intros k irp g p Hc Hlen Hbuf Hagent.
  rewrite dispatch_ProtectUi by exact Hc. unfold Ioctl_ProtectUi.
  rewrite Hbuf, Hagent. cbn [negb].
  destruct (Z.ltb_spec (InputBufferLength irp) sizeof_TAD_PROTECT_UI_INPUT); [lia|].
  destruct (Z.eqb_spec (PROTECT_UI_Protect p) 0) as [P0|P1]; cbn [negb];
    (eexists; split; [reflexivity|]);
    cbn [ProtectedPid ProtectedUiPid set_ProtectedUiPid];
    (split; [reflexivity|]); (split; [reflexivity|]); split.
  - intros C. contradiction.
  - intros _ k' op Ht1 Ht2.
    unfold TadObProcessPreCallback, TadObThreadPreCallback.
    split; apply ObPreCallback_unchanged; right; left;
      cbn [ProtectedPid ProtectedUiPid set_ProtectedUiPid]; split; assumption.
  - intros _ Hpid k' op Ht Hc1 Hc2 Hop.
    unfold TadObProcessPreCallback, TadObThreadPreCallback. split; intros Hty;
      rewrite ObPreCallback_strips; try reflexivity; try assumption;
      cbn [ProtectedPid ProtectedUiPid set_ProtectedUiPid]; auto.
  - intros C. contradiction.
Qed.

(** The agent protects overlay 88; process 99 asks for all access to a
    thread of the overlay. *)
Lemma ProtectUi_sets_and_clears_the_overlay_witness :
  exists g',
    TadDispatchDeviceControl (kernel_of 5321 4321 0)
      (request IOCTL_TAD_PROTECT_UI (mk_PROTECT_UI_INPUT 88 1)) agent_registered
    = complete STATUS_SUCCESS g'
    /\ ProtectedUiPid g' = 88
    /\ DesiredAccess
         (snd (TadObThreadPreCallback (kernel_of 1099 99 0) g'
                 {| Operation := OB_OPERATION_HANDLE_DUPLICATE;
                    ObjectType := PsThreadType;
                    ObjectProcessId := 88;
                    DesiredAccess := 0x1FFFFF |}))
       = 0x1FFFEC.
Proof.
  destruct (ProtectUi_sets_and_clears_the_overlay (kernel_of 5321 4321 0)
              (request IOCTL_TAD_PROTECT_UI (mk_PROTECT_UI_INPUT 88 1))
              agent_registered (mk_PROTECT_UI_INPUT 88 1))
    as (g' & E & _ & Hui & Hstrip & _).
  - reflexivity.
  - vm_compute. discriminate.
  - reflexivity.
  - vm_compute. reflexivity.
  - exists g'. split; [exact E|]. split; [rewrite Hui; vm_compute; reflexivity|].
    refine (proj2 (Hstrip _ _ (kernel_of 1099 99 0)
                     {| Operation := OB_OPERATION_HANDLE_DUPLICATE;
                        ObjectType := PsThreadType;
                        ObjectProcessId := 88;
                        DesiredAccess := 0x1FFFFF |} _ _ _ _) eq_refl).
    + vm_compute. discriminate.
    + vm_compute. discriminate.
    + vm_compute. reflexivity.
    + vm_compute. discriminate.
    + vm_compute. discriminate.
    + right. reflexivity.
Defined.

(** ** The two name tests *)

Lemma RtlCompareUnicodeString_zero_length up (s1 s2 : UNICODE_STRING) :
  RtlCompareUnicodeString up s1 s2 = 0 -> Length s1 = Length s2.
Proof.
  unfold RtlCompareUnicodeString.
  destruct (Z.eqb_spec (compare_units up (chars s1) (chars s2)) 0) as [E|E];
    intros H; [lia | contradiction].
Qed.

Lemma TadIsProtectedFilename_length up (fc : UNICODE_STRING) :
  TadIsProtectedFilename up fc = true -> Length fc = 20 \/ Length fc = 40.
Proof.
  unfold TadIsProtectedFilename.
  destruct (Z.eqb_spec (RtlCompareUnicodeString up fc
                          (RtlInitUnicodeString TAD_DRIVER_FILENAME)) 0) as [E1|_].
  { intros _. left. apply RtlCompareUnicodeString_zero_length in E1. exact E1. }
  destruct (Z.eqb_spec (RtlCompareUnicodeString up fc
                          (RtlInitUnicodeString TAD_UI_FILENAME)) 0) as [E2|_].
  { intros _. left. apply RtlCompareUnicodeString_zero_length in E2. exact E2. }
  destruct (Z.eqb_spec (RtlCompareUnicodeString up fc
                          (RtlInitUnicodeString TAD_SERVICE_FILENAME)) 0) as [E3|_].
  { intros _. right. apply RtlCompareUnicodeString_zero_length in E3. exact E3. }
  discriminate.
Qed.

(** X13.  Whatever the request, the filesystem intercept does one of
    two things: it lets the request pass with its data untouched, or it
    completes it with the status access-denied and zero bytes in the
    I/O status block, leaving class, buffer and name as they were.  It
    completes a request only when the operation is a recognized delete
    or rename, the target's name resolved and parsed, and the final
    component is 10 or 20 code units long: a failure to resolve the
    name always lets the request pass. *)
Theorem file_intercept_passes_or_denies :
  forall (NlsUpcase : WCHAR -> WCHAR) (Data : FLT_CALLBACK_DATA),
    let r := TadPreSetInformationCallback NlsUpcase Data in
    ((fst r = FLT_PREOP_SUCCESS_NO_CALLBACK /\ snd r = Data)
     \/ (fst r = FLT_PREOP_COMPLETE
         /\ IoStatus_Status (snd r) = STATUS_ACCESS_DENIED
         /\ IoStatus_Information (snd r) = 0
         /\ FileInformationClass (snd r) = FileInformationClass Data
         /\ InfoBuffer (snd r) = InfoBuffer Data
         /\ FltGetFileNameInformation (snd r) = FltGetFileNameInformation Data))
    /\ (fst r <> FLT_PREOP_SUCCESS_NO_CALLBACK ->
        recognized_operation Data = true
        /\ exists fc, target_final_component Data = Some fc
                      /\ (Length fc = 20 \/ Length fc = 40)).
Proof.
  intros up Data. cbv zeta.
  destruct (recognized_operation Data) eqn:R.
  - rewrite (TadPreSetInformationCallback_recognized up Data R).
    destruct (target_final_component Data) as [fc|].
    + destruct (TadIsProtectedFilename up fc) eqn:P.
      * split; [right; repeat split; reflexivity|]. intros _. split; [reflexivity|].
        exists fc. split; [reflexivity|].
        apply (TadIsProtectedFilename_length up). exact P.
      * split; [left; split; reflexivity|]. intros C. exfalso. apply C. reflexivity.
    + split; [left; split; reflexivity|]. intros C. exfalso. apply C. reflexivity.
  - rewrite (TadPreSetInformationCallback_not_recognized up Data R).
    split; [left; split; reflexivity|]. intros C. exfalso. apply C. reflexivity.
Qed.

Lemma up_swap_ascii_case up (c : WCHAR) :
  RtlUpcaseUnicodeChar up (swap_ascii_case c) = RtlUpcaseUnicodeChar up c.
Proof.
  unfold swap_ascii_case, RtlUpcaseUnicodeChar.
  destruct (Z.leb_spec 65 c), (Z.leb_spec c 90); cbn [andb];
    destruct (Z.leb_spec 97 c), (Z.leb_spec c 122); cbn [andb];
    repeat match goal with
           | |- context [?a <? ?b] => destruct (Z.ltb_spec a b)
           | |- context [?a <=? ?b] => destruct (Z.leb_spec a b)
           end; lia.
Qed.

Lemma up_case_variant up (c c' : WCHAR) :
  case_variant c c' -> RtlUpcaseUnicodeChar up c' = RtlUpcaseUnicodeChar up c.
Proof.
  intros [->| ->]; [reflexivity | apply up_swap_ascii_case].
Qed.

Lemma separator_case_variant (c c' : WCHAR) :
  case_variant c c' -> (c' =? 92) = (c =? 92).
Proof.
  intros [->| ->]; [reflexivity|]. unfold swap_ascii_case.
  destruct (Z.leb_spec 65 c), (Z.leb_spec c 90); cbn [andb];
    destruct (Z.leb_spec 97 c), (Z.leb_spec c 122); cbn [andb];
    repeat match goal with
           | |- context [?a =? ?b] => destruct (Z.eqb_spec a b)
           end; try reflexivity; lia.
Qed.

Lemma compare_units_case_variant up (l l' t : list WCHAR) :
  Forall2 case_variant l l' -> compare_units up l' t = compare_units up l t.
Proof.
  intros H. revert t. induction H as [|c c' l l' Hc _ IH]; intros t; [reflexivity|].
  destruct t as [|d t]; [reflexivity|]. cbn [compare_units].
  rewrite (up_case_variant up c c' Hc), IH. reflexivity.
Qed.

Lemma equal_units_case_variant up (l l' t : list WCHAR) :
  Forall2 case_variant l l' -> equal_units up l' t = equal_units up l t.
Proof.
  intros H. revert t. induction H as [|c c' l l' Hc _ IH]; intros t; [reflexivity|].
  destruct t as [|d t]; [reflexivity|]. cbn [equal_units].
  rewrite (up_case_variant up c c' Hc), IH. reflexivity.
Qed.

Lemma TadIsProtectedFilename_case_variant up (s s' : UNICODE_STRING) :
  same_up_to_ascii_case s s' ->
  TadIsProtectedFilename up s' = TadIsProtectedFilename up s.
Proof.
  intros [HL HF]. unfold TadIsProtectedFilename, RtlCompareUnicodeString.
  rewrite HL, !(compare_units_case_variant up (chars s) (chars s') _ HF).
  reflexivity.
Qed.

Lemma RtlEqualUnicodeString_case_variant up (s s' e : UNICODE_STRING) :
  same_up_to_ascii_case s s' ->
  RtlEqualUnicodeString up s' e = RtlEqualUnicodeString up s e.
Proof.
  intros [HL HF]. unfold RtlEqualUnicodeString.
  rewrite HL, (equal_units_case_variant up (chars s) (chars s') _ HF).
  reflexivity.
Qed.

(** X14.  The verdict of the filesystem intercept does not depend on
    the ASCII case of the target's final component, whatever the
    upper-casing table of the system says about other code units: two
    requests that differ only in that, the components having the same
    length and the same code units up to the case of [A-Z] and [a-z],
    are both passed or both completed with access-denied. *)
Theorem file_intercept_ignores_ascii_case :
  forall (NlsUpcase : WCHAR -> WCHAR) (Data : FLT_CALLBACK_DATA)
         (fc fc' : UNICODE_STRING),
    same_up_to_ascii_case fc fc' ->
    fst (TadPreSetInformationCallback NlsUpcase (with_final_component fc' Data))
    = fst (TadPreSetInformationCallback NlsUpcase (with_final_component fc Data))
    /\ IoStatus_Status
         (snd (TadPreSetInformationCallback NlsUpcase (with_final_component fc' Data)))
       = IoStatus_Status
           (snd (TadPreSetInformationCallback NlsUpcase (with_final_component fc Data))).
Proof.
  intros up Data fc fc' H.
  pose proof (TadIsProtectedFilename_case_variant up fc fc' H) as E.
  unfold TadPreSetInformationCallback, with_final_component, classify_set_information.
  cbn [FileInformationClass InfoBuffer FltGetFileNameInformation].
  destruct (FileInformationClass Data =? FileDispositionInformation).
  - destruct (InfoBuffer Data) as [d|]; [destruct (DISPOSITION_DeleteFile d)|];
      cbn [negb andb]; try (split; reflexivity).
    destruct (FltGetFileNameInformation Data) as [info|]; [|split; reflexivity].
    cbn [ParseSucceeds FinalComponent].
    destruct (ParseSucceeds info); cbn [negb]; [|split; reflexivity].
    rewrite E. destruct (TadIsProtectedFilename up fc); split; reflexivity.
  - destruct (FileInformationClass Data =? FileDispositionInformationEx).
    + cbn [negb andb].
      destruct (FltGetFileNameInformation Data) as [info|]; [|split; reflexivity].
      cbn [ParseSucceeds FinalComponent].
      destruct (ParseSucceeds info); cbn [negb]; [|split; reflexivity].
      rewrite E. destruct (TadIsProtectedFilename up fc); split; reflexivity.
    + destruct ((FileInformationClass Data =? FileRenameInformation)
                || (FileInformationClass Data =? FileRenameInformationEx));
        [|split; reflexivity].
      cbn [negb andb].
      destruct (FltGetFileNameInformation Data) as [info|]; [|split; reflexivity].
      cbn [ParseSucceeds FinalComponent].
      destruct (ParseSucceeds info); cbn [negb]; [|split; reflexivity].
      rewrite E. destruct (TadIsProtectedFilename up fc); split; reflexivity.
Qed.

(** A rename of [tAd.rV.SyS] is denied as one of [TAD.RV.sys] is. *)
Lemma file_intercept_ignores_ascii_case_witness :
  same_up_to_ascii_case (ustr (L "TAD.RV.sys")) (ustr (L "tAd.rV.SyS"))
  /\ fst (TadPreSetInformationCallback (fun c => c)
            (set_information_on FileRenameInformation None (L "tAd.rV.SyS")))
     = FLT_PREOP_COMPLETE.
Proof.
  assert (V : same_up_to_ascii_case (ustr (L "TAD.RV.sys")) (ustr (L "tAd.rV.SyS"))).
  { split; [reflexivity|]. vm_compute.
    repeat (constructor; [first [left; reflexivity | right; reflexivity]|]).
    constructor. }
  split; [exact V|].
  exact (eq_trans
           (proj1 (file_intercept_ignores_ascii_case (fun c => c)
                     (set_information_on FileRenameInformation None [])
                     (ustr (L "TAD.RV.sys")) (ustr (L "tAd.rV.SyS")) V))
           eq_refl).
Defined.

Lemma Forall2_rd (l l' : list WCHAR) (i : nat) :
  Forall2 case_variant l l' -> case_variant (rd 0 l i) (rd 0 l' i).
Proof.
  intros H. revert i. unfold rd.
  induction H as [|c c' l l' Hc _ IH]; intros i.
  - destruct i; left; reflexivity.
  - destruct i as [|i]; [exact Hc | apply IH].
Qed.

Lemma last_separator_case_variant n k (b b' : list WCHAR) lastSep :
  Forall2 case_variant b b' ->
  last_separator n k b' lastSep = last_separator n k b lastSep.
Proof.
  intros H. revert k lastSep. induction n as [|n IH]; intros k lastSep; [reflexivity|].
  cbn [last_separator].
  rewrite (separator_case_variant _ _ (Forall2_rd b b' k H)). apply IH.
Qed.

Lemma image_component_case_variant (name name' : UNICODE_STRING) (b b' : list WCHAR) :
  Length name' = Length name ->
  Forall2 case_variant b b' ->
  same_up_to_ascii_case (image_component name b) (image_component name' b').
Proof.
  intros HL HF. unfold same_up_to_ascii_case, image_component.
  rewrite HL, (last_separator_case_variant _ _ b b' _ HF).
  cbn [Length]. split; [reflexivity|].
  unfold chars. cbn [Buffer Length].
  set (s := last_separator (Z.to_nat (Length name / 2)) 0 b 0).
  generalize (seq 0 (Z.to_nat (to_USHORT (Length name - Z.of_nat s * 2) / 2))).
  intros idx. induction idx as [|i idx IH]; cbn [map]; constructor; [|exact IH].
  rewrite !rd_skipn. apply Forall2_rd. exact HF.
Qed.

Lemma banned_match_loop_case_variant up n i (c c' : UNICODE_STRING) apps :
  same_up_to_ascii_case c c' ->
  banned_match_loop up n i c' apps = banned_match_loop up n i c apps.
Proof.
  intros H. revert i. induction n as [|n IH]; intros i; [reflexivity|].
  cbn [banned_match_loop].
  rewrite (RtlEqualUnicodeString_case_variant up c c' _ H), IH. reflexivity.
Qed.

(** X15.  The verdict of the launch intercept does not depend on the
    ASCII case of the image path, in any state and whatever the
    upper-casing table of the system says about other code units: of two
    creations whose paths have the same code units up to the case of
    [A-Z] and [a-z], both are denied or neither is. *)
Theorem launch_intercept_ignores_ascii_case :
  forall (NlsUpcase : WCHAR -> WCHAR) (g : TAD_DRIVER_GLOBALS)
         (path path' : list WCHAR),
    Forall2 case_variant path path' ->
    option_map CreationStatus (TadProcessNotifyCallback NlsUpcase g (launch path'))
    = option_map CreationStatus (TadProcessNotifyCallback NlsUpcase g (launch path)).
Proof.
  intros up g path path' HF.
  assert (HL : Length (ustr path') = Length (ustr path)).
  { unfold ustr. cbn [Length]. rewrite (Forall2_length HF). reflexivity. }
  pose proof (image_component_case_variant (ustr path) (ustr path') path path' HL HF)
    as HC.
  unfold TadProcessNotifyCallback, launch.
  cbn [ImageFileName]. cbn [Buffer ustr].
  change (2 * Z.of_nat (length path')) with (Length (ustr path')).
  change (2 * Z.of_nat (length path)) with (Length (ustr path)).
  rewrite HL.
  destruct (Length (ustr path) =? 0); [reflexivity|].
  destruct (Z.land (Flags (CurrentPolicy g)) TAD_POLICY_FLAG_BLOCK_APPS =? 0);
    [reflexivity|].
  cbv zeta.
  change {| Length := Length (ustr path); MaximumLength := 2 * Z.of_nat (length path');
            Buffer := Some path' |}
    with (ustr path') in *.
  rewrite (proj1 HC).
  destruct (Length (image_component (ustr path) path) =? 0); [reflexivity|].
  rewrite (banned_match_loop_case_variant up _ _ _ _ _ HC).
  destruct (banned_match_loop up (Z.to_nat (BannedAppCount (Banned g))) 0
              (image_component (ustr path) path) (BannedApps (Banned g)));
    reflexivity.
Qed.

(** With [{"a.exe", "b.exe"}] in force, [\Apps\B.Exe] is denied as
    [\Apps\b.exe] is. *)
Lemma launch_intercept_ignores_ascii_case_witness :
  Forall2 case_variant (L "\Apps\b.exe") (L "\Apps\B.Exe")
  /\ option_map CreationStatus
       (TadProcessNotifyCallback (fun c => c) banning_a_b (launch (L "\Apps\B.Exe")))
     = Some STATUS_ACCESS_DENIED.
Proof.
  assert (V : Forall2 case_variant (L "\Apps\b.exe") (L "\Apps\B.Exe")).
  { vm_compute.
    repeat (constructor; [first [left; reflexivity | right; reflexivity]|]).
    constructor. }
  split; [exact V|].
  refine (eq_trans
            (launch_intercept_ignores_ascii_case (fun c => c) banning_a_b
               (L "\Apps\b.exe") (L "\Apps\B.Exe") V) _).
  vm_compute. reflexivity.
Defined.

(** ** Load and unload *)

Ltac run_sys :=
  unfold Sys.bind, Sys.ret, Sys.when, Sys.host, Sys.driver, Sys.globals, Sys.read;
  cbn [fst snd].

Lemma HOST_eta (h : HOST) :
  h = {| Device := Device h; DeviceDacl := DeviceDacl h; SymbolicLink := SymbolicLink h;
         ObCallbacks := ObCallbacks h; ProcessNotifyRoutine := ProcessNotifyRoutine h;
         Filter := Filter h; Filtering := Filtering h; HeartbeatTimer := HeartbeatTimer h;
         Sids := Sids h; PoolBlocks := PoolBlocks h |}.
Proof. destruct h. reflexivity. Qed.

(** The DACL routine, run: its status, and the one thing it changes. *)
Lemma TadSetDeviceDacl_run (r : DACL_RESULTS) (d : TAD_DRIVER) (h : HOST) :
  exists status,
    TadSetDeviceDacl r (d, h)
    = (status, (d, if dacl_succeeds r then set_DeviceDacl true h else h))
    /\ NT_SUCCESS status = dacl_succeeds r.
Proof.
  unfold TadSetDeviceDacl, dacl_succeeds, Cleanup. cbv zeta.
  destruct h as [dv dd sl ob pn fl fg tm sids pool].
  destruct (NT_SUCCESS (AllocateSystemSid r)) eqn:E1; cbn [negb andb];
    [|eexists; split; [reflexivity | exact E1]].
  destruct (NT_SUCCESS (AllocateAdminsSid r)) eqn:E2; cbn [negb andb];
    [|eexists; split; [reflexivity | exact E2]].
  destruct (ExAllocatePool2 r) eqn:E3; cbn [negb andb];
    [|eexists; split; [reflexivity | vm_compute; reflexivity]].
  destruct (NT_SUCCESS (RtlCreateAcl r)) eqn:E4; cbn [negb andb];
    [|eexists; split; [reflexivity | exact E4]].
  destruct (NT_SUCCESS (RtlCreateSecurityDescriptor r)) eqn:E5; cbn [negb andb];
    [|eexists; split; [reflexivity | exact E5]].
  destruct (NT_SUCCESS (ObSetSecurityObjectByPointer r)) eqn:E6; cbn [negb andb];
    eexists; (split; [reflexivity | exact E6]).
Qed.

(** X16.  [TadSetDeviceDacl] frees on every path what it has allocated:
    whichever of its six kernel calls fails, no SID and no pool block is
    outstanding when it returns.  It reports success exactly when all
    six succeed, and only then is the DACL on the device; nothing else
    of the driver or of what the kernel holds for it changes. *)
Theorem TadSetDeviceDacl_frees_what_it_allocates :
  forall (r : DACL_RESULTS) (d : TAD_DRIVER) (h : HOST),
    let status := fst (TadSetDeviceDacl r (d, h)) in
    let h' := snd (snd (TadSetDeviceDacl r (d, h))) in
    Sids h' = Sids h
    /\ PoolBlocks h' = PoolBlocks h
    /\ NT_SUCCESS status = dacl_succeeds r
    /\ snd (TadSetDeviceDacl r (d, h))
       = (d, if NT_SUCCESS status then set_DeviceDacl true h else h).
Proof.
  intros r d h. cbv zeta.
  destruct (TadSetDeviceDacl_run r d h) as (status & E & S).
  rewrite E. cbn [fst snd]. rewrite S.
  destruct (dacl_succeeds r); repeat split; reflexivity.
Qed.

Ltac step_sys :=
  unfold Sys.bind at 1;
  match goal with
  | |- context [Sys.read ?f (?d, ?h)] =>
      change (Sys.read f (d, h)) with (f d, (d, h))
  | |- context [Sys.host ?f (?d, ?h)] =>
      change (Sys.host f (d, h)) with (tt, (d, f h))
  | |- context [Sys.globals ?f (?d, ?h)] =>
      change (Sys.globals f (d, h)) with (tt, (set_Globals (f (Globals d)) d, h))
  | |- context [Sys.driver ?f (?d, ?h)] =>
      change (Sys.driver f (d, h)) with (tt, (f d, h))
  | |- context [Sys.ret ?a (?d, ?h)] =>
      change (Sys.ret a (d, h)) with (a, (d, h))
  end; cbv beta iota.

Lemma TadCreateDeviceAndSymlink_run (r : LOAD_RESULTS) (d : TAD_DRIVER) (h : HOST) :
  TadCreateDeviceAndSymlink r (d, h)
  = if NT_SUCCESS (fst (IoCreateDevice r))
    then if NT_SUCCESS (IoCreateSymbolicLink r)
         then (STATUS_SUCCESS,
               (set_SymbolicLinkCreated true (set_DeviceObject (snd (IoCreateDevice r)) d),
                set_SymbolicLink true (set_Device true h)))
         else (IoCreateSymbolicLink r,
               (set_DeviceObject 0 (set_DeviceObject (snd (IoCreateDevice r)) d),
                IoDeleteDevice (set_Device true h)))
    else (fst (IoCreateDevice r), (d, h)).
Proof.
  unfold TadCreateDeviceAndSymlink.
  destruct (IoCreateDevice r) as [s dev]. cbn [fst snd].
  destruct (NT_SUCCESS s); cbn [negb]; [|reflexivity].
  destruct (NT_SUCCESS (IoCreateSymbolicLink r)); reflexivity.
Qed.

Lemma TadRegisterProcessProtection_run (r : LOAD_RESULTS) (d : TAD_DRIVER) (h : HOST) :
  ObCallbackHandle (Globals d) = 0 ->
  TadRegisterProcessProtection r (d, h)
  = (fst (ObRegisterCallbacks r),
     if NT_SUCCESS (fst (ObRegisterCallbacks r))
     then (set_Globals (set_ObCallbackHandle (snd (ObRegisterCallbacks r)) (Globals d)) d,
           set_ObCallbacks true h)
     else (set_Globals (set_ObCallbackHandle 0 (Globals d)) d, h)).
Proof.
  intros H. unfold TadRegisterProcessProtection.
  step_sys. rewrite H. cbn [Z.eqb negb].
  destruct (ObRegisterCallbacks r) as [s ob]. cbn [fst snd].
  destruct (NT_SUCCESS s); reflexivity.
Qed.

Lemma TadRegisterProcessNotify_run (r : LOAD_RESULTS) (d : TAD_DRIVER) (h : HOST) :
  ProcessNotifyRegistered d = false ->
  TadRegisterProcessNotify r (d, h)
  = (PsSetCreateProcessNotifyRoutineEx r,
     if NT_SUCCESS (PsSetCreateProcessNotifyRoutineEx r)
     then (set_ProcessNotifyRegistered true d, set_ProcessNotifyRoutine true h)
     else (d, h)).
Proof.
  intros H. unfold TadRegisterProcessNotify.
  step_sys. rewrite H.
  destruct (NT_SUCCESS (PsSetCreateProcessNotifyRoutineEx r)); reflexivity.
Qed.

Lemma NT_SUCCESS_STATUS_SUCCESS : NT_SUCCESS STATUS_SUCCESS = true.
Proof. vm_compute. reflexivity. Qed.

Lemma TadDriverEntry_run (r : LOAD_RESULTS) (d0 : TAD_DRIVER) :
  exists status d h,
    TadDriverEntry r (d0, nothing_held) = (status, (d, h))
    /\ (returns_objects r -> in_step d h)
    /\ AllowUnload (Globals d) = 0
    /\ if NT_SUCCESS (fst (IoCreateDevice r)) && NT_SUCCESS (IoCreateSymbolicLink r)
       then status = STATUS_SUCCESS
            /\ Globals d = DriverEntry (ObCallbackHandle (Globals d)) (FilterHandle (Globals d))
            /\ Device h = true /\ SymbolicLink h = true /\ HeartbeatTimer h = true
            /\ DeviceDacl h = dacl_succeeds (SetDeviceDacl r)
            /\ ObCallbacks h = NT_SUCCESS (fst (ObRegisterCallbacks r))
            /\ ProcessNotifyRoutine h = NT_SUCCESS (PsSetCreateProcessNotifyRoutineEx r)
            /\ Filtering h = NT_SUCCESS (fst (FltRegisterFilter r))
                             && NT_SUCCESS (FltStartFiltering r)
            /\ Filter h = Filtering h
       else NT_SUCCESS status = false
            /\ (status = fst (IoCreateDevice r) \/ status = IoCreateSymbolicLink r)
            /\ d = zeroed_g_Tad /\ h = nothing_held.
Proof.
  unfold TadDriverEntry, returns_objects.
  step_sys. unfold Sys.bind at 1. rewrite TadCreateDeviceAndSymlink_run.
  destruct (NT_SUCCESS (fst (IoCreateDevice r))) eqn:E1; cbn [negb andb].
  2:{ unfold Sys.ret. rewrite E1. cbn [negb].
      eexists _, _, _. split; [reflexivity|].
      split; [intros _; repeat split; try reflexivity; try discriminate|].
      split; [reflexivity|].
      split; [exact E1|]. split; [left; reflexivity|]. split; reflexivity. }
  destruct (NT_SUCCESS (IoCreateSymbolicLink r)) eqn:E2; cbn [negb andb].
  2:{ unfold Sys.ret. rewrite E2. cbn [negb].
      eexists _, _, _. split; [reflexivity|].
      split; [intros _; repeat split; try reflexivity; try discriminate|].
      split; [reflexivity|].
      split; [exact E2|]. split; [right; reflexivity|]. split; reflexivity. }
  rewrite NT_SUCCESS_STATUS_SUCCESS. cbn [negb].
  unfold Sys.bind at 1.
  match goal with
  | |- context [TadSetDeviceDacl ?rr (?d, ?h)] =>
      destruct (TadSetDeviceDacl_run rr d h) as (sd & Ed & _); rewrite Ed; clear Ed
  end.
  unfold Sys.bind at 1.
  rewrite TadRegisterProcessProtection_run by reflexivity.
  destruct (NT_SUCCESS (fst (ObRegisterCallbacks r))) eqn:E3;
    unfold Sys.bind at 1;
    rewrite TadRegisterProcessNotify_run by reflexivity;
    destruct (FltRegisterFilter r) as [s5 flt]; cbn [fst snd] in *;
    unfold TadInitHeartbeatWatchdog; run_sys;
    destruct (dacl_succeeds (SetDeviceDacl r));
    destruct (NT_SUCCESS (PsSetCreateProcessNotifyRoutineEx r));
    destruct (NT_SUCCESS s5);
    destruct (NT_SUCCESS (FltStartFiltering r));
    cbn [negb andb fst snd];
    (eexists _, _, _; split; [reflexivity|]);
    (split;
     [intros (Rdev & Rob & Rflt);
      specialize (Rdev eq_refl); apply Z.eqb_neq in Rdev;
      try (specialize (Rob eq_refl); apply Z.eqb_neq in Rob);
      try (specialize (Rflt eq_refl); apply Z.eqb_neq in Rflt);
      unfold in_step; cbn; rewrite ?Rdev, ?Rob, ?Rflt;
      repeat split; try reflexivity; try discriminate|]);
    repeat split; reflexivity.
Qed.

Ltac sys_eval :=
  cbv [Sys.bind Sys.ret Sys.when Sys.host Sys.driver Sys.globals Sys.read];
  cbn [fst snd negb
       Globals DeviceObject SymbolicLinkCreated ProcessNotifyRegistered
       set_Globals set_DeviceObject set_SymbolicLinkCreated set_ProcessNotifyRegistered
       Device DeviceDacl SymbolicLink ObCallbacks ProcessNotifyRoutine
       Filter Filtering HeartbeatTimer Sids PoolBlocks
       set_Device set_DeviceDacl set_SymbolicLink set_ObCallbacks
       set_ProcessNotifyRoutine set_Filter set_Filtering set_HeartbeatTimer
       IoDeleteDevice FltUnregisterFilter
       ObCallbackHandle FilterHandle AgentProcess ProtectedPid AllowUnload
       set_ObCallbackHandle set_FilterHandle set_AgentProcess set_ProtectedPid].

Lemma TadDriverUnload_refused (d : TAD_DRIVER) (h : HOST) :
  AllowUnload (Globals d) = 0 -> TadDriverUnload (d, h) = (tt, (d, h)).
Proof.
  intros A. unfold TadDriverUnload. step_sys. rewrite A. reflexivity.
Qed.

Lemma TadDriverUnload_permitted (d : TAD_DRIVER) (h : HOST) :
  in_step d h ->
  AllowUnload (Globals d) <> 0 ->
  exists d',
    TadDriverUnload (d, h) = (tt, (d', nothing_held))
    /\ DeviceObject d' = 0
    /\ SymbolicLinkCreated d' = false
    /\ ProcessNotifyRegistered d' = false
    /\ ObCallbackHandle (Globals d') = 0
    /\ FilterHandle (Globals d') = 0
    /\ ProtectedPid (Globals d') = 0
    /\ AgentProcess (Globals d') = 0
    /\ kept_by_unload (Globals d) (Globals d').
Proof.
  intros (I1 & I2 & I3 & I4 & I5 & I6 & I7 & I8 & I9) A.
  unfold kept_by_unload.
  destruct d as [g dev sl pn].
  destruct h as [hdev hdacl hsl hob hpn hflt hfg htm sids pool].
  cbn [Globals DeviceObject SymbolicLinkCreated ProcessNotifyRegistered
       Device DeviceDacl SymbolicLink ObCallbacks ProcessNotifyRoutine
       Filter Filtering HeartbeatTimer Sids PoolBlocks] in *.
  subst hdev hsl hob hpn hflt sids pool.
  unfold TadDriverUnload, TadStopHeartbeatWatchdog, TadUnregisterProcessNotify,
    TadUnregisterProcessProtection, TadCleanupDeviceAndSymlink.
  step_sys. cbn [Globals].
  destruct (Z.eqb_spec (AllowUnload g) 0) as [C|_]; [contradiction|].
  step_sys. step_sys.
  cbn [Globals FilterHandle].
  assert (Hf : hfg = true -> (FilterHandle g =? 0) = false).
  { intros F. apply I6 in F. apply negb_true_iff in F. exact F. }
  assert (Hd : hdacl = true -> (dev =? 0) = false).
  { intros F. apply I7 in F. apply negb_true_iff in F. exact F. }
  clear I6 I7.
  sys_eval.
  destruct (FilterHandle g =? 0) eqn:Ef; sys_eval;
    destruct pn; sys_eval;
    destruct (ObCallbackHandle g =? 0) eqn:Eo; sys_eval;
    destruct (AgentProcess g =? 0) eqn:Ea; sys_eval;
    destruct sl; sys_eval;
    destruct (dev =? 0) eqn:Ed; sys_eval;
    (destruct hfg; [try (specialize (Hf eq_refl); discriminate Hf)|]);
    (destruct hdacl; [try (specialize (Hd eq_refl); discriminate Hd)|]);
    (eexists; split; [reflexivity|]);
    repeat split; sys_eval; try reflexivity; apply Z.eqb_eq; assumption.
Qed.

Lemma handles_step k irp g s n out g' :
  TadDispatchDeviceControl k irp g = Completed s n out g' ->
  ObCallbackHandle g' = ObCallbackHandle g /\ FilterHandle g' = FilterHandle g.
Proof.
  by_opcode k irp g; open_handler; intros H; inversion H; subst; clear H;
    split; reflexivity.
Qed.

Lemma run_requests_handles reqs g g' :
  run_requests reqs g = Some g' ->
  ObCallbackHandle g' = ObCallbackHandle g /\ FilterHandle g' = FilterHandle g.
Proof.
  revert g. induction reqs as [|[k irp] rest IH]; intros g R; cbn in R.
  - injection R as <-. split; reflexivity.
  - destruct (TadDispatchDeviceControl k irp g) as [s n out g1|] eqn:D; [|discriminate].
    destruct (IH g1 R) as [O F].
    destruct (handles_step k irp g s n out g1 D) as [O1 F1].
    split; congruence.
Qed.

Lemma in_step_requests (d : TAD_DRIVER) (h : HOST) reqs g' :
  in_step d h ->
  run_requests reqs (Globals d) = Some g' ->
  in_step (set_Globals g' d) h.
Proof.
  intros (I1 & I2 & I3 & I4 & I5 & I6) R.
  destruct (run_requests_handles reqs (Globals d) g' R) as [O F].
  unfold in_step. cbn [Globals DeviceObject SymbolicLinkCreated
                       ProcessNotifyRegistered set_Globals].
  rewrite O, F. repeat split; tauto.
Qed.

(** X17.  Loading fails exactly when the device or its symbolic link
    cannot be created; it then returns the status of the failing call
    and leaves nothing behind: a device already created is deleted
    again, and nothing is registered.  Otherwise it returns success
    whether or not the DACL, the object callbacks, the process-notify
    routine or the minifilter could be set up; the watchdog timer is
    set, the globals are an initial state of the command bridge, and
    what [g_Tad] records agrees with what the kernel holds: each
    protection is in place exactly when its registration succeeded, the
    minifilter only if it could also be started. *)
Theorem load_all_or_nothing :
  forall (r : LOAD_RESULTS) (d0 : TAD_DRIVER),
    returns_objects r ->
    exists status d h,
      TadDriverEntry r (d0, nothing_held) = (status, (d, h))
      /\ in_step d h
      /\ (NT_SUCCESS status = true
          <-> NT_SUCCESS (fst (IoCreateDevice r)) = true
              /\ NT_SUCCESS (IoCreateSymbolicLink r) = true)
      /\ (NT_SUCCESS status = false ->
          (status = fst (IoCreateDevice r) \/ status = IoCreateSymbolicLink r)
          /\ d = zeroed_g_Tad /\ h = nothing_held)
      /\ (NT_SUCCESS status = true ->
          status = STATUS_SUCCESS
          /\ reachable (Globals d)
          /\ Device h = true /\ SymbolicLink h = true /\ HeartbeatTimer h = true
          /\ DeviceDacl h = dacl_succeeds (SetDeviceDacl r)
          /\ ObCallbacks h = NT_SUCCESS (fst (ObRegisterCallbacks r))
          /\ ProcessNotifyRoutine h = NT_SUCCESS (PsSetCreateProcessNotifyRoutineEx r)
          /\ Filtering h = NT_SUCCESS (fst (FltRegisterFilter r))
                           && NT_SUCCESS (FltStartFiltering r)
          /\ Filter h = Filtering h).
Proof.
  intros r d0 Hr.
  destruct (TadDriverEntry_run r d0) as (status & d & h & E & I & _ & C).
  exists status, d, h. split; [exact E|]. split; [exact (I Hr)|].
  destruct (NT_SUCCESS (fst (IoCreateDevice r))) eqn:E1;
    destruct (NT_SUCCESS (IoCreateSymbolicLink r)) eqn:E2; cbn [andb] in C.
  1:{ destruct C as (-> & G & C). rewrite NT_SUCCESS_STATUS_SUCCESS.
      split; [tauto|]. split; [discriminate|]. intros _.
      split; [reflexivity|]. split; [rewrite G; apply reachable_entry | exact C]. }
  all: destruct C as (F & W & -> & ->); rewrite F;
    (split; [split; [discriminate | intros [? ?]; discriminate]|]);
    (split; [intros _; repeat split; try reflexivity; exact W | discriminate]).
Qed.

(** Only the device and its link can be set up: the driver loads, with
    no protection in place. *)
Lemma load_all_or_nothing_witness :
  exists status d h,
    TadDriverEntry only_device (zeroed_g_Tad, nothing_held) = (status, (d, h))
    /\ in_step d h
    /\ NT_SUCCESS status = true
    /\ ObCallbacks h = false /\ Filtering h = false.
Proof.
  destruct (load_all_or_nothing only_device zeroed_g_Tad)
    as (status & d & h & E & I & S & _ & T).
  - split; [|split]; vm_compute; intros; discriminate.
  - assert (Ok : NT_SUCCESS status = true).
    { apply S. split; vm_compute; reflexivity. }
    exists status, d, h. split; [exact E|]. split; [exact I|]. split; [exact Ok|].
    destruct (T Ok) as (_ & _ & _ & _ & _ & _ & O & _ & F & _).
    split; [exact O | exact F].
Defined.

(** X18.  A loaded driver stays loaded until the secret has been
    presented: after a successful load and any sequence of completed
    requests none of which is an Unlock whose secret verifies, the
    unload routine changes nothing, neither in [g_Tad] nor in what the
    kernel holds, and the minifilter refuses to detach. *)
Theorem unload_refused_without_secret :
  forall (r : LOAD_RESULTS) (d0 d : TAD_DRIVER) (h : HOST) (status : NTSTATUS)
         (reqs : list (KERNEL * IRP)) (g' : TAD_DRIVER_GLOBALS),
    TadDriverEntry r (d0, nothing_held) = (status, (d, h)) ->
    run_requests reqs (Globals d) = Some g' ->
    Forall (fun q => ~ verifying_unlock (snd q)) reqs ->
    TadDriverUnload (set_Globals g' d, h) = (tt, (set_Globals g' d, h))
    /\ TadFilterUnloadCallback g' = STATUS_FLT_DO_NOT_DETACH.
Proof.
  intros r d0 d h status reqs g' E R F.
  destruct (TadDriverEntry_run r d0) as (status' & d' & h' & E' & _ & A & _).
  rewrite E in E'. injection E' as <- <- <-.
  assert (A' : AllowUnload g' = 0).
  { destruct (Z.eq_dec (AllowUnload g') (AllowUnload (Globals d))) as [Same|N];
      [rewrite Same; exact A|].
    exfalso. apply (proj2 (run_requests_gate reqs (Globals d) g' R)) in N.
    apply Exists_exists in N. destruct N as (q & Hin & V).
    rewrite Forall_forall in F. exact (F q Hin V). }
  split.
  - apply TadDriverUnload_refused. exact A'.
  - unfold TadFilterUnloadCallback. rewrite A'. reflexivity.
Qed.

(** After a full load, five wrong secrets: the driver cannot be
    unloaded. *)
Lemma unload_refused_without_secret_witness :
  exists d h g',
    TadDriverEntry all_succeed (zeroed_g_Tad, nothing_held) = (STATUS_SUCCESS, (d, h))
    /\ run_requests (repeat (kernel_of 5000 77 100,
                             request IOCTL_TAD_UNLOCK (repeat x00 32)) 5)
                    (Globals d) = Some g'
    /\ TadDriverUnload (set_Globals g' d, h) = (tt, (set_Globals g' d, h))
    /\ Filtering h = true.
Proof.
  eexists _, _, _.
  split; [vm_compute; reflexivity|]. split; [vm_compute; reflexivity|].
  split; [|vm_compute; reflexivity].
  refine (proj1 (unload_refused_without_secret all_succeed zeroed_g_Tad _ _
                   STATUS_SUCCESS
                   (repeat (kernel_of 5000 77 100,
                            request IOCTL_TAD_UNLOCK (repeat x00 32)) 5) _ _ _ _)).
  - vm_compute. reflexivity.
  - vm_compute. reflexivity.
  - repeat constructor; intros (_ & p & Hp & V); injection Hp as <-;
      vm_compute in V; discriminate V.
Defined.

(** X19.  Once the unload gate is open, unloading releases everything
    the load acquired, whatever the load achieved and whatever requests
    were served in between: the timer is cancelled, the minifilter, the
    process-notify routine and the object callbacks are unregistered if
    they were registered, the link and the device are deleted, and
    [g_Tad] records none of them, nor the service's protected
    identifier, nor an agent process.  The routine writes no other
    field: the overlay identifier [ProtectedUiPid] in particular is left
    as it was.  The minifilter agrees to detach. *)
Theorem unload_releases_what_load_acquired :
  forall (r : LOAD_RESULTS) (d0 d : TAD_DRIVER) (h : HOST) (status : NTSTATUS)
         (reqs : list (KERNEL * IRP)) (g' : TAD_DRIVER_GLOBALS),
    returns_objects r ->
    TadDriverEntry r (d0, nothing_held) = (status, (d, h)) ->
    run_requests reqs (Globals d) = Some g' ->
    AllowUnload g' <> 0 ->
    exists d',
      TadDriverUnload (set_Globals g' d, h) = (tt, (d', nothing_held))
      /\ DeviceObject d' = 0
      /\ SymbolicLinkCreated d' = false
      /\ ProcessNotifyRegistered d' = false
      /\ ObCallbackHandle (Globals d') = 0
      /\ FilterHandle (Globals d') = 0
      /\ ProtectedPid (Globals d') = 0
      /\ AgentProcess (Globals d') = 0
      /\ ProtectedUiPid (Globals d') = ProtectedUiPid g'
      /\ kept_by_unload g' (Globals d')
      /\ TadFilterUnloadCallback g' = STATUS_SUCCESS.
Proof.
  intros r d0 d h status reqs g' Hr E R A.
  destruct (TadDriverEntry_run r d0) as (status' & d' & h' & E' & I & _).
  rewrite E in E'. injection E' as <- <- <-.
  pose proof (in_step_requests d h reqs g' (I Hr) R) as I'.
  destruct (TadDriverUnload_permitted (set_Globals g' d) h I' A)
    as (d' & U & C).
  exists d'. split; [exact U|].
  destruct C as (C1 & C2 & C3 & C4 & C5 & C6 & C7 & K).
  cbn [Globals set_Globals] in K.
  do 7 (split; [assumption|]).
  split; [exact (proj1 K)|]. split; [exact K|].
  unfold TadFilterUnloadCallback.
  destruct (Z.eqb_spec (AllowUnload g') 0); [contradiction | reflexivity].
Qed.

(** After a full load, the agent registers, protects the overlay 88 and
    presents the secret: unloading leaves nothing with the kernel and
    clears the service identifier; the overlay identifier is still 88. *)
Lemma unload_releases_what_load_acquired_witness :
  ProtectedPid unlocked_globals = 4321
  /\ ProtectedUiPid unlocked_globals = 88
  /\ Filtering (snd fully_loaded) = true
  /\ exists d',
       TadDriverUnload (set_Globals unlocked_globals (fst fully_loaded), snd fully_loaded)
       = (tt, (d', nothing_held))
       /\ ProtectedPid (Globals d') = 0
       /\ ProtectedUiPid (Globals d') = 88.
Proof.
  split; [vm_compute; reflexivity|]. split; [vm_compute; reflexivity|].
  split; [vm_compute; reflexivity|].
  destruct (unload_releases_what_load_acquired all_succeed zeroed_g_Tad
              (fst fully_loaded) (snd fully_loaded) STATUS_SUCCESS
              agent_unlocks unlocked_globals)
    as (d' & U & _ & _ & _ & _ & _ & P & _ & Ui & _).
  - split; [|split]; vm_compute; intros; discriminate.
  - vm_compute. reflexivity.
  - vm_compute. reflexivity.
  - vm_compute. discriminate.
  - exists d'. split; [exact U|]. split; [exact P|].
    rewrite Ui. vm_compute. reflexivity.
Defined.

(** ** Settings in reachable states *)

Ltac globals_fields :=
  cbn [ProtectedPid ObCallbackHandle AllowUnload InputLocked ProtectedUiPid
       StealthActive StealthFlags FailedUnlockAttempts LockoutUntil FilterHandle
       AgentProcess LastHeartbeatTime HeartbeatAlive CurrentPolicy PolicyValid
       CurrentUserRole Banned
       set_ProtectedPid set_AllowUnload set_InputLocked set_ProtectedUiPid
       set_StealthActive set_StealthFlags set_FailedUnlockAttempts set_LockoutUntil
       set_AgentProcess set_LastHeartbeatTime set_HeartbeatAlive set_CurrentPolicy
       set_PolicyValid set_CurrentUserRole set_Banned set_ObCallbackHandle
       set_FilterHandle] in *.

Lemma settings_step k irp g s n out g' :
  settings_consistent g ->
  TadDispatchDeviceControl k irp g = Completed s n out g' ->
  settings_consistent g'.
Proof.
  intros (P & I & H & S & A & R1 & R2).
  by_opcode k irp g; open_handler; intros E; inversion E; subst; clear E;
    unfold settings_consistent; globals_fields;
    try (repeat split; assumption).
  all: repeat match goal with
              | |- _ /\ _ => split
              end; try assumption; try tauto.
  - intros Z0. rewrite Z0 in *. discriminate.
  - apply ULONG_at_range.
  - apply ULONG_at_range.
  - right. split; [reflexivity|].
    match goal with
    | V : negb (Version _ =? 1) = false |- _ =>
        apply negb_false_iff, Z.eqb_eq in V; exact V
    end.
  - apply ULONG_at_range.
  - apply ULONG_at_range.
  - lia.
  - lia.
Qed.

Lemma reachable_settings (g : TAD_DRIVER_GLOBALS) :
  reachable g -> settings_consistent g.
Proof.
  intros R.
  induction R as [ob flt | k irp g s n out g' _ IH E | g _ IH].
  - unfold settings_consistent. cbn [DriverEntry PolicyValid CurrentPolicy InputLocked
      HeartbeatAlive StealthActive StealthFlags ProtectedPid AgentProcess ProtectedUiPid].
    repeat split; try tauto; try lia.
  - exact (settings_step k irp g s n out g' IH E).
  - destruct IH as (P & I & H & S & A & R1 & R2).
    unfold settings_consistent, TadHeartbeatDpcRoutine. cbn [snd]. globals_fields.
    repeat split; try tauto; try lia.
Qed.

Lemma policy_stays_valid k irp g s n out g' :
  TadDispatchDeviceControl k irp g = Completed s n out g' ->
  PolicyValid g = 1 -> PolicyValid g' = 1.
Proof.
  by_opcode k irp g; open_handler; intros E V; inversion E; subst; clear E;
    globals_fields; try assumption; reflexivity.
Qed.

(** X20.  In every reachable state the switches of the globals are
    consistent.  The policy is either absent, with every field zero, or
    marked valid with version 1: once valid it is never withdrawn, and
    no policy of another version is ever in force.  The input lock, the
    heartbeat flag and the stealth switch are 0 or 1, and stealth flags
    are kept only while stealth is on.  The two protected identifiers
    are 32-bit values, and an agent process is recorded only together
    with a protected identifier. *)
Theorem settings_stay_consistent :
  forall g : TAD_DRIVER_GLOBALS,
    reachable g ->
    ((PolicyValid g = 0 /\ CurrentPolicy g = zero_POLICY_BUFFER)
     \/ (PolicyValid g = 1 /\ Version (CurrentPolicy g) = 1))
    /\ (InputLocked g = 0 \/ InputLocked g = 1)
    /\ (HeartbeatAlive g = 0 \/ HeartbeatAlive g = 1)
    /\ ((StealthActive g = 0 /\ StealthFlags g = 0) \/ StealthActive g = 1)
    /\ (ProtectedPid g = 0 -> AgentProcess g = 0)
    /\ 0 <= ProtectedPid g < 2 ^ 32
    /\ 0 <= ProtectedUiPid g < 2 ^ 32
    /\ (forall k irp s n out g',
          TadDispatchDeviceControl k irp g = Completed s n out g' ->
          PolicyValid g = 1 -> PolicyValid g' = 1).
Proof.
  intros g R. destruct (reachable_settings g R) as (P & I & H & S & A & R1 & R2).
  do 6 (split; [assumption|]). split; [assumption|].
  intros k irp s n out g'. apply policy_stays_valid.
Qed.

(** With [{"a.exe", "b.exe"}] in force, the policy is valid with
    version 1. *)
Lemma settings_stay_consistent_witness :
  PolicyValid banning_a_b = 1 /\ Version (CurrentPolicy banning_a_b) = 1.
Proof.
  destruct (settings_stay_consistent banning_a_b) as ([[V _]|P] & _).
  - apply (run_requests_reachable (agent_pushes 2 [L "a.exe"; L "b.exe"])
             (DriverEntry 1 1)).
    + apply reachable_entry.
    + vm_compute. reflexivity.
  - exfalso. vm_compute in V. discriminate V.
  - exact P.
Defined.

(** ** The banned-app table within its arrays *)

Lemma store_banned_app_rows i srcLen name t :
  (i < length (BannedAppStorage t))%nat ->
  (srcLen < TAD_MAX_IMAGE_NAME_LEN)%nat ->
  length name = TAD_MAX_IMAGE_NAME_LEN ->
  Forall (fun row => length row = TAD_MAX_IMAGE_NAME_LEN) (BannedAppStorage t) ->
  length (BannedApps (store_banned_app i srcLen name t)) = length (BannedApps t)
  /\ length (BannedAppStorage (store_banned_app i srcLen name t))
     = length (BannedAppStorage t)
  /\ Forall (fun row => length row = TAD_MAX_IMAGE_NAME_LEN)
            (BannedAppStorage (store_banned_app i srcLen name t)).
Proof.
  intros Hi Hs Hn Hrows. unfold store_banned_app. cbn [BannedApps BannedAppStorage].
  rewrite !wr_length. split; [reflexivity|]. split; [reflexivity|].
  apply Forall_wr; [exact Hrows|].
  assert (Hrow : length (rd [] (BannedAppStorage t) i) = TAD_MAX_IMAGE_NAME_LEN).
  { rewrite Forall_forall in Hrows. apply Hrows. unfold rd. apply nth_In. exact Hi. }
  rewrite length_app, length_firstn, length_skipn, Hrow, Hn. lia.
Qed.

Lemma banned_apps_loop_rows p n i t :
  (i + n <= TAD_MAX_BANNED_APPS)%nat ->
  length (BannedApps t) = TAD_MAX_BANNED_APPS ->
  length (BannedAppStorage t) = TAD_MAX_BANNED_APPS ->
  Forall (fun row => length row = TAD_MAX_IMAGE_NAME_LEN) (BannedAppStorage t) ->
  let t' := banned_apps_loop n i p t in
  length (BannedApps t') = TAD_MAX_BANNED_APPS
  /\ length (BannedAppStorage t') = TAD_MAX_BANNED_APPS
  /\ Forall (fun row => length row = TAD_MAX_IMAGE_NAME_LEN) (BannedAppStorage t').
Proof.
  revert i t. induction n as [|n IH]; intros i t Hin La Ls Hrows; cbv zeta.
  - cbn [banned_apps_loop]. auto.
  - cbn [banned_apps_loop].
    set (srcLen := scan_name TAD_MAX_IMAGE_NAME_LEN 0 (BANNED_APPS_ImageName p i) 0).
    destruct (Nat.eqb_spec srcLen 0) as [E|E]; cbn [orb];
      [apply IH; try assumption; lia|].
    destruct (Nat.leb_spec TAD_MAX_IMAGE_NAME_LEN srcLen);
      [apply IH; try assumption; lia|].
    destruct (store_banned_app_rows i srcLen (BANNED_APPS_ImageName p i) t)
      as (Ra & Rs & Rr); try assumption.
    { rewrite Ls. lia. }
    { apply ImageName_length. }
    apply IH; [lia | congruence | congruence | exact Rr].
Qed.

Lemma cleared_table_in_bounds : table_in_bounds cleared_BANNED_APP_TABLE.
Proof.
  unfold table_in_bounds, cleared_BANNED_APP_TABLE.
  cbn [BannedAppCount BannedApps BannedAppStorage].
  rewrite !repeat_length. split; [cbn; lia|]. split; [reflexivity|].
  split; [reflexivity|]. split.
  - apply Forall_forall. intros row Hrow. apply repeat_spec in Hrow. subst row.
    apply repeat_length.
  - apply cleared_table_slots.
Qed.

Lemma updated_table_in_bounds (p : list byte) :
  BANNED_APPS_Count p <= Z.of_nat TAD_MAX_BANNED_APPS ->
  table_in_bounds (banned_apps_loop (Z.to_nat (BANNED_APPS_Count p)) 0 p
                     cleared_BANNED_APP_TABLE).
Proof.
  intros Hc.
  pose proof (ULONG_at_range p 0) as Hr. fold (BANNED_APPS_Count p) in Hr.
  destruct cleared_table_in_bounds as (_ & La & Ls & Rows & Slots).
  set (N := Z.to_nat (BANNED_APPS_Count p)).
  assert (HN : (0 + N <= TAD_MAX_BANNED_APPS)%nat) by (subst N; lia).
  destruct (banned_apps_loop_spec p N 0 cleared_BANNED_APP_TABLE La Ls HN)
    as [Cnt _].
  { cbn. lia. }
  destruct (banned_apps_loop_rows p N 0 cleared_BANNED_APP_TABLE HN La Ls Rows)
    as (La' & Ls' & Rows').
  cbv zeta in *. unfold table_in_bounds.
  split; [|split; [exact La'|split; [exact Ls'|split; [exact Rows'|]]]].
  - rewrite Cnt. cbn [cleared_BANNED_APP_TABLE BannedAppCount Z.add].
    pose proof (filter_length_le valid_entry
                  (map (BANNED_APPS_ImageName p) (seq 0 N))) as F.
    rewrite length_map, length_seq in F. lia.
  - apply banned_apps_loop_slots. exact Slots.
Qed.

Lemma table_step k irp g s n out g' :
  table_in_bounds (Banned g) ->
  TadDispatchDeviceControl k irp g = Completed s n out g' ->
  table_in_bounds (Banned g').
Proof.
  intros T.
  by_opcode k irp g; open_handler; intros E; inversion E; subst; clear E;
    try exact T.
  cbn [Banned set_Banned]. apply updated_table_in_bounds.
  match goal with
  | V : (_ <? BANNED_APPS_Count _) = false |- _ => apply Z.ltb_ge in V; exact V
  end.
Qed.

(** X21.  In every reachable state the banned-app table stays within
    its arrays: the count the launch intercept loops up to is at most
    32, the number of slots; every storage row keeps its 64 code units;
    and every slot is either cleared, with length 0, or holds a pattern
    of 1 to 63 code units, so that a comparison never reads past the
    row the slot points into. *)
Theorem banned_table_stays_in_bounds :
  forall g : TAD_DRIVER_GLOBALS,
    reachable g ->
    0 <= BannedAppCount (Banned g) <= 32
    /\ length (BannedApps (Banned g)) = 32%nat
    /\ length (BannedAppStorage (Banned g)) = 32%nat
    /\ (forall row, In row (BannedAppStorage (Banned g)) -> length row = 64%nat)
    /\ (forall e, In e (BannedApps (Banned g)) ->
          (Buffer e = None /\ Length e = 0)
          \/ (Buffer e <> None /\ 2 <= Length e <= 126 /\ Length e mod 2 = 0)).
Proof.
  intros g R.
  assert (T : table_in_bounds (Banned g)).
  { induction R as [ob flt | k irp g s n out g' _ IH E | g _ IH].
    - apply cleared_table_in_bounds.
    - exact (table_step k irp g s n out g' IH E).
    - exact IH. }
  destruct T as (C & La & Ls & Rows & Slots).
  unfold TAD_MAX_BANNED_APPS, TAD_MAX_IMAGE_NAME_LEN in *.
  split; [cbn in C; lia|]. split; [exact La|]. split; [exact Ls|]. split.
  - rewrite Forall_forall in Rows. exact Rows.
  - rewrite Forall_forall in Slots. intros e He.
    destruct (Slots e He) as [Z0|(B & L0 & M)]; [left; exact Z0|].
    right. split; [exact B|]. split; [|exact M].
    unfold TAD_MAX_IMAGE_NAME_LEN in L0.
    assert (Length e <> 127).
    { intros E127. rewrite E127 in M. vm_compute in M. discriminate M. }
    cbn in L0. lia.
Qed.

(** With [{"a.exe", "b.exe"}] in force, two slots are counted. *)
Lemma banned_table_stays_in_bounds_witness :
  BannedAppCount (Banned banning_a_b) = 2
  /\ 0 <= BannedAppCount (Banned banning_a_b) <= 32.
Proof.
  split; [vm_compute; reflexivity|].
  refine (proj1 (banned_table_stays_in_bounds banning_a_b _)).
  apply (run_requests_reachable (agent_pushes 2 [L "a.exe"; L "b.exe"])
           (DriverEntry 1 1)).
  - apply reachable_entry.
  - vm_compute. reflexivity.
Defined.

(** ** Policy and list together *)

Lemma SetPolicy_accepted k irp g p :
  IoControlCode irp = IOCTL_TAD_SET_POLICY ->
  sizeof_TAD_POLICY_BUFFER <= InputBufferLength irp ->
  SystemBuffer irp = Some p ->
  TadIsCallerProtectedAgent k g = true ->
  Version (as_POLICY_BUFFER p) = 1 ->
  TadDispatchDeviceControl k irp g
  = complete STATUS_SUCCESS
      (set_PolicyValid 1 (set_CurrentPolicy (as_POLICY_BUFFER p) g)).
Proof.
  intros Hc Hlen Hbuf Hagent Hv.
  rewrite dispatch_SetPolicy by exact Hc. unfold Ioctl_SetPolicy.
  rewrite Hbuf, Hagent, Hv. cbn [negb andb].
  destruct (Z.ltb_spec (InputBufferLength irp) sizeof_TAD_POLICY_BUFFER); [lia|].
  rewrite andb_false_r. reflexivity.
Qed.

(** X22.  The agent may push the policy and the banned-app list in
    either order: both requests are accepted each way and lead to the
    same state, in which the policy is the one pushed and the list is
    the one the update built.  A list pushed while the block-apps flag
    is off is therefore in force as soon as a policy with the flag is
    accepted, and a later policy does not disturb the list. *)
Theorem policy_and_list_in_either_order :
  forall (k : KERNEL) (policy list_update : IRP) (g : TAD_DRIVER_GLOBALS)
         (p b : list byte),
    TadIsCallerProtectedAgent k g = true ->
    IoControlCode policy = IOCTL_TAD_SET_POLICY ->
    sizeof_TAD_POLICY_BUFFER <= InputBufferLength policy ->
    SystemBuffer policy = Some p ->
    Version (as_POLICY_BUFFER p) = 1 ->
    IoControlCode list_update = IOCTL_TAD_SET_BANNED_APPS ->
    sizeof_TAD_BANNED_APPS_INPUT <= InputBufferLength list_update ->
    SystemBuffer list_update = Some b ->
    BANNED_APPS_Count b <= Z.of_nat TAD_MAX_BANNED_APPS ->
    exists g',
      run_requests [(k, policy); (k, list_update)] g = Some g'
      /\ run_requests [(k, list_update); (k, policy)] g = Some g'
      /\ CurrentPolicy g' = as_POLICY_BUFFER p
      /\ PolicyValid g' = 1
      /\ Banned g' = banned_apps_loop (Z.to_nat (BANNED_APPS_Count b)) 0 b
                       cleared_BANNED_APP_TABLE
      /\ BannedAppSet g'
         = map until_nul
             (filter valid_entry
                (firstn (length (filter valid_entry (input_entries b)))
                        (input_entries b))).
Proof.
  intros k policy list_update g p b Hagent Pc Pl Pb Pv Lc Ll Lb Lcount.
  pose proof (ULONG_at_range b 0) as Hr. fold (BANNED_APPS_Count b) in Hr.
  assert (Hcount : 0 <= BANNED_APPS_Count b <= Z.of_nat TAD_MAX_BANNED_APPS) by lia.
  exists (set_Banned (banned_apps_loop (Z.to_nat (BANNED_APPS_Count b)) 0 b
                        cleared_BANNED_APP_TABLE)
            (set_PolicyValid 1 (set_CurrentPolicy (as_POLICY_BUFFER p) g))).
  split.
  { cbn [run_requests].
    rewrite (SetPolicy_accepted k policy g p Pc Pl Pb Hagent Pv).
    unfold complete. cbv beta iota.
    rewrite (SetBannedApps_accepted k list_update
               (set_PolicyValid 1 (set_CurrentPolicy (as_POLICY_BUFFER p) g)) b Lc Ll Lb Hagent Hcount).
    reflexivity. }
  split.
  { cbn [run_requests].
    rewrite (SetBannedApps_accepted k list_update g b Lc Ll Lb Hagent Hcount).
    unfold complete. cbv beta iota.
    rewrite (SetPolicy_accepted k policy
               (set_Banned (banned_apps_loop (Z.to_nat (BANNED_APPS_Count b)) 0 b
                              cleared_BANNED_APP_TABLE) g) p Pc Pl Pb Hagent Pv).
    reflexivity. }
  split; [reflexivity|]. split; [reflexivity|]. split; [reflexivity|].
  apply (scanned_set_of_update _ b Hcount).
Qed.

(** The agent pushes [{"a.exe"}] first and the policy with the flag
    afterwards: launching [a.exe] is then denied. *)
Lemma policy_and_list_in_either_order_witness :
  exists g',
    run_requests
      [ (kernel_of 5321 4321 0,
         request IOCTL_TAD_SET_BANNED_APPS (mk_BANNED_APPS_INPUT 1 [L "a.exe"]));
        (kernel_of 5321 4321 0,
         request IOCTL_TAD_SET_POLICY (mk_POLICY_BUFFER 1 TAD_POLICY_FLAG_BLOCK_APPS)) ]
      agent_registered = Some g'
    /\ BannedAppSet g' = [L "a.exe"]
    /\ option_map CreationStatus
         (TadProcessNotifyCallback (fun c => c) g' (launch (L "\Apps\a.exe")))
       = Some STATUS_ACCESS_DENIED.
Proof.
  destruct (policy_and_list_in_either_order (kernel_of 5321 4321 0)
              (request IOCTL_TAD_SET_POLICY (mk_POLICY_BUFFER 1 TAD_POLICY_FLAG_BLOCK_APPS))
              (request IOCTL_TAD_SET_BANNED_APPS (mk_BANNED_APPS_INPUT 1 [L "a.exe"]))
              agent_registered
              (mk_POLICY_BUFFER 1 TAD_POLICY_FLAG_BLOCK_APPS)
              (mk_BANNED_APPS_INPUT 1 [L "a.exe"]))
    as (g' & _ & R & P & V & B & S).
  - vm_compute. reflexivity.
  - reflexivity.
  - vm_compute. discriminate.
  - reflexivity.
  - vm_compute. reflexivity.
  - reflexivity.
  - vm_compute. discriminate.
  - reflexivity.
  - vm_compute. discriminate.
  - exists g'. split; [exact R|]. split; [rewrite S; vm_compute; reflexivity|].
    unfold TadProcessNotifyCallback, launch. cbn [ImageFileName Buffer ustr Length].
    rewrite P, B. vm_compute. reflexivity.
Defined.

(** ** What a Heartbeat reports after a load *)

Lemma heartbeat_counts k irp g b :
  sized_heartbeat irp ->
  SystemBuffer irp = Some b ->
  exists hb,
    heartbeat_of (TadDispatchDeviceControl k irp g) = Some hb
    /\ hb_FailedUnlockAttempts hb = to_ULONG (FailedUnlockAttempts g)
    /\ hb_PolicyValid hb = to_ULONG (PolicyValid g)
    /\ hb_HeartbeatAlive hb = 1
    /\ DriverVersionMajor hb = TAD_VERSION_MAJOR
    /\ DriverVersionMinor hb = TAD_VERSION_MINOR.
Proof.
  intros [Hc Hlen] Hbuf. rewrite dispatch_Heartbeat by exact Hc.
  unfold Ioctl_Heartbeat. rewrite Hbuf.
  destruct (Z.ltb_spec (OutputBufferLength irp) sizeof_TAD_HEARTBEAT_OUTPUT); [lia|].
  eexists. split; [reflexivity|]. repeat split; reflexivity.
Qed.

(** X23.  After a successful load and any completed requests, a
    Heartbeat of sufficient size reports the state as it is: process
    protection exactly when the object callbacks are registered with the
    kernel, file protection exactly when the minifilter is filtering,
    the unload permission exactly when the gate is open, and the
    protected identifier, the failure count and the policy mark with
    the values the globals hold, none of them altered by the conversion
    to the unsigned fields of the record. *)
Theorem heartbeat_reports_the_state :
  forall (r : LOAD_RESULTS) (d0 d : TAD_DRIVER) (h : HOST) (status : NTSTATUS)
         (reqs : list (KERNEL * IRP)) (g' : TAD_DRIVER_GLOBALS)
         (k : KERNEL) (irp : IRP) (b : list byte),
    returns_objects r ->
    TadDriverEntry r (d0, nothing_held) = (status, (d, h)) ->
    NT_SUCCESS status = true ->
    run_requests reqs (Globals d) = Some g' ->
    sized_heartbeat irp ->
    SystemBuffer irp = Some b ->
    exists hb,
      heartbeat_of (TadDispatchDeviceControl k irp g') = Some hb
      /\ ProcessProtectionActive hb = ObCallbacks h
      /\ FileProtectionActive hb = Filtering h
      /\ UnlockPermitted hb = negb (AllowUnload g' =? 0)
      /\ hb_ProtectedPid hb = ProtectedPid g'
      /\ hb_FailedUnlockAttempts hb = FailedUnlockAttempts g'
      /\ hb_PolicyValid hb = PolicyValid g'.
Proof.
  intros r d0 d h status reqs g' k irp b Hr E Ok R Hhb Hb.
  destruct (TadDriverEntry_run r d0) as (status' & d' & h' & E' & I & _ & C).
  rewrite E in E'. injection E' as <- <- <-.
  destruct (I Hr) as (_ & _ & I3 & _ & I5 & _).
  assert (Both : NT_SUCCESS (fst (IoCreateDevice r))
                 && NT_SUCCESS (IoCreateSymbolicLink r) = true).
  { destruct (NT_SUCCESS (fst (IoCreateDevice r))
              && NT_SUCCESS (IoCreateSymbolicLink r)); [reflexivity|].
    destruct C as (F & _). congruence. }
  rewrite Both in C. destruct C as (_ & G & _ & _ & _ & _ & _ & _ & _ & FF).
  assert (Reach : reachable g').
  { apply (run_requests_reachable reqs (Globals d)); [|exact R].
    rewrite G. apply reachable_entry. }
  destruct (run_requests_handles reqs (Globals d) g' R) as [HO HF].
  destruct (reachable_settings g' Reach) as (P & _ & _ & _ & _ & R1 & _).
  pose proof (reachable_failure_count g' Reach) as T.
  unfold TAD_MAX_UNLOCK_ATTEMPTS in T.
  destruct (heartbeat_snapshot k irp g' b Hhb Hb) as (hb & Ehb & _ & Sp & So & Sf & Su).
  destruct (heartbeat_counts k irp g' b Hhb Hb) as (hb' & Ehb' & Cf & Cp & _).
  rewrite Ehb in Ehb'. injection Ehb' as <-.
  exists hb. split; [exact Ehb|].
  split; [rewrite So, HO, I3; reflexivity|].
  split; [rewrite Sf, HF, <- FF, I5; reflexivity|].
  split; [exact Su|].
  split; [rewrite Sp; apply to_ULONG_small; exact R1|].
  split; [rewrite Cf; apply to_ULONG_small; lia|].
  rewrite Cp. apply to_ULONG_small.
  destruct P as [[-> _]|[-> _]]; lia.
Qed.

(** Only the device could be set up; the agent registers; a Heartbeat
    then reports that neither protection is active. *)
Lemma heartbeat_reports_the_state_witness :
  exists hb,
    heartbeat_of
      (TadDispatchDeviceControl (kernel_of 5321 4321 0)
         {| IoControlCode := IOCTL_TAD_HEARTBEAT; InputBufferLength := 0;
            OutputBufferLength := 28; SystemBuffer := Some (repeat x00 28) |}
         (state_after_on
            [ (kernel_of 5321 4321 0,
               request IOCTL_TAD_PROTECT_PID (mk_PROTECT_PID_INPUT 4321 0)) ]
            (Globals (fst (snd (TadDriverEntry only_device
                                  (zeroed_g_Tad, nothing_held)))))))
    = Some hb
    /\ ProcessProtectionActive hb = false
    /\ FileProtectionActive hb = false
    /\ hb_ProtectedPid hb = 4321.
Proof.
  destruct (heartbeat_reports_the_state only_device zeroed_g_Tad
              (fst (snd (TadDriverEntry only_device (zeroed_g_Tad, nothing_held))))
              (snd (snd (TadDriverEntry only_device (zeroed_g_Tad, nothing_held))))
              STATUS_SUCCESS
              [ (kernel_of 5321 4321 0,
                 request IOCTL_TAD_PROTECT_PID (mk_PROTECT_PID_INPUT 4321 0)) ]
              (state_after_on
                 [ (kernel_of 5321 4321 0,
                    request IOCTL_TAD_PROTECT_PID (mk_PROTECT_PID_INPUT 4321 0)) ]
                 (Globals (fst (snd (TadDriverEntry only_device
                                       (zeroed_g_Tad, nothing_held))))))
              (kernel_of 5321 4321 0)
              {| IoControlCode := IOCTL_TAD_HEARTBEAT; InputBufferLength := 0;
                 OutputBufferLength := 28; SystemBuffer := Some (repeat x00 28) |}
              (repeat x00 28))
    as (hb & E & O & F & _ & P & _).
  - split; [|split]; vm_compute; intros; discriminate.
  - vm_compute. reflexivity.
  - vm_compute. reflexivity.
  - vm_compute. reflexivity.
  - split; [reflexivity | vm_compute; discriminate].
  - reflexivity.
  - exists hb. split; [exact E|].
    split; [rewrite O; vm_compute; reflexivity|].
    split; [rewrite F; vm_compute; reflexivity|].
    rewrite P. vm_compute. reflexivity.
Defined.

(** ** Replacing the banned-app set, at concrete lists *)

(** The agent pushes a list of two entries whose first is empty: the
    set the launch intercept compares against is empty. *)
Lemma SetBannedApps_scanned_prefix_witness :
  exists g',
    TadDispatchDeviceControl (kernel_of 5321 4321 0)
      (request IOCTL_TAD_SET_BANNED_APPS (mk_BANNED_APPS_INPUT 2 [[]; L "a.exe"]))
      agent_registered
    = complete STATUS_SUCCESS g'
    /\ BannedAppSet g' = [].
Proof.
  destruct (SetBannedApps_scanned_prefix (kernel_of 5321 4321 0)
              (request IOCTL_TAD_SET_BANNED_APPS
                 (mk_BANNED_APPS_INPUT 2 [[]; L "a.exe"]))
              agent_registered (mk_BANNED_APPS_INPUT 2 [[]; L "a.exe"]))
    as (g' & E & S).
  - reflexivity.
  - vm_compute. discriminate.
  - reflexivity.
  - vm_compute. reflexivity.
  - vm_compute. split; discriminate.
  - exists g'. split; [exact E|]. rewrite S. vm_compute. reflexivity.
Defined.

(** The agent pushes [{"a.exe", "b.exe"}]: that is the set in force. *)
Lemma SetBannedApps_all_valid_witness :
  exists g',
    TadDispatchDeviceControl (kernel_of 5321 4321 0)
      (request IOCTL_TAD_SET_BANNED_APPS
         (mk_BANNED_APPS_INPUT 2 [L "a.exe"; L "b.exe"]))
      agent_registered
    = complete STATUS_SUCCESS g'
    /\ BannedAppSet g' = [L "a.exe"; L "b.exe"].
Proof.
  destruct (SetBannedApps_all_valid (kernel_of 5321 4321 0)
              (request IOCTL_TAD_SET_BANNED_APPS
                 (mk_BANNED_APPS_INPUT 2 [L "a.exe"; L "b.exe"]))
              agent_registered (mk_BANNED_APPS_INPUT 2 [L "a.exe"; L "b.exe"]))
    as (g' & E & S).
  - reflexivity.
  - vm_compute. discriminate.
  - reflexivity.
  - vm_compute. reflexivity.
  - vm_compute. split; discriminate.
  - vm_compute. reflexivity.
  - exists g'. split; [exact E|]. rewrite S. vm_compute. reflexivity.
Defined.
